(** * docker_stats_viewer: snapshot catalog, container time series and summaries

  A shallow embedding of the core of [main.go]: the snapshot parser
  ([parseStatsFile]), the catalog loader ([loadAllStatsFiles]), the
  time-series reconstructor ([getContainerComparison]), the two aggregators
  ([getContainerComparisonWithStats], [getAllContainerSummaries]), the
  refresh step of the background goroutine of [main], the start of [main]
  and its four handlers, and the file names the collector script [run.sh]
  writes.

  Go values are embedded as follows.
  - [string] is a byte string ([Stdlib.Strings.String]).
  - [float64] is the kernel's binary64 type [float]; [>] and [<] are the
    IEEE comparisons, [+] and [/] round to nearest even.
  - [time.Time] is the wall clock reading in the value's own location
    together with the location's offset from UTC; instants are compared
    through the seconds elapsed since January 1 of year 1, UTC.
  - [map[string]T] is a [gmap string T]; the order in which [range] visits
    its keys is an explicit argument of the function that ranges.
  - [os], [bufio], [encoding/json] and the system clock are the fields of a
    [World]; [sort.Slice] is a [Sorter] that obeys the contract of package
    [sort].
  - [int] is an integer of 64 bits, held in [Z]; a length is a [nat].
  - A handler returns what it does with the request: the template it
    executes or the value it encodes, the error it answers with, or the
    panic of an index out of range. *)

From Stdlib Require Import ZArith List String Ascii Bool Lia.
From Stdlib Require Import Permutation Sorted.
From Stdlib Require Import Floats.
From Stdlib Require Import DecimalString DecimalNat.
From stdpp Require Import gmap strings.

Import ListNotations.
Local Open Scope string_scope.
Local Open Scope list_scope.
Local Open Scope Z_scope.

(** ** Package [strings] *)

Module strings.

Fixpoint rev_append (s acc : string) : string :=
  match s with
  | EmptyString => acc
  | String c s' => rev_append s' (String c acc)
  end.

Definition reverse (s : string) : string := rev_append s EmptyString.

(** [HasPrefix(s, prefix)]. *)
Fixpoint HasPrefix (s prefix : string) : bool :=
  match prefix, s with
  | EmptyString, _ => true
  | String _ _, EmptyString => false
  | String p prefix', String c s' => Ascii.eqb c p && HasPrefix s' prefix'
  end.

(** [HasSuffix(s, suffix)]. *)
Definition HasSuffix (s suffix : string) : bool :=
  HasPrefix (reverse s) (reverse suffix).

(** [TrimSuffix(s, suffix)]: [s] without the trailing [suffix], or [s]
    itself when it does not end with [suffix]. *)
Definition TrimSuffix (s suffix : string) : string :=
  if HasSuffix s suffix
  then String.substring 0 (String.length s - String.length suffix) s
  else s.

(** [Contains(s, sep)] and [Split(s, sep)], for a separator of one byte (the
    program calls both with "_"). *)
Fixpoint Contains (s : string) (sep : ascii) : bool :=
  match s with
  | EmptyString => false
  | String c s' => Ascii.eqb c sep || Contains s' sep
  end.

(** [splitFrom cur s sep]: the fields of [s], the first one prefixed by the
    bytes already read, [cur], held in reverse. *)
Fixpoint splitFrom (cur : string) (s : string) (sep : ascii) : list string :=
  match s with
  | EmptyString => [reverse cur]
  | String c s' =>
      if Ascii.eqb c sep
      then reverse cur :: splitFrom EmptyString s' sep
      else splitFrom (String c cur) s' sep
  end.

Definition Split (s : string) (sep : ascii) : list string :=
  splitFrom EmptyString s sep.

(** [TrimPrefix(s, prefix)]: [s] without the leading [prefix], or [s] itself
    when it does not start with [prefix]. *)
Definition TrimPrefix (s prefix : string) : string :=
  if HasPrefix s prefix
  then String.substring (String.length prefix) (String.length s - String.length prefix) s
  else s.

End strings.

(** ** Package [time]

    A [Time] holds the date and the clock reading shown in its own location
    and the offset of that location east of UTC, in seconds. [time.Parse]
    returns times in UTC; [time.Now] returns one in the local zone. The
    monotonic clock reading of [time.Now] is not modelled. *)

Module time.

Record Time := mkTime {
  Year : Z; Month : Z; Day : Z;
  Hour : Z; Minute : Z; Second : Z; Nanosecond : Z;
  zoneOffset : Z }.

(** [Time{}]: January 1, year 1, 00:00:00 UTC. *)
Definition zero : Time := mkTime 1 1 1 0 0 0 0 0.

Definition isLeap (year : Z) : bool :=
  (year mod 4 =? 0) && (negb (year mod 100 =? 0) || (year mod 400 =? 0)).

Definition daysIn (month year : Z) : Z :=
  if month =? 2 then (if isLeap year then 29 else 28)
  else if (month =? 4) || (month =? 6) || (month =? 9) || (month =? 11) then 30
  else 31.

(** Days of a common year that precede the first day of [month]. *)
Definition daysBefore (month : Z) : Z :=
  nth (Z.to_nat (month - 1)) [0; 31; 59; 90; 120; 151; 181; 212; 243; 273; 304; 334] 0.

(** Days from January 1 of year 1 to the given date (proleptic Gregorian). *)
Definition daysSinceYear1 (year month day : Z) : Z :=
  let y := year - 1 in
  365 * y + y / 4 - y / 100 + y / 400
  + daysBefore month + (if (2 <? month) && isLeap year then 1 else 0)
  + (day - 1).

(** Seconds from January 1 of year 1, 00:00:00 UTC, to the instant [t]. *)
Definition absSec (t : Time) : Z :=
  daysSinceYear1 (Year t) (Month t) (Day t) * 86400
  + Hour t * 3600 + Minute t * 60 + Second t - zoneOffset t.

(** [t.Before(u)] and [t.After(u)] compare instants. *)
Definition Before (t u : Time) : bool :=
  (absSec t <? absSec u) || ((absSec t =? absSec u) && (Nanosecond t <? Nanosecond u)).

Definition After (t u : Time) : bool := Before u t.

(** A layout is read as a sequence of chunks, as [nextStdChunk] cuts it:
    literal bytes and the reference time's elements. *)
Inductive chunk :=
| lit (c : ascii)
| stdLongYear     (* 2006 *)
| stdZeroMonth    (* 01 *)
| stdZeroDay      (* 02 *)
| stdHour         (* 15 *)
| stdZeroMinute   (* 04 *)
| stdZeroSecond.  (* 05 *)

(** The layout "2006-01-02_15-04-05" of [parseStatsFile]. The underscore is
    followed by 1, not by 2, so it is a literal byte. *)
Definition fileLayout : list chunk :=
  [stdLongYear; lit "-"; stdZeroMonth; lit "-"; stdZeroDay; lit "_";
   stdHour; lit "-"; stdZeroMinute; lit "-"; stdZeroSecond].

(** The layout "2006-01-02 15:04:05" of the data points. *)
Definition pointLayout : list chunk :=
  [stdLongYear; lit "-"; stdZeroMonth; lit "-"; stdZeroDay; lit " ";
   stdHour; lit ":"; stdZeroMinute; lit ":"; stdZeroSecond].

Definition isDigit (c : ascii) : bool :=
  (48 <=? Z.of_nat (nat_of_ascii c)) && (Z.of_nat (nat_of_ascii c) <=? 57).

Definition digitVal (c : ascii) : Z := Z.of_nat (nat_of_ascii c) - 48.

Definition digitChar (d : Z) : ascii := ascii_of_nat (Z.to_nat (48 + d)).

(** [getnum(s, fixed)]: a number of one or two digits, of exactly two when
    [fixed]. *)
Definition getnum (s : string) (fixed : bool) : option (Z * string) :=
  match s with
  | String c0 s1 =>
      if isDigit c0 then
        match s1 with
        | String c1 s2 =>
            if isDigit c1 then Some (digitVal c0 * 10 + digitVal c1, s2)
            else if fixed then None else Some (digitVal c0, s1)
        | EmptyString => if fixed then None else Some (digitVal c0, s1)
        end
      else None
  | EmptyString => None
  end.

(** [stdLongYear]: exactly four digits. *)
Definition getyear (s : string) : option (Z * string) :=
  match s with
  | String a (String b (String c (String d rest))) =>
      if isDigit a && isDigit b && isDigit c && isDigit d
      then Some (((digitVal a * 10 + digitVal b) * 10 + digitVal c) * 10 + digitVal d, rest)
      else None
  | _ => None
  end.

Fixpoint cutspace (s : string) : string :=
  match s with
  | String " " s' => cutspace s'
  | _ => s
  end.

(** [skip(value, prefix)] for a prefix of one byte: a space of the layout
    stands for any run of spaces of the value (or its end), another byte for
    itself. *)
Definition skip (value : string) (c : ascii) : option string :=
  if Ascii.eqb c " " then
    match value with
    | String v _ => if Ascii.eqb v " " then Some (cutspace value) else None
    | EmptyString => Some value
    end
  else
    match value with
    | String v value' => if Ascii.eqb v c then Some value' else None
    | EmptyString => None
    end.

(** The digits [value] starts with, as a number together with their count,
    and what follows them; at most [keep] digits enter the number. *)
Fixpoint leadingDigits (value : string) (keep : nat) (acc : Z) (kept : nat) : Z * nat * string :=
  match value with
  | String c value' =>
      if isDigit c then
        match keep with
        | O => leadingDigits value' O acc kept
        | S keep' => leadingDigits value' keep' (acc * 10 + digitVal c) (S kept)
        end
      else (acc, kept, value)
  | EmptyString => (acc, kept, value)
  end.

(** A fractional second in the value that the layout does not mention: a
    comma or a period and digits, of which nine count. *)
Definition fractionalSecond (value : string) : Z * string :=
  match value with
  | String p (String d rest) =>
      if (Ascii.eqb p "." || Ascii.eqb p ",") && isDigit d then
        let '(ns, kept, rest') := leadingDigits (String d rest) 9 0 0 in
        (ns * 10 ^ Z.of_nat (9 - kept), rest')
      else (0, value)
  | _ => (0, value)
  end.

(** The loop of [Parse] over the layout's chunks. An element out of its range
    is an error (month 1-12, hour under 24, minute and second under 60); the
    day is checked against the month after the loop. *)
Fixpoint parseChunks (layout : list chunk) (value : string) (t : Time) : option Time :=
  match layout with
  | [] => match value with EmptyString => Some t | _ => None end
  | lit c :: layout' =>
      match skip value c with
      | Some value' => parseChunks layout' value' t
      | None => None
      end
  | stdLongYear :: layout' =>
      match getyear value with
      | Some (y, value') =>
          parseChunks layout' value'
            (mkTime y (Month t) (Day t) (Hour t) (Minute t) (Second t) (Nanosecond t) 0)
      | None => None
      end
  | stdZeroMonth :: layout' =>
      match getnum value true with
      | Some (m, value') =>
          if (m <=? 0) || (12 <? m) then None
          else parseChunks layout' value'
                 (mkTime (Year t) m (Day t) (Hour t) (Minute t) (Second t) (Nanosecond t) 0)
      | None => None
      end
  | stdZeroDay :: layout' =>
      match getnum value true with
      | Some (d, value') =>
          parseChunks layout' value'
            (mkTime (Year t) (Month t) d (Hour t) (Minute t) (Second t) (Nanosecond t) 0)
      | None => None
      end
  | stdHour :: layout' =>
      match getnum value false with
      | Some (h, value') =>
          if (h <? 0) || (24 <=? h) then None
          else parseChunks layout' value'
                 (mkTime (Year t) (Month t) (Day t) h (Minute t) (Second t) (Nanosecond t) 0)
      | None => None
      end
  | stdZeroMinute :: layout' =>
      match getnum value true with
      | Some (m, value') =>
          if (m <? 0) || (60 <=? m) then None
          else parseChunks layout' value'
                 (mkTime (Year t) (Month t) (Day t) (Hour t) m (Second t) (Nanosecond t) 0)
      | None => None
      end
  | stdZeroSecond :: layout' =>
      match getnum value true with
      | Some (s, value') =>
          if (s <? 0) || (60 <=? s) then None
          else
            let '(ns, value'') := fractionalSecond value' in
            parseChunks layout' value''
              (mkTime (Year t) (Month t) (Day t) (Hour t) (Minute t) s ns 0)
      | None => None
      end
  end.

(** [Parse(layout, value)]: [None] stands for a non-nil error, which Go
    returns together with [Time{}]. The layouts of the program name no zone,
    so the result is in UTC. *)
Definition Parse (layout : list chunk) (value : string) : option Time :=
  match parseChunks layout value (mkTime 0 (-1) (-1) 0 0 0 0 0) with
  | Some t =>
      let month := if Month t <? 0 then 1 else Month t in
      let day := if Day t <? 0 then 1 else Day t in
      if (day <? 1) || (daysIn month (Year t) <? day) then None
      else Some (mkTime (Year t) month day (Hour t) (Minute t) (Second t) (Nanosecond t) 0)
  | None => None
  end.

(** [t, _ := time.Parse(layout, value)]. *)
Definition parseOrZero (layout : list chunk) (value : string) : Time :=
  match Parse layout value with
  | Some t => t
  | None => zero
  end.

(** The decimal digits of [u], most significant first, before [acc]. *)
Fixpoint utoa (fuel : nat) (u : Z) (acc : string) : string :=
  match fuel with
  | O => acc
  | S fuel' =>
      let acc' := String (digitChar (u mod 10)) acc in
      if u <? 10 then acc' else utoa fuel' (u / 10) acc'
  end.

Fixpoint zeros (n : nat) : string :=
  match n with
  | O => EmptyString
  | S n' => String "0" (zeros n')
  end.

(** [appendInt(b, x, width)]: [x] in decimal, padded with zeros to [width]
    digits, after a minus sign when negative. *)
Definition appendInt (x : Z) (width : nat) : string :=
  let u := Z.abs x in
  let ds := utoa (S (Z.to_nat (Z.log2 u))) u EmptyString in
  String.append (if x <? 0 then "-" else EmptyString)
    (String.append (zeros (width - String.length ds)) ds).

(** [t.Format(layout)]. *)
Fixpoint Format (t : Time) (layout : list chunk) : string :=
  match layout with
  | [] => EmptyString
  | lit c :: layout' => String c (Format t layout')
  | stdLongYear :: layout' => String.append (appendInt (Year t) 4) (Format t layout')
  | stdZeroMonth :: layout' => String.append (appendInt (Month t) 2) (Format t layout')
  | stdZeroDay :: layout' => String.append (appendInt (Day t) 2) (Format t layout')
  | stdHour :: layout' => String.append (appendInt (Hour t) 2) (Format t layout')
  | stdZeroMinute :: layout' => String.append (appendInt (Minute t) 2) (Format t layout')
  | stdZeroSecond :: layout' => String.append (appendInt (Second t) 2) (Format t layout')
  end.

End time.

(** ** Package [strconv]

    [ParseFloat(s, 64)] by its documented behaviour: it accepts the decimal
    and hexadecimal floating-point literals of Go (digits may be separated by
    underscores) and the words inf, infinity and nan in any case, and returns
    the nearest [float64], ties to even. A string that is not of this syntax
    gives 0 and [ErrSyntax]; a value beyond the largest [float64] gives an
    infinity and [ErrRange]. *)

Module strconv.

Inductive NumError := ErrSyntax | ErrRange.

(** [c | 0x20]: an ASCII letter in lower case. *)
Definition lower (c : ascii) : ascii :=
  match c with
  | Ascii b0 b1 b2 b3 b4 _ b6 b7 => Ascii b0 b1 b2 b3 b4 true b6 b7
  end.

Definition isDigit (c : ascii) : bool := time.isDigit c.

Definition isHexLetter (c : ascii) : bool :=
  let n := Z.of_nat (nat_of_ascii (lower c)) in (97 <=? n) && (n <=? 102).

Definition hexLetterVal (c : ascii) : Z :=
  Z.of_nat (nat_of_ascii (lower c)) - 97 + 10.

(** The words [special] accepts, in any case: a sign may precede inf and
    infinity only. *)
Definition foldCase (c : ascii) : ascii :=
  let n := Z.of_nat (nat_of_ascii c) in
  if (65 <=? n) && (n <=? 90) then lower c else c.

Fixpoint lowerString (s : string) : string :=
  match s with
  | EmptyString => EmptyString
  | String c s' => String (foldCase c) (lowerString s')
  end.

Definition special (s : string) : option spec_float :=
  let w := lowerString s in
  if String.eqb w "inf" || String.eqb w "infinity"
     || String.eqb w "+inf" || String.eqb w "+infinity" then Some (S754_infinity false)
  else if String.eqb w "-inf" || String.eqb w "-infinity" then Some (S754_infinity true)
  else if String.eqb w "nan" then Some S754_nan
  else None.

(** What [readFloat] has read of the mantissa: the digits as a number in the
    base, how many of them followed the point, and whether a point, a digit
    and an underscore were seen. *)
Record mantissa := mkMantissa {
  mant : Z; fracDigits : Z; sawdot : bool; sawdigits : bool; underscores : bool }.

Fixpoint readMantissa (hex : bool) (s : string) (m : mantissa) : mantissa * string :=
  match s with
  | String c s' =>
      if Ascii.eqb c "_" then
        readMantissa hex s' (mkMantissa (mant m) (fracDigits m) (sawdot m) (sawdigits m) true)
      else if Ascii.eqb c "." then
        if sawdot m then (m, s)
        else readMantissa hex s' (mkMantissa (mant m) (fracDigits m) true (sawdigits m) (underscores m))
      else if isDigit c then
        readMantissa hex s'
          (mkMantissa (mant m * (if hex then 16 else 10) + time.digitVal c)
             (if sawdot m then fracDigits m + 1 else fracDigits m)
             (sawdot m) true (underscores m))
      else if hex && isHexLetter c then
        readMantissa hex s'
          (mkMantissa (mant m * 16 + hexLetterVal c)
             (if sawdot m then fracDigits m + 1 else fracDigits m)
             (sawdot m) true (underscores m))
      else (m, s)
  | EmptyString => (m, s)
  end.

(** The digits of an exponent: the number stops growing at 10000. *)
Fixpoint readExponent (s : string) (e : Z) (us : bool) : Z * bool * string :=
  match s with
  | String c s' =>
      if Ascii.eqb c "_" then readExponent s' e true
      else if isDigit c then
        readExponent s' (if e <? 10000 then e * 10 + time.digitVal c else e) us
      else (e, us, s)
  | EmptyString => (e, us, s)
  end.

(** [underscoreOK]: an underscore stands between two digits, or between the
    base prefix and a digit. [saw] is the kind of the last byte: 0 for the
    start, 1 for a digit or the prefix, 2 for an underscore, 3 otherwise. *)
Fixpoint underscoreLoop (hex : bool) (s : string) (saw : nat) : bool :=
  match s with
  | String c s' =>
      if isDigit c || (hex && isHexLetter c) then underscoreLoop hex s' 1%nat
      else if Ascii.eqb c "_" then
        match saw with
        | 1%nat => underscoreLoop hex s' 2%nat
        | _ => false
        end
      else
        match saw with
        | 2%nat => false
        | _ => underscoreLoop hex s' 3%nat
        end
  | EmptyString => match saw with 2%nat => false | _ => true end
  end.

Definition underscoreOK (s : string) : bool :=
  let s1 := match s with
            | String c s' => if Ascii.eqb c "-" || Ascii.eqb c "+" then s' else s
            | EmptyString => s
            end in
  match s1 with
  | String "0" (String p s2) =>
      if Ascii.eqb (lower p) "b" || Ascii.eqb (lower p) "o" || Ascii.eqb (lower p) "x"
      then underscoreLoop (Ascii.eqb (lower p) "x") s2 1%nat
      else underscoreLoop false s1 0%nat
  | _ => underscoreLoop false s1 0%nat
  end.

(** The number [readFloat] reads at the start of a string. *)
Record number := mkNumber {
  neg : bool; hex : bool; mantissaOf : Z; exponentOf : Z }.

(** [readFloat(s)]: the number read and the bytes left over. The exponent
    returned is that of the base: of 10, or of 2 for a hexadecimal number
    (one hexadecimal digit after the point counts four). *)
Definition readFloat (s : string) : option (number * string) :=
  match s with
  | EmptyString => None
  | String c0 _ =>
      let '(ng, s1) :=
        match s with
        | String "+" s' => (false, s')
        | String "-" s' => (true, s')
        | _ => (false, s)
        end in
      let '(hx, s2) :=
        match s1 with
        | String "0" (String x (String d s')) =>
            if Ascii.eqb (lower x) "x" then (true, String d s') else (false, s1)
        | _ => (false, s1)
        end in
      let '(m, s3) := readMantissa hx s2 (mkMantissa 0 0 false false false) in
      if negb (sawdigits m) then None
      else
        let frac := if hx then 4 * fracDigits m else fracDigits m in
        let finish (e : Z) (us : bool) (rest : string) :=
          let consumed := String.substring 0 (String.length s - String.length rest) s in
          if (underscores m || us) && negb (underscoreOK consumed) then None
          else Some (mkNumber ng hx (mant m) (e - frac), rest) in
        match s3 with
        | String ec s4 =>
            if Ascii.eqb (lower ec) (if hx then "p" else "e") then
              let '(esign, s5) :=
                match s4 with
                | String "+" s' => (1, s')
                | String "-" s' => (-1, s')
                | _ => (1, s4)
                end in
              match s5 with
              | String d _ =>
                  if isDigit d then
                    let '(e, us, rest) := readExponent s5 0 false in
                    finish (e * esign) us rest
                  else None
              | EmptyString => None
              end
            else if hx then None
            else finish 0 false s3
        | EmptyString => if hx then None else finish 0 false s3
        end
  end.

(** The [float64] nearest to the number, ties to even; an infinity when the
    number is beyond the largest [float64]. *)
Definition nearest (n : number) : spec_float :=
  let m := mantissaOf n in
  let e := exponentOf n in
  if m =? 0 then S754_zero (neg n)
  else if hex n then binary_normalize prec emax (if neg n then - m else m) e false
  else if 0 <=? e then binary_normalize prec emax ((if neg n then - m else m) * 10 ^ e) 0 false
  else SFdiv prec emax (S754_finite (neg n) (Z.to_pos m) 0)
                       (S754_finite false (Z.to_pos (10 ^ (- e))) 0).

(** [ParseFloat(s, 64)]: the value and the error ([None] is nil). *)
Definition ParseFloat (s : string) : float * option NumError :=
  match special s with
  | Some v => (SF2Prim v, None)
  | None =>
      match readFloat s with
      | Some (n, EmptyString) =>
          match nearest n with
          | S754_infinity sg => (SF2Prim (S754_infinity sg), Some ErrRange)
          | v => (SF2Prim v, None)
          end
      | _ => (0%float, Some ErrSyntax)
      end
  end.

(** [Atoi(s)] where [int] has 64 bits. A string of fewer than 19 bytes takes
    the fast path: a sign, then digits only. *)
Fixpoint atoiDigits (s : string) (n : Z) : option Z :=
  match s with
  | EmptyString => Some n
  | String ch s' => if isDigit ch then atoiDigits s' (n * 10 + time.digitVal ch) else None
  end.

Definition maxUint64 : Z := 2 ^ 64 - 1.

(** The loop of [ParseUint(s, 10, 64)]: it stops at the first byte that is
    no decimal digit, and at the first digit that takes the number beyond
    [maxUint64]. *)
Fixpoint parseUintLoop (s : string) (n : Z) : Z * option NumError :=
  match s with
  | EmptyString => (n, None)
  | String c s' =>
      if isDigit c then
        if maxUint64 / 10 + 1 <=? n then (maxUint64, Some ErrRange)
        else
          let n1 := n * 10 + time.digitVal c in
          if maxUint64 <? n1 then (maxUint64, Some ErrRange)
          else parseUintLoop s' n1
      else (0, Some ErrSyntax)
  end.

Definition ParseUint (s : string) : Z * option NumError :=
  match s with
  | EmptyString => (0, Some ErrSyntax)
  | _ => parseUintLoop s 0
  end.

(** [ParseInt(s, 10, 0)]. *)
Definition ParseInt (s : string) : Z * option NumError :=
  match s with
  | EmptyString => (0, Some ErrSyntax)
  | String c0 s' =>
      let '(ng, s1) :=
        if Ascii.eqb c0 "+" then (false, s')
        else if Ascii.eqb c0 "-" then (true, s')
        else (false, s) in
      match ParseUint s1 with
      | (_, Some ErrSyntax) => (0, Some ErrSyntax)
      | (un, _) =>
          let cutoff := 2 ^ 63 in
          if negb ng && (cutoff <=? un) then (cutoff - 1, Some ErrRange)
          else if ng && (cutoff <? un) then (- cutoff, Some ErrRange)
          else (if ng then - un else un, None)
      end
  end.

Definition Atoi (s : string) : Z * option NumError :=
  let sLen := String.length s in
  if (0 <? sLen)%nat && (sLen <? 19)%nat then
    match s with
    | String c0 s' =>
        let signed := Ascii.eqb c0 "-" || Ascii.eqb c0 "+" in
        let digits := if signed then s' else s in
        if signed && (String.length digits <? 1)%nat then (0, Some ErrSyntax)
        else
          match atoiDigits digits 0 with
          | Some n => (if Ascii.eqb c0 "-" then - n else n, None)
          | None => (0, Some ErrSyntax)
          end
    | EmptyString => (0, Some ErrSyntax)
    end
  else ParseInt s.

End strconv.

(** ** Package [encoding/json]

    The encoder has no text for a [float64] that is NaN or an infinity:
    [Encode] returns an UnsupportedValueError for a value that holds one, and
    writes nothing. *)

Module json.

(** [math.IsInf(f, 0) || math.IsNaN(f)]. *)
Definition unsupportedValue (f : float) : bool :=
  PrimFloat.is_infinity f || PrimFloat.is_nan f.

End json.

(** [float64(n)] for a length [n]: the nearest [float64]. *)
Definition float64_of_nat (n : nat) : float :=
  SF2Prim (binary_normalize prec emax (Z.of_nat n) 0 false).

(** ** Package [path/filepath] (Unix paths) *)

Module filepath.

Fixpoint joinWith (sep : string) (elems : list string) : string :=
  match elems with
  | [] => EmptyString
  | [e] => e
  | e :: rest => String.append e (String.append sep (joinWith sep rest))
  end.

(** The elements of a cleaned path, last one first: empty elements and "."
    are dropped, ".." removes the element before it, and is itself dropped
    at the root. *)
Fixpoint cleanElems (rooted : bool) (elems : list string) (stack : list string) : list string :=
  match elems with
  | [] => stack
  | e :: rest =>
      if String.eqb e "" || String.eqb e "." then cleanElems rooted rest stack
      else if String.eqb e ".." then
        match stack with
        | top :: stack' =>
            if String.eqb top ".." then cleanElems rooted rest (e :: stack)
            else cleanElems rooted rest stack'
        | [] => if rooted then cleanElems rooted rest stack
                else cleanElems rooted rest [e]
        end
      else cleanElems rooted rest (e :: stack)
  end.

Definition Clean (path : string) : string :=
  let rooted := strings.HasPrefix path "/" in
  let body := joinWith "/" (rev (cleanElems rooted (strings.Split path "/") [])) in
  let out := if rooted then String "/" body else body in
  if String.eqb out "" then "." else out.

(** [Join(dir, name)]. *)
Definition Join (dir name : string) : string :=
  match List.filter (fun e => negb (String.eqb e "")) [dir; name] with
  | [] => EmptyString
  | elems => Clean (joinWith "/" elems)
  end.

Fixpoint dropSlashes (rev_path : string) : string :=
  match rev_path with
  | String "/" s' => dropSlashes s'
  | _ => rev_path
  end.

(** [Base(path)]: the last element of the path. *)
Definition Base (path : string) : string :=
  if String.eqb path "" then "."
  else
    let trimmed := strings.reverse (dropSlashes (strings.reverse path)) in
    let last := List.last (strings.Split trimmed "/") EmptyString in
    if String.eqb last "" then "/" else last.

End filepath.

(** ** Package [sort]

    [sort.Slice] is not stable and its algorithm depends on the length of the
    slice. The program is embedded over any [Sorter]: a function that returns
    a permutation of its argument which is in ascending order whenever [less]
    is a transitive ordering of the elements, as the documentation of
    [sort.Interface] requires of it. [less] is given on elements: every
    closure the program passes reads the two elements and nothing else. *)

Module sort.

Record TransitiveOrdering {A : Type} (less : A -> A -> bool) (x : list A) : Prop := {
  less_irrefl : forall a, In a x -> less a a = false;
  less_trans : forall a b c, In a x -> In b x -> In c x ->
    less a b = true -> less b c = true -> less a c = true;
  less_negtrans : forall a b c, In a x -> In b x -> In c x ->
    less a b = false -> less b c = false -> less a c = false }.

(** No element is less than one that stands before it. *)
Definition Ascending {A : Type} (less : A -> A -> bool) (x : list A) : Prop :=
  StronglySorted (fun a b => less b a = false) x.

Class Sorter := {
  Slice : forall {A : Type}, (A -> A -> bool) -> list A -> list A;
  Slice_Permutation : forall (A : Type) (less : A -> A -> bool) (x : list A),
    Permutation x (Slice less x);
  Slice_Ascending : forall (A : Type) (less : A -> A -> bool) (x : list A),
    TransitiveOrdering less x -> Ascending less (Slice less x) }.

(** [insertionSortLessFunc], which [sort.Slice] runs on a slice of at most
    12 elements. The elements before position [i] are held last one first:
    [data[i]] moves left while it is less than its left neighbour. *)
Fixpoint insertLeft {A : Type} (less : A -> A -> bool) (a : A) (before : list A) : list A :=
  match before with
  | [] => [a]
  | b :: before' => if less a b then b :: insertLeft less a before' else a :: before
  end.

Definition insertionSort {A : Type} (less : A -> A -> bool) (data : list A) : list A :=
  rev (fold_left (fun before a => insertLeft less a before) data []).

End sort.

(** ** The types of [main.go] *)

Module DockerStat.
Record t := mk {
  BlockIO : string; CPUPerc : string; Container : string; ID : string;
  MemPerc : string; MemUsage : string; Name : string; NetIO : string;
  PIDs : string }.
End DockerStat.

Module StatsFile.
Record t := mk {
  Name : string; Timestamp : time.Time; Stats : list DockerStat.t }.
End StatsFile.

Module ContainerDataPoint.
Record t := mk {
  Timestamp : string; CPUPerc : float; MemPerc : float; MemUsage : string;
  NetIO : string; BlockIO : string; PIDs : string }.
End ContainerDataPoint.

Module ContainerComparison.
Record t := mk {
  ContainerID : string; ContainerName : string; Data : list ContainerDataPoint.t }.
End ContainerComparison.

Module ContainerComparisonWithStats.
Record t := mk {
  Comparison : ContainerComparison.t;
  AvgCPU : float; MaxCPU : float; MinCPU : float;
  AvgMem : float; MaxMem : float; MinMem : float }.
End ContainerComparisonWithStats.

Module ContainerSummary.
Record t := mk {
  ContainerID : string; ContainerName : string; DataPoints : nat;
  AvgCPU : float; MaxCPU : float; MinCPU : float;
  AvgMem : float; MaxMem : float; MinMem : float;
  FirstSeen : string; LastSeen : string }.
End ContainerSummary.

Module PageData.
Record t := mk {
  Files : list StatsFile.t; SelectedFile : StatsFile.t; SelectedIndex : Z }.
End PageData.

(** The two pointers into the slice of summaries are positions in it; [None]
    is nil. *)
Module SummaryPageData.
Record t := mk {
  Summaries : list ContainerSummary.t; TotalFiles : nat;
  FirstTimestamp : string; LastTimestamp : string;
  HighestPeakCPU : option nat; MostDataPoints : option nat }.
End SummaryPageData.

(** ** What the program reads from outside *)

(** One entry of [os.ReadDir]. *)
Record DirEntry := mkDirEntry { entryName : string; IsDir : bool }.

(** A [bufio.Scanner] run to its end over an opened file: the lines it
    delivered and whether [scanner.Err()] is non-nil afterwards (a read error,
    or a line longer than the scanner's buffer). *)
Record Scan := mkScan { scanLines : list string; scanErr : bool }.

(** The file system, the clock, and the two library functions that no claim
    needs in detail. [None] is a non-nil error. [Now n] is the clock's [n]-th
    reading. *)
Record World := mkWorld {
  ReadDir : string -> option (list DirEntry);
  Open : string -> option Scan;
  Now : nat -> time.Time;
  TrimSpace : string -> string;
  Unmarshal : string -> option DockerStat.t }.

(** The errors [parseStatsFile] and [loadAllStatsFiles] return. *)
Inductive error :=
| errOpening (filePath : string)
| errParsingLine (lineNum : nat) (filePath : string)
| errReadingFile (filePath : string)
| errReadingDirectory (dir : string).

Inductive result (A : Type) :=
| Ok (a : A)
| Err (e : error).
Arguments Ok {A} a.
Arguments Err {A} e.

(** ** The snapshot parser *)

(** The loop [for scanner.Scan()] of [parseStatsFile]. *)
Fixpoint scanStats (w : World) (filePath : string) (lines : list string) (lineNum : nat)
    (dockerStats : list DockerStat.t) : result (list DockerStat.t) :=
  match lines with
  | [] => Ok dockerStats
  | text :: lines' =>
      let lineNum := S lineNum in
      let line := TrimSpace w text in
      if String.eqb line "" then scanStats w filePath lines' lineNum dockerStats
      else
        match Unmarshal w line with
        | None => Err (errParsingLine lineNum filePath)
        | Some stat => scanStats w filePath lines' lineNum (dockerStats ++ [stat])
        end
  end.

(** [parseStatsFile(filePath)]; [now] is what [time.Now()] returns at line 122. *)
Definition parseStatsFile (w : World) (now : time.Time) (filePath : string) : result StatsFile.t :=
  match Open w filePath with
  | None => Err (errOpening filePath)
  | Some file =>
      match scanStats w filePath (scanLines file) 0 [] with
      | Err e => Err e
      | Ok dockerStats =>
          if scanErr file then Err (errReadingFile filePath)
          else
            let basename := filepath.Base filePath in
            let timestamp :=
              if strings.Contains basename "_" then
                let parts := strings.Split basename "_" in
                if (3 <=? length parts)%nat then
                  let dateStr := String.append (nth 0 parts "") (String "_" (nth 1 parts "")) in
                  match time.Parse time.fileLayout dateStr with
                  | Some t => t
                  | None => now
                  end
                else now
              else now in
            Ok (StatsFile.mk basename timestamp dockerStats)
      end
  end.

(** ** The catalog loader *)

(** The state of the loop of [loadAllStatsFiles]: the snapshots appended so
    far, the paths [log.Printf] warned about, and how many times the clock
    was read. *)
Record Loading := mkLoading {
  statsFiles : list StatsFile.t; warnings : list string; clockReads : nat }.

Definition loadFile (w : World) (dir : string) (st : Loading) (file : DirEntry) : Loading :=
  if IsDir file || negb (strings.HasSuffix (entryName file) ".json") then st
  else
    let filePath := filepath.Join dir (entryName file) in
    match parseStatsFile w (Now w (clockReads st)) filePath with
    | Err _ => mkLoading (statsFiles st) (warnings st ++ [filePath]) (clockReads st)
    | Ok statsFile =>
        mkLoading (statsFiles st ++ [statsFile]) (warnings st) (S (clockReads st))
    end.

Definition loadLoop (w : World) (dir : string) (files : list DirEntry) (st : Loading) : Loading :=
  fold_left (loadFile w dir) files st.

Definition newerFirst (a b : StatsFile.t) : bool :=
  time.After (StatsFile.Timestamp a) (StatsFile.Timestamp b).

Section Program.

Context {sorter : sort.Sorter}.

(** [loadAllStatsFiles(dir)], started when the clock was read [reads] times;
    the warnings are returned beside Go's two results. *)
Definition loadAllStatsFiles (w : World) (reads : nat) (dir : string)
    : result (list StatsFile.t) * list string :=
  match ReadDir w dir with
  | None => (Err (errReadingDirectory dir), [])
  | Some files =>
      let st := loadLoop w dir files (mkLoading [] [] reads) in
      (Ok (sort.Slice newerFirst (statsFiles st)), warnings st)
  end.

(** ** The time-series reconstructor *)

(** The data point the two collecting loops build from a record (lines
    179-195 and 285-301, the same text). *)
Definition dataPointOf (statsFile : StatsFile.t) (stat : DockerStat.t) : ContainerDataPoint.t :=
  let cpuStr := strings.TrimSuffix (DockerStat.CPUPerc stat) "%" in
  let cpuPerc := fst (strconv.ParseFloat cpuStr) in
  let memStr := strings.TrimSuffix (DockerStat.MemPerc stat) "%" in
  let memPerc := fst (strconv.ParseFloat memStr) in
  ContainerDataPoint.mk
    (time.Format (StatsFile.Timestamp statsFile) time.pointLayout)
    cpuPerc memPerc
    (DockerStat.MemUsage stat) (DockerStat.NetIO stat)
    (DockerStat.BlockIO stat) (DockerStat.PIDs stat).

(** The comparison of the three sorts of data points: by the timestamp read
    back, [Time{}] when it does not parse. *)
Definition olderFirst (a b : ContainerDataPoint.t) : bool :=
  let t1 := time.parseOrZero time.pointLayout (ContainerDataPoint.Timestamp a) in
  let t2 := time.parseOrZero time.pointLayout (ContainerDataPoint.Timestamp b) in
  time.Before t1 t2.

(** The body of the inner loop of [getContainerComparison]. *)
Definition collectStat (containerID : string) (statsFile : StatsFile.t)
    (acc : list ContainerDataPoint.t * string) (stat : DockerStat.t)
    : list ContainerDataPoint.t * string :=
  let '(dataPoints, containerName) := acc in
  if String.eqb (DockerStat.ID stat) containerID then
    (dataPoints ++ [dataPointOf statsFile stat],
     if String.eqb containerName "" then DockerStat.Name stat else containerName)
  else acc.

Definition collectFile (containerID : string)
    (acc : list ContainerDataPoint.t * string) (statsFile : StatsFile.t)
    : list ContainerDataPoint.t * string :=
  fold_left (collectStat containerID statsFile) (StatsFile.Stats statsFile) acc.

Definition getContainerComparison (statsFiles : list StatsFile.t) (containerID : string)
    : ContainerComparison.t :=
  let '(dataPoints, containerName) :=
    fold_left (collectFile containerID) statsFiles ([], EmptyString) in
  ContainerComparison.mk containerID containerName (sort.Slice olderFirst dataPoints).

(** ** The aggregators *)

(** One of the four loops that compute a sum, a maximum and a minimum:
    [values[0]] seeds the maximum and the minimum. *)
Definition statsStep (acc : float * float * float) (v : float) : float * float * float :=
  let '(sum, maxV, minV) := acc in
  ((sum + v)%float,
   if (maxV <? v)%float then v else maxV,
   if (v <? minV)%float then v else minV).

Definition statsLoop (first : float) (values : list float) : float * float * float :=
  fold_left statsStep values (0%float, first, first).

Definition getContainerComparisonWithStats (statsFiles : list StatsFile.t) (containerID : string)
    : ContainerComparisonWithStats.t :=
  let comparison := getContainerComparison statsFiles containerID in
  match ContainerComparison.Data comparison with
  | [] => ContainerComparisonWithStats.mk comparison 0 0 0 0 0 0
  | point0 :: _ =>
      let cpuValues := map ContainerDataPoint.CPUPerc (ContainerComparison.Data comparison) in
      let memValues := map ContainerDataPoint.MemPerc (ContainerComparison.Data comparison) in
      let '(cpuSum, maxCPU, minCPU) := statsLoop (ContainerDataPoint.CPUPerc point0) cpuValues in
      let avgCPU := (cpuSum / float64_of_nat (length cpuValues))%float in
      let '(memSum, maxMem, minMem) := statsLoop (ContainerDataPoint.MemPerc point0) memValues in
      let avgMem := (memSum / float64_of_nat (length memValues))%float in
      ContainerComparisonWithStats.mk comparison avgCPU maxCPU minCPU avgMem maxMem minMem
  end.

(** The two maps of [getAllContainerSummaries] after the collecting loops. *)
Definition collectAllStat (statsFile : StatsFile.t)
    (acc : gmap string (list ContainerDataPoint.t) * gmap string string) (stat : DockerStat.t)
    : gmap string (list ContainerDataPoint.t) * gmap string string :=
  let '(containerData, containerNames) := acc in
  let id := DockerStat.ID stat in
  (<[id := default [] (containerData !! id) ++ [dataPointOf statsFile stat]]> containerData,
   <[id := DockerStat.Name stat]> containerNames).

Definition collectAllFile
    (acc : gmap string (list ContainerDataPoint.t) * gmap string string) (statsFile : StatsFile.t)
    : gmap string (list ContainerDataPoint.t) * gmap string string :=
  fold_left (collectAllStat statsFile) (StatsFile.Stats statsFile) acc.

Definition collectAll (statsFiles : list StatsFile.t)
    : gmap string (list ContainerDataPoint.t) * gmap string string :=
  fold_left collectAllFile statsFiles (∅, ∅).

(** The body of the loop over [containerData]. [dataPoints[0]] is read
    after the sort, which keeps the length of the slice. *)
Definition summarize (containerNames : gmap string string) (containerID : string)
    (dataPoints : list ContainerDataPoint.t) : option ContainerSummary.t :=
  match dataPoints with
  | [] => None
  | _ :: _ =>
      match sort.Slice olderFirst dataPoints with
      | [] => None
      | (point0 :: _) as dataPoints =>
          let '(cpuSum, maxCPU, minCPU) :=
            statsLoop (ContainerDataPoint.CPUPerc point0)
              (map ContainerDataPoint.CPUPerc dataPoints) in
          let avgCPU := (cpuSum / float64_of_nat (length dataPoints))%float in
          let '(memSum, maxMem, minMem) :=
            statsLoop (ContainerDataPoint.MemPerc point0)
              (map ContainerDataPoint.MemPerc dataPoints) in
          let avgMem := (memSum / float64_of_nat (length dataPoints))%float in
          Some (ContainerSummary.mk containerID
                  (default EmptyString (containerNames !! containerID))
                  (length dataPoints) avgCPU maxCPU minCPU avgMem maxMem minMem
                  (ContainerDataPoint.Timestamp point0)
                  (ContainerDataPoint.Timestamp (List.last dataPoints point0)))
      end
  end.

Definition busierFirst (a b : ContainerSummary.t) : bool :=
  (ContainerSummary.AvgCPU b <? ContainerSummary.AvgCPU a)%float.

(** [keys] is an order in which [range containerData] may visit the keys of
    the map: each key once. *)
Definition RangeOrder {V : Type} (m : gmap string V) (keys : list string) : Prop :=
  NoDup keys /\ forall k, In k keys <-> is_Some (m !! k).

(** [getAllContainerSummaries(statsFiles)] when [range] visits the keys of
    [containerData] in the order [keys]. *)
Definition getAllContainerSummaries (keys : list string) (statsFiles : list StatsFile.t)
    : list ContainerSummary.t :=
  let '(containerData, containerNames) := collectAll statsFiles in
  let summaries :=
    fold_left
      (fun summaries containerID =>
         match containerData !! containerID with
         | Some dataPoints =>
             match summarize containerNames containerID dataPoints with
             | Some summary => summaries ++ [summary]
             | None => summaries
             end
         | None => summaries
         end)
      keys [] in
  sort.Slice busierFirst summaries.

(** ** The catalog store *)

(** The two variables of [main] that hold the catalog: [statsFiles], which
    the handlers' closures read, and [serverData.Files]. *)
Record Store := mkStore {
  mainStatsFiles : list StatsFile.t; serverDataFiles : list StatsFile.t }.

(** One turn of the refresh loop: [cmdErr] tells whether [cmd.Run()]
    returned an error, [w] is the world after the script ran. *)
Definition refresh (w : World) (reads : nat) (cmdErr : bool) (store : Store) : Store :=
  if cmdErr then store
  else
    match fst (loadAllStatsFiles w reads "stats/") with
    | Err _ => store
    | Ok newStatsFiles =>
        if (length newStatsFiles =? 0)%nat then store
        else
          let store := mkStore newStatsFiles (serverDataFiles store) in
          mkStore (mainStatsFiles store) (mainStatsFiles store)
    end.

(** The states the store goes through within one turn: the one after the
    assignment to [statsFiles] (line 1149) and the one after the assignment
    to [serverData.Files] (line 1152); none when the turn ends at a
    [continue]. The handlers run in other goroutines and nothing orders their
    reads with the two assignments, so a request may be served against any
    of these states. *)
Definition refreshStates (w : World) (reads : nat) (cmdErr : bool) (store : Store)
    : list Store :=
  if cmdErr then []
  else
    match fst (loadAllStatsFiles w reads "stats/") with
    | Err _ => []
    | Ok newStatsFiles =>
        if (length newStatsFiles =? 0)%nat then []
        else
          let store1 := mkStore newStatsFiles (serverDataFiles store) in
          let store2 := mkStore (mainStatsFiles store1) (mainStatsFiles store1) in
          [store1; store2]
    end.

(** ** The server *)

(** [main] before it serves (lines 1104-1125): the catalog is loaded once. An
    error of the loader and an empty catalog end the program ([log.Fatalf],
    [log.Fatal]); otherwise both variables of the store hold the catalog. *)
Inductive Started :=
| FatalLoading (e : error)
| FatalNoFiles
| Serving (store : Store).

Definition startup (w : World) (reads : nat) : Started :=
  match fst (loadAllStatsFiles w reads "stats/") with
  | Err e => FatalLoading e
  | Ok statsFiles =>
      if (length statsFiles =? 0)%nat then FatalNoFiles
      else Serving (mkStore statsFiles statsFiles)
  end.

(** The refresh goroutine runs one turn for each tick of its ticker: the
    world after the script ran, the number of clock readings so far, and
    whether the script failed. *)
Record Tick := mkTick { tickWorld : World; tickReads : nat; tickCmdErr : bool }.

Definition refreshLoop (ticks : list Tick) (store : Store) : Store :=
  fold_left
    (fun store tick => refresh (tickWorld tick) (tickReads tick) (tickCmdErr tick) store)
    ticks store.

(** The template function [parseFloat] of the main page (lines 1118-1122). *)
Definition parseFloat (s : string) : float :=
  let s := strings.TrimSuffix s "%" in
  fst (strconv.ParseFloat s).

(** What a handler does with a request: it executes its template on a value,
    writes the JSON text of a value, answers with [http.Error], or panics on
    an index out of range. The text of the page and of the JSON value is not
    modelled, and the connection is taken to accept what is written. A
    request is served against one state of the store. *)
Inductive response :=
| ExecuteStats (pageData : PageData.t)
| EncodeJSON (comparison : ContainerComparison.t)
| ExecuteContainer (comparison : ContainerComparisonWithStats.t)
| ExecuteSummary (pageData : SummaryPageData.t)
| HttpError (message : string) (code : Z)
| IndexOutOfRange.

(** The handler of "/" (lines 1157-1176); [fileParam] is
    [r.URL.Query().Get("file")]. The index is checked against [statsFiles]
    and used on [serverData.Files]. *)
Definition selectedIndexOf (store : Store) (fileParam : string) : Z :=
  if String.eqb fileParam "" then 0
  else
    match strconv.Atoi fileParam with
    | (idx, None) =>
        if (0 <=? idx) && (idx <? Z.of_nat (length (mainStatsFiles store))) then idx else 0
    | (_, Some _) => 0
    end.

Definition mainPageHandler (store : Store) (fileParam : string) : response :=
  let selectedIndex := selectedIndexOf store fileParam in
  match serverDataFiles store !! Z.to_nat selectedIndex with
  | Some selectedFile =>
      ExecuteStats (PageData.mk (serverDataFiles store) selectedFile selectedIndex)
  | None => IndexOutOfRange
  end.

(** Whether [json.NewEncoder(w).Encode(comparison)] returns nil: the two
    strings and the texts of the points always encode, the two numbers of a
    point when they are finite. *)
Definition encodes (comparison : ContainerComparison.t) : bool :=
  forallb
    (fun point =>
       negb (json.unsupportedValue (ContainerDataPoint.CPUPerc point))
       && negb (json.unsupportedValue (ContainerDataPoint.MemPerc point)))
    (ContainerComparison.Data comparison).

(** The handler of "/api/container/" (lines 1179-1197); [path] is
    [r.URL.Path]. *)
Definition apiContainerHandler (store : Store) (path : string) : response :=
  let containerID := strings.TrimPrefix path "/api/container/" in
  if String.eqb containerID "" then HttpError "Container ID required" 400
  else
    let comparison := getContainerComparison (serverDataFiles store) containerID in
    if encodes comparison then EncodeJSON comparison
    else HttpError "Error encoding response" 500.

(** The handler of "/container/" (lines 1200-1229). *)
Definition containerPageHandler (store : Store) (path : string) : response :=
  let containerID := strings.TrimPrefix path "/container/" in
  if String.eqb containerID "" then HttpError "Container ID required" 400
  else
    let comparison := getContainerComparisonWithStats (serverDataFiles store) containerID in
    if (length (ContainerComparison.Data (ContainerComparisonWithStats.Comparison comparison))
        =? 0)%nat
    then HttpError "No historical data found for container" 404
    else ExecuteContainer comparison.

(** The handler of "/summary" (lines 1232-1276). The two pointers into
    [summaries] are indices; [summaries] does not change while they live. *)
Definition earlierFirst (a b : StatsFile.t) : bool :=
  time.Before (StatsFile.Timestamp a) (StatsFile.Timestamp b).

Definition pickStep (summaries : list ContainerSummary.t)
    (acc : option nat * option nat) (i : nat) : option nat * option nat :=
  let '(highestPeakCPU, mostDataPoints) := acc in
  match summaries !! i with
  | Some summary =>
      (match highestPeakCPU ≫= (fun p => summaries !! p) with
       | Some peak =>
           if (ContainerSummary.MaxCPU peak <? ContainerSummary.MaxCPU summary)%float
           then Some i else highestPeakCPU
       | None => Some i
       end,
       match mostDataPoints ≫= (fun p => summaries !! p) with
       | Some most =>
           if (ContainerSummary.DataPoints most <? ContainerSummary.DataPoints summary)%nat
           then Some i else mostDataPoints
       | None => Some i
       end)
  | None => acc
  end.

Definition pickLoop (summaries : list ContainerSummary.t) : option nat * option nat :=
  fold_left (pickStep summaries) (seq 0 (length summaries)) (None, None).

Definition summaryHandler (keys : list string) (store : Store) : response :=
  let files := serverDataFiles store in
  let summaries := getAllContainerSummaries keys files in
  let stamps :=
    if (0 <? length files)%nat then
      let sortedFiles := sort.Slice earlierFirst files in
      match sortedFiles !! 0%nat, sortedFiles !! (length sortedFiles - 1)%nat with
      | Some first, Some last =>
          Some (time.Format (StatsFile.Timestamp first) time.pointLayout,
                time.Format (StatsFile.Timestamp last) time.pointLayout)
      | _, _ => None
      end
    else Some (EmptyString, EmptyString) in
  match stamps with
  | Some (firstTimestamp, lastTimestamp) =>
      let '(highestPeakCPU, mostDataPoints) := pickLoop summaries in
      ExecuteSummary
        (SummaryPageData.mk summaries (length files) firstTimestamp lastTimestamp
           highestPeakCPU mostDataPoints)
  | None => IndexOutOfRange
  end.

End Program.

(** The library functions and the comparisons stay folded under [simpl]. *)
Arguments strconv.ParseFloat : simpl never.
Arguments time.Format : simpl never.
Arguments time.Parse : simpl never.
Arguments time.parseOrZero : simpl never.
Arguments time.Before : simpl never.
Arguments time.After : simpl never.
Arguments strings.TrimSuffix : simpl never.
Arguments strings.HasSuffix : simpl never.
Arguments strings.Split : simpl never.
Arguments strings.Contains : simpl never.
Arguments filepath.Base : simpl never.
Arguments filepath.Join : simpl never.
Arguments float64_of_nat : simpl never.
Arguments dataPointOf : simpl never.
Arguments olderFirst : simpl never.
Arguments newerFirst : simpl never.
Arguments busierFirst : simpl never.
Arguments earlierFirst : simpl never.
Arguments strconv.Atoi : simpl never.
Arguments strings.TrimPrefix : simpl never.

(** ** The collector script

    [run.sh] names the file it writes after the time of the run:
    [DATE=$(date +%Y-%m-%d_%H-%M-%S)], [OUTPUT_FILE="${DATE}_docker_stats.json"],
    and the file is put into the directory "stats/". [date] writes the local
    clock reading, the year with four digits when it has four, every other
    field with two. *)

Module run_sh.

Definition DATE (now : time.Time) : string := time.Format now time.fileLayout.

Definition OUTPUT_FILE (now : time.Time) : string :=
  String.append (DATE now) "_docker_stats.json".

End run_sh.

(** ** Notions of the specification *)

(** A line is acceptable when it is blank or decodes as a record. *)
Definition decodes (w : World) (text : string) : bool :=
  let line := TrimSpace w text in
  String.eqb line "" || match Unmarshal w line with Some _ => true | None => false end.

(** A file is structurally well-formed when it can be opened, is read to its
    end without an error and each of its lines is acceptable. *)
Definition wellFormed (w : World) (filePath : string) : bool :=
  match Open w filePath with
  | Some file => forallb (decodes w) (scanLines file) && negb (scanErr file)
  | None => false
  end.

(** The snapshot files of a directory listing: the entries that are no
    directories and whose names end in ".json", as paths. *)
Definition candidate (file : DirEntry) : bool :=
  negb (IsDir file) && strings.HasSuffix (entryName file) ".json".

Definition candidates (dir : string) (files : list DirEntry) : list string :=
  map (fun file => filepath.Join dir (entryName file)) (List.filter candidate files).

(** The records of a catalog in the order the loops visit them, each with
    the snapshot that holds it, and those of one container. *)
Definition recordsOf (statsFiles : list StatsFile.t) : list (StatsFile.t * DockerStat.t) :=
  flat_map (fun statsFile => map (pair statsFile) (StatsFile.Stats statsFile)) statsFiles.

Definition recordsOfContainer (statsFiles : list StatsFile.t) (containerID : string)
    : list (StatsFile.t * DockerStat.t) :=
  List.filter (fun r => String.eqb (DockerStat.ID (snd r)) containerID) (recordsOf statsFiles).

(** The data points of one container, in that order. *)
Definition pointsOf (statsFiles : list StatsFile.t) (containerID : string)
    : list ContainerDataPoint.t :=
  map (fun r => dataPointOf (fst r) (snd r)) (recordsOfContainer statsFiles containerID).

(** The first name of a list that is not empty, the empty string if none. *)
Fixpoint firstNonEmpty (names : list string) : string :=
  match names with
  | [] => EmptyString
  | name :: names' => if String.eqb name "" then firstNonEmpty names' else name
  end.

Definition firstNonEmptyName (statsFiles : list StatsFile.t) (containerID : string) : string :=
  firstNonEmpty (map (fun r => DockerStat.Name (snd r)) (recordsOfContainer statsFiles containerID)).

(** The arithmetic mean as [float64] computes it: the sum of the values,
    added from left to right starting from 0, divided by their number. *)
Definition arithmeticMean (values : list float) : float :=
  (fold_left PrimFloat.add values 0 / float64_of_nat (length values))%float.

(** [m] is a maximum of [values]: one of them, and none is greater; and a
    minimum: one of them, and none is smaller. *)
Definition Maximum (m : float) (values : list float) : Prop :=
  In m values /\ forall v, In v values -> (m <? v)%float = false.

Definition Minimum (m : float) (values : list float) : Prop :=
  In m values /\ forall v, In v values -> (v <? m)%float = false.

(** No value of the list is NaN, the only value that differs from itself. *)
Definition NoNaN (values : list float) : Prop :=
  forall v, In v values -> (v =? v)%float = true.

(** [value] is what the percentage [text] of a record is normalized to: the
    number parsed from the text without its trailing "%"; 0 when that text is
    missing or malformed. *)
Definition Normalized (text : string) (value : float) : Prop :=
  (forall digits : string,
     text = String.append digits "%" -> value = fst (strconv.ParseFloat digits))
  /\ (strings.HasSuffix text "%" = false -> value = fst (strconv.ParseFloat text))
  /\ (snd (strconv.ParseFloat (strings.TrimSuffix text "%")) = Some strconv.ErrSyntax ->
      value = 0%float)
  /\ (text = EmptyString -> value = 0%float).

(** [point] is what a record is converted to: normalized percentages beside
    the four texts of the record, unchanged. *)
Definition Converted (stat : DockerStat.t) (point : ContainerDataPoint.t) : Prop :=
  Normalized (DockerStat.CPUPerc stat) (ContainerDataPoint.CPUPerc point)
  /\ Normalized (DockerStat.MemPerc stat) (ContainerDataPoint.MemPerc point)
  /\ ContainerDataPoint.MemUsage point = DockerStat.MemUsage stat
  /\ ContainerDataPoint.NetIO point = DockerStat.NetIO stat
  /\ ContainerDataPoint.BlockIO point = DockerStat.BlockIO stat
  /\ ContainerDataPoint.PIDs point = DockerStat.PIDs stat.

(** The collecting loops of [getAllContainerSummaries] as one loop over the
    records of the catalog. *)
Definition collectAllRecord
    (acc : gmap string (list ContainerDataPoint.t) * gmap string string)
    (r : StatsFile.t * DockerStat.t)
    : gmap string (list ContainerDataPoint.t) * gmap string string :=
  collectAllStat (fst r) acc (snd r).

(** The summary the loop over [containerData] appends for a key, if any. *)
Definition summaryOf {sorter : sort.Sorter} (statsFiles : list StatsFile.t)
    (containerID : string) : option ContainerSummary.t :=
  match fst (collectAll statsFiles) !! containerID with
  | Some dataPoints => summarize (snd (collectAll statsFiles)) containerID dataPoints
  | None => None
  end.

(** [timestamp] is that of an earliest, of a latest point of [dataPoints], in
    the order of the timestamps read back. *)
Definition Earliest (timestamp : string) (dataPoints : list ContainerDataPoint.t) : Prop :=
  exists point : ContainerDataPoint.t,
    In point dataPoints /\ ContainerDataPoint.Timestamp point = timestamp
    /\ forall other, In other dataPoints -> olderFirst other point = false.

Definition Latest (timestamp : string) (dataPoints : list ContainerDataPoint.t) : Prop :=
  exists point : ContainerDataPoint.t,
    In point dataPoints /\ ContainerDataPoint.Timestamp point = timestamp
    /\ forall other, In other dataPoints -> olderFirst point other = false.

(** No two summaries of the list tie: any two are the same summary, or one
    of them has the greater average. *)
Definition NoTies (summaries : list ContainerSummary.t) : Prop :=
  forall a b : ContainerSummary.t,
    In a summaries -> In b summaries ->
    a = b \/ busierFirst a b = true \/ busierFirst b a = true.

(** A valid date and clock reading of a year from 0 to 9999, and the same
    reading taken as UTC, without its fraction of a second: what [Format]
    with the layout of the data points keeps of a time. *)
Definition validStamp (t : time.Time) : Prop :=
  0 <= time.Year t <= 9999 /\ 1 <= time.Month t <= 12
  /\ 1 <= time.Day t <= time.daysIn (time.Month t) (time.Year t)
  /\ 0 <= time.Hour t < 24 /\ 0 <= time.Minute t < 60 /\ 0 <= time.Second t < 60.

Definition wallClock (t : time.Time) : time.Time :=
  time.mkTime (time.Year t) (time.Month t) (time.Day t)
    (time.Hour t) (time.Minute t) (time.Second t) 0 0.

(** What the loop of [Parse] leaves in each field: the value it started
    with, or a number of the field's range. *)
Definition fieldsInRange (t0 t : time.Time) : Prop :=
  (time.Year t = time.Year t0 \/ 0 <= time.Year t <= 9999)
  /\ (time.Month t = time.Month t0 \/ 1 <= time.Month t <= 12)
  /\ (time.Day t = time.Day t0 \/ 0 <= time.Day t <= 99)
  /\ (time.Hour t = time.Hour t0 \/ 0 <= time.Hour t < 24)
  /\ (time.Minute t = time.Minute t0 \/ 0 <= time.Minute t < 60)
  /\ (time.Second t = time.Second t0 \/ 0 <= time.Second t < 60).

(** [appendInt] writes a number under 100 with two digits and a number under
    10000 with four, and the digits spell the number. *)
Definition twoDigits (n : Z) : bool :=
  match time.appendInt n 2 with
  | String a (String b EmptyString) =>
      time.isDigit a && time.isDigit b && (time.digitVal a * 10 + time.digitVal b =? n)
  | _ => false
  end.

Definition fourDigits (n : Z) : bool :=
  match time.appendInt n 4 with
  | String a (String b (String c (String d EmptyString))) =>
      time.isDigit a && time.isDigit b && time.isDigit c && time.isDigit d
      && (((time.digitVal a * 10 + time.digitVal b) * 10 + time.digitVal c) * 10
          + time.digitVal d =? n)
  | _ => false
  end.

Definition hundred : list Z := map Z.of_nat (seq 0 100).

(** The bytes a value that [Parse] accepts can hold, for the two layouts of
    the program: digits, the literal bytes of the layouts, and the period or
    the comma of a fractional second. *)
Definition stampByte (c : ascii) : bool :=
  time.isDigit c || Ascii.eqb c "-" || Ascii.eqb c "_" || Ascii.eqb c ":"
  || Ascii.eqb c " " || Ascii.eqb c "." || Ascii.eqb c ",".

Fixpoint allBytes (P : ascii -> bool) (s : string) : bool :=
  match s with
  | EmptyString => true
  | String c s' => P c && allBytes P s'
  end.

Definition plainLayout (layout : list time.chunk) : Prop :=
  forall c, In (time.lit c) layout -> stampByte c = true.

(** [point] is the data point of the record [r] of a catalog: what the
    record is converted to, under the timestamp of the record's snapshot as
    the data points spell it. *)
Definition PointOf (r : StatsFile.t * DockerStat.t) (point : ContainerDataPoint.t) : Prop :=
  Converted (snd r) point
  /\ ContainerDataPoint.Timestamp point
     = time.Format (StatsFile.Timestamp (fst r)) time.pointLayout.

(** ** Notions of the further properties *)

(** The two numbers of a data point are finite: neither NaN nor an
    infinity. *)
Definition finitePoint (point : ContainerDataPoint.t) : bool :=
  PrimFloat.is_finite (ContainerDataPoint.CPUPerc point)
  && PrimFloat.is_finite (ContainerDataPoint.MemPerc point).

(** The record a line of a snapshot file holds, if any: none for a blank
    line; and the records of the lines of a file. *)
Definition recordOfLine (w : World) (text : string) : option DockerStat.t :=
  let line := TrimSpace w text in
  if String.eqb line "" then None else Unmarshal w line.

Definition recordsOfLines (w : World) (lines : list string) : list DockerStat.t :=
  omap (recordOfLine w) lines.

Definition blank (w : World) (text : string) : bool := String.eqb (TrimSpace w text) "".

(** The lines the scanner delivers of the file at a path. *)
Definition linesOf (w : World) (filePath : string) : list string :=
  match Open w filePath with
  | Some file => scanLines file
  | None => []
  end.

(** The loader: what each snapshot of the catalog holds. *)
Definition nameAndStats (statsFile : StatsFile.t) : string * list DockerStat.t :=
  (StatsFile.Name statsFile, StatsFile.Stats statsFile).

Definition fileContents (w : World) (filePath : string) : string * list DockerStat.t :=
  (filepath.Base filePath, recordsOfLines w (linesOf w filePath)).

(** The entries of a listing whose files the loader keeps. *)
Definition kept (w : World) (dir : string) (file : DirEntry) : bool :=
  candidate file && wellFormed w (filepath.Join dir (entryName file)).

(** An element of a path that is a name: not empty, not "." and not "..",
    and without a slash. *)
Definition plainName (name : string) : bool :=
  negb (strings.Contains name "/")
  && negb (String.eqb name "") && negb (String.eqb name ".") && negb (String.eqb name "..").

(** [prefix] is empty or ends with a slash. *)
Definition Directory (prefix : string) : Prop :=
  prefix = EmptyString \/ exists dir : string, prefix = String.append dir "/".

(** The date and the time of day in the name the script writes. *)
Definition datePart (t : time.Time) : string :=
  String.append (time.appendInt (time.Year t) 4) (String "-"
    (String.append (time.appendInt (time.Month t) 2) (String "-"
      (time.appendInt (time.Day t) 2)))).

Definition clockPart (t : time.Time) : string :=
  String.append (time.appendInt (time.Hour t) 2) (String "-"
    (String.append (time.appendInt (time.Minute t) 2) (String "-"
      (time.appendInt (time.Second t) 2)))).

(** Any two points of the list are the same point, or one is older. *)
Definition DistinctTimes (dataPoints : list ContainerDataPoint.t) : Prop :=
  forall a b : ContainerDataPoint.t,
    In a dataPoints -> In b dataPoints ->
    a = b \/ olderFirst a b = true \/ olderFirst b a = true.

(** The decimal numeral of a natural number, as the template prints an index. *)
Definition decimal (n : nat) : string := NilEmpty.string_of_uint (Nat.to_uint n).

(** No snapshot of the list is older than one that follows it. *)
Definition NewestFirst (statsFiles : list StatsFile.t) : Prop :=
  forall (i j : nat) (a b : StatsFile.t),
    (i < j)%nat -> statsFiles !! i = Some a -> statsFiles !! j = Some b ->
    time.Before (StatsFile.Timestamp a) (StatsFile.Timestamp b) = false.

(** The store as the handlers expect it: both variables hold the same
    catalog, which is not empty and has its newest snapshot first. *)
Definition Coherent (store : Store) : Prop :=
  mainStatsFiles store = serverDataFiles store
  /\ serverDataFiles store <> []
  /\ NewestFirst (serverDataFiles store).

(** The invariant of the loop that picks the two summaries, after [k] turns. *)
Definition Picked (summaries : list ContainerSummary.t) (k : nat)
    (acc : option nat * option nat) : Prop :=
  match acc with
  | (Some h, Some m) =>
      exists peak most : ContainerSummary.t,
        summaries !! h = Some peak /\ summaries !! m = Some most
        /\ (forall (j : nat) (t : ContainerSummary.t),
              (j < k)%nat -> summaries !! j = Some t ->
              (ContainerSummary.MaxCPU peak <? ContainerSummary.MaxCPU t)%float = false)
        /\ (forall (j : nat) (t : ContainerSummary.t),
              (j < k)%nat -> summaries !! j = Some t ->
              (ContainerSummary.DataPoints t <= ContainerSummary.DataPoints most)%nat)
        /\ (forall (j : nat) (t : ContainerSummary.t),
              (j < m)%nat -> summaries !! j = Some t ->
              (ContainerSummary.DataPoints t < ContainerSummary.DataPoints most)%nat)
  | (None, None) => k = 0%nat
  | _ => False
  end.

(** ** Examples: files, catalogs and a world to read them from *)

Definition quote : string := String (ascii_of_nat 34) EmptyString.

Definition jsonField (key value : string) : string :=
  String.append quote (String.append key (String.append quote
    (String.append ":" (String.append quote (String.append value quote))))).

(** A line of a snapshot file with the four fields the scenarios name. *)
Definition jsonLine (id name cpu mem : string) : string :=
  String.append "{" (String.append (jsonField "ID" id) (String.append ","
    (String.append (jsonField "Name" name) (String.append ","
      (String.append (jsonField "CPUPerc" cpu) (String.append ","
        (String.append (jsonField "MemPerc" mem) "}"))))))).

Definition record (id name cpu mem : string) : DockerStat.t :=
  DockerStat.mk EmptyString cpu EmptyString id mem EmptyString name EmptyString EmptyString.

(** A decoder for the lines [jsonLine] writes of the records listed. *)
Fixpoint decodeAmong (known : list (string * string * string * string)) (line : string)
    : option DockerStat.t :=
  match known with
  | [] => None
  | (id, name, cpu, mem) :: known' =>
      if String.eqb line (jsonLine id name cpu mem) then Some (record id name cpu mem)
      else decodeAmong known' line
  end.

Definition asciiSpace (c : ascii) : bool :=
  let n := Z.of_nat (nat_of_ascii c) in (n =? 32) || ((9 <=? n) && (n <=? 13)).

Fixpoint dropSpace (s : string) : string :=
  match s with
  | String c s' => if asciiSpace c then dropSpace s' else s
  | EmptyString => s
  end.

(** [strings.TrimSpace] on ASCII text. *)
Definition trimAscii (s : string) : string :=
  strings.reverse (dropSpace (strings.reverse (dropSpace s))).

Fixpoint lookupPath {V : Type} (table : list (string * V)) (key : string) : option V :=
  match table with
  | [] => None
  | (k, v) :: table' => if String.eqb key k then Some v else lookupPath table' key
  end.

(** A world with one directory, "stats/", and a clock that shows the
    morning of November 2, 2026, one hour east of UTC. *)
Definition exampleWorld (entries : list DirEntry) (contents : list (string * Scan))
    (known : list (string * string * string * string)) : World :=
  mkWorld
    (fun dir => if String.eqb dir "stats/" then Some entries else None)
    (lookupPath contents)
    (fun n => time.mkTime 2026 11 2 9 30 (Z.of_nat n) 0 3600)
    trimAscii
    (decodeAmong known).

(** Scenario A: two snapshot files of one record each. *)
Definition scenarioA : World :=
  exampleWorld
    [mkDirEntry "2024-01-01_10-00-00_x.json" false;
     mkDirEntry "2024-01-01_11-00-00_x.json" false]
    [("stats/2024-01-01_10-00-00_x.json",
      mkScan [jsonLine "abc" "web" "10.00%" "20.00%"] false);
     ("stats/2024-01-01_11-00-00_x.json",
      mkScan [jsonLine "abc" "web" "30.00%" "40.00%"] false)]
    [("abc", "web", "10.00%", "20.00%"); ("abc", "web", "30.00%", "40.00%")].

(** Scenario B: the files of scenario A beside a file with one line that is
    no JSON, a file that is no snapshot file, and a subdirectory. *)
Definition scenarioB : World :=
  exampleWorld
    [mkDirEntry "2024-01-01_10-00-00_x.json" false;
     mkDirEntry "2024-01-01_10-30-00_x.json" false;
     mkDirEntry "2024-01-01_11-00-00_x.json" false;
     mkDirEntry "notes.txt" false;
     mkDirEntry "old.json" true]
    [("stats/2024-01-01_10-00-00_x.json",
      mkScan [jsonLine "abc" "web" "10.00%" "20.00%"] false);
     ("stats/2024-01-01_10-30-00_x.json", mkScan ["{not json"] false);
     ("stats/2024-01-01_11-00-00_x.json",
      mkScan [jsonLine "abc" "web" "30.00%" "40.00%"; EmptyString] false);
     ("stats/notes.txt", mkScan ["to do"] false)]
    [("abc", "web", "10.00%", "20.00%"); ("abc", "web", "30.00%", "40.00%")].

(** The two snapshots of scenario A, a snapshot of the same container dated
    in the year 10000, and a snapshot taken before the container was
    renamed. *)
Definition snapshotA10 : StatsFile.t :=
  StatsFile.mk "2024-01-01_10-00-00_x.json" (time.mkTime 2024 1 1 10 0 0 0 0)
    [record "abc" "web" "10.00%" "20.00%"].

Definition snapshotA11 : StatsFile.t :=
  StatsFile.mk "2024-01-01_11-00-00_x.json" (time.mkTime 2024 1 1 11 0 0 0 0)
    [record "abc" "web" "30.00%" "40.00%"].

Definition snapshotFar : StatsFile.t :=
  StatsFile.mk "far.json" (time.mkTime 10000 1 1 0 0 0 0 0)
    [record "abc" "web" "30.00%" "40.00%"].

Definition snapshotOld : StatsFile.t :=
  StatsFile.mk "2024-01-01_09-00-00_x.json" (time.mkTime 2024 1 1 9 0 0 0 0)
    [record "abc" "web-old" "5.00%" "20.00%"].

(** Catalogs, newest snapshot first: scenario A; the container of
    scenario A before and after it was renamed; three readings of 0.10%; two
    containers with equal averages, and with different ones. *)
Definition catalogA : list StatsFile.t := [snapshotA11; snapshotA10].

Definition renamed : list StatsFile.t := [snapshotA11; snapshotOld].

Definition tenths : list StatsFile.t :=
  [StatsFile.mk "2024-01-01_11-00-00_x.json" (time.mkTime 2024 1 1 11 0 0 0 0)
     [record "abc" "web" "0.10%" "20.00%"];
   StatsFile.mk "2024-01-01_10-00-00_x.json" (time.mkTime 2024 1 1 10 0 0 0 0)
     [record "abc" "web" "0.10%" "20.00%"];
   StatsFile.mk "2024-01-01_09-00-00_x.json" (time.mkTime 2024 1 1 9 0 0 0 0)
     [record "abc" "web" "0.10%" "20.00%"]].

Definition tied : list StatsFile.t :=
  [StatsFile.mk "2024-01-01_10-00-00_x.json" (time.mkTime 2024 1 1 10 0 0 0 0)
     [record "aaa" "alpha" "1.00%" "20.00%"; record "bbb" "beta" "1.00%" "40.00%"]].

Definition untied : list StatsFile.t :=
  [StatsFile.mk "2024-01-01_10-00-00_x.json" (time.mkTime 2024 1 1 10 0 0 0 0)
     [record "aaa" "alpha" "1.00%" "20.00%"; record "bbb" "beta" "2.00%" "40.00%"]].

(** A file whose name has the two segments of a timestamp and nothing else. *)
Definition bareStamp : World :=
  exampleWorld [mkDirEntry "2024-01-01_10-00-00" false]
    [("stats/2024-01-01_10-00-00", mkScan [] false)] [].

(** The directory of scenario A an hour earlier, when it held the first
    file only. *)
Definition firstHour : World :=
  exampleWorld
    [mkDirEntry "2024-01-01_10-00-00_x.json" false]
    [("stats/2024-01-01_10-00-00_x.json",
      mkScan [jsonLine "abc" "web" "10.00%" "20.00%"] false)]
    [("abc", "web", "10.00%", "20.00%")].

(** A catalog with a reading that is no number of the JSON syntax. *)
Definition notANumber : list StatsFile.t :=
  [StatsFile.mk "2024-01-01_10-00-00_x.json" (time.mkTime 2024 1 1 10 0 0 0 0)
     [record "abc" "web" "NaN%" "20.00%"]].

(** Scenario C: a file named as the collector names it, a file whose third
    line is no JSON, and a file the scanner could not read to its end. *)
Definition scenarioC : World :=
  exampleWorld
    [mkDirEntry "2024-01-01_10-00-00_docker_stats.json" false;
     mkDirEntry "broken.json" false;
     mkDirEntry "truncated.json" false]
    [("stats/2024-01-01_10-00-00_docker_stats.json",
      mkScan [jsonLine "abc" "web" "10.00%" "20.00%"] false);
     ("stats/broken.json",
      mkScan [jsonLine "abc" "web" "10.00%" "20.00%"; "  "; "{not json";
              jsonLine "abc" "web" "30.00%" "40.00%"] true);
     ("stats/truncated.json",
      mkScan [jsonLine "abc" "web" "10.00%" "20.00%"] true)]
    [("abc", "web", "10.00%", "20.00%"); ("abc", "web", "30.00%", "40.00%")].

(** A world whose clock stands still. *)
Definition steadyClock (w : World) : World :=
  mkWorld (ReadDir w) (Open w) (fun _ => time.mkTime 2026 11 2 9 30 0 0 3600)
    (TrimSpace w) (Unmarshal w).

(** * Properties *)

(** ** The library functions on sample inputs *)

Example TrimSuffix_samples :
  strings.TrimSuffix "12.50%" "%" = "12.50"
  /\ strings.TrimSuffix "10%%" "%" = "10%"
  /\ strings.TrimSuffix "--" "%" = "--"
  /\ strings.TrimSuffix "" "%" = "".
Proof. repeat split. Qed.

Example Split_samples :
  strings.Split "2024-01-01_10-00-00_docker_stats.json" "_"
  = ["2024-01-01"; "10-00-00"; "docker"; "stats.json"]
  /\ strings.Split "stats.json" "_" = ["stats.json"]
  /\ strings.Split "_a_" "_" = [""; "a"; ""]
  /\ strings.Contains "stats.json" "_" = false
  /\ strings.HasSuffix "stats.json" ".json" = true
  /\ strings.HasSuffix "json" ".json" = false.
Proof. repeat split. Qed.

Example filepath_samples :
  filepath.Join "stats/" "a.json" = "stats/a.json"
  /\ filepath.Join "stats" "a.json" = "stats/a.json"
  /\ filepath.Join "./stats//" "a.json" = "stats/a.json"
  /\ filepath.Base "stats/a.json" = "a.json"
  /\ filepath.Base "a.json" = "a.json"
  /\ filepath.Base "stats/" = "stats"
  /\ filepath.Base "" = "."
  /\ filepath.Base "/" = "/".
Proof. repeat split. Qed.

Example Parse_samples :
  time.Parse time.fileLayout "2024-01-01_10-00-00"
  = Some (time.mkTime 2024 1 1 10 0 0 0 0)
  /\ time.Parse time.fileLayout "2024-02-29_9-05-07"
     = Some (time.mkTime 2024 2 29 9 5 7 0 0)
  /\ time.Parse time.fileLayout "2024-01-01_10-00-00.25"
     = Some (time.mkTime 2024 1 1 10 0 0 250000000 0)
  /\ time.Parse time.fileLayout "2023-02-29_10-00-00" = None
  /\ time.Parse time.fileLayout "2024-13-01_10-00-00" = None
  /\ time.Parse time.fileLayout "2024-01-01_24-00-00" = None
  /\ time.Parse time.fileLayout "2024-1-01_10-00-00" = None
  /\ time.Parse time.fileLayout "2024-01-01_10-00-00.json" = None
  /\ time.Parse time.fileLayout "docker_stats" = None
  /\ time.Parse time.pointLayout "2024-01-01 10:00:00"
     = Some (time.mkTime 2024 1 1 10 0 0 0 0)
  /\ time.Parse time.pointLayout "10000-01-01 00:00:00" = None.
Proof. vm_compute. repeat split. Qed.

Example Format_samples :
  time.Format (time.mkTime 2024 1 1 10 0 0 0 0) time.pointLayout = "2024-01-01 10:00:00"
  /\ time.Format (time.mkTime 2026 11 2 9 30 5 123 3600) time.pointLayout
     = "2026-11-02 09:30:05"
  /\ time.Format (time.mkTime 10000 1 1 0 0 0 0 0) time.pointLayout
     = "10000-01-01 00:00:00"
  /\ time.Format time.zero time.pointLayout = "0001-01-01 00:00:00".
Proof. vm_compute. repeat split. Qed.

Example Before_samples :
  time.Before (time.mkTime 2024 1 1 10 0 0 0 0) (time.mkTime 2024 1 1 11 0 0 0 0) = true
  /\ time.Before (time.mkTime 2024 1 1 11 0 0 0 0) (time.mkTime 2024 1 1 10 0 0 0 0) = false
  /\ time.Before (time.mkTime 2024 1 1 11 0 0 0 3600) (time.mkTime 2024 1 1 10 30 0 0 0) = true
  /\ time.Before (time.mkTime 2024 2 29 23 59 59 0 0) (time.mkTime 2024 3 1 0 0 0 0 0) = true
  /\ time.Before time.zero (time.mkTime 2024 1 1 10 0 0 0 0) = true
  /\ time.absSec (time.mkTime 1970 1 1 0 0 0 0 0) = 62135596800.
Proof. vm_compute. repeat split. Qed.

Example ParseFloat_samples :
  strconv.ParseFloat "12.50" = (12.5%float, None)
  /\ strconv.ParseFloat "0" = (0%float, None)
  /\ strconv.ParseFloat "1e2" = (100%float, None)
  /\ strconv.ParseFloat "0x1p-2" = (0.25%float, None)
  /\ strconv.ParseFloat "1_000" = (1000%float, None)
  /\ strconv.ParseFloat "NaN" = (nan, None)
  /\ strconv.ParseFloat "-Inf" = (neg_infinity, None)
  /\ strconv.ParseFloat "1e999" = (infinity, Some strconv.ErrRange)
  /\ strconv.ParseFloat "" = (0%float, Some strconv.ErrSyntax)
  /\ strconv.ParseFloat "--" = (0%float, Some strconv.ErrSyntax)
  /\ strconv.ParseFloat "12.50%" = (0%float, Some strconv.ErrSyntax)
  /\ strconv.ParseFloat " 1" = (0%float, Some strconv.ErrSyntax)
  /\ strconv.ParseFloat "1,5" = (0%float, Some strconv.ErrSyntax).
Proof. vm_compute. repeat split. Qed.

Example insertionSort_samples :
  sort.insertionSort Z.ltb [3; 1; 2] = [1; 2; 3]
  /\ sort.insertionSort (fun a b => fst a <? fst b) [(2, "a"); (1, "b"); (2, "c"); (1, "d")]
     = [(1, "b"); (1, "d"); (2, "a"); (2, "c")].
Proof. repeat split. Qed.

(** ** [sort]: insertion sort obeys the contract *)

Lemma insertLeft_Permutation {A : Type} (less : A -> A -> bool) (a : A) (before : list A) :
  Permutation (a :: before) (sort.insertLeft less a before).
Proof.
  induction before as [|b before IH]; simpl.
  - reflexivity.
  - destruct (less a b).
    + rewrite perm_swap. now apply perm_skip.
    + reflexivity.
Qed.

Lemma insertion_fold_Permutation {A : Type} (less : A -> A -> bool) (data before : list A) :
  Permutation (rev before ++ data)
    (rev (fold_left (fun before a => sort.insertLeft less a before) data before)).
Proof.
  revert before. induction data as [|a data IH]; intros before; simpl.
  - now rewrite app_nil_r.
  - rewrite <- IH, <- (insertLeft_Permutation less a before). simpl.
    now rewrite <- app_assoc.
Qed.

Lemma insertionSort_Permutation {A : Type} (less : A -> A -> bool) (data : list A) :
  Permutation data (sort.insertionSort less data).
Proof. exact (insertion_fold_Permutation less data []). Qed.

(** The elements held last one first are in descending order. *)
Definition Descending {A : Type} (less : A -> A -> bool) (before : list A) : Prop :=
  StronglySorted (fun b a => less b a = false) before.

Lemma StronglySorted_snoc {A : Type} (R : A -> A -> Prop) (l : list A) (a : A) :
  StronglySorted R l -> Forall (fun x => R x a) l -> StronglySorted R (l ++ [a]).
Proof.
  induction 1 as [|b l Hs IH Hall]; intros Ha; simpl.
  - repeat constructor.
  - inversion Ha; subst. constructor.
    + now apply IH.
    + apply List.Forall_app. split; [assumption|]. now repeat constructor.
Qed.

Lemma Descending_rev {A : Type} (less : A -> A -> bool) (before : list A) :
  Descending less before -> sort.Ascending less (rev before).
Proof.
  unfold Descending, sort.Ascending.
  induction 1 as [|b before Hs IH Hall]; simpl.
  - constructor.
  - apply StronglySorted_snoc; [assumption|].
    apply List.Forall_rev. assumption.
Qed.

Lemma insertLeft_Descending {A : Type} (less : A -> A -> bool) (x : list A) (a : A)
    (before : list A) :
  sort.TransitiveOrdering less x -> In a x -> (forall b, In b before -> In b x) ->
  Descending less before -> Descending less (sort.insertLeft less a before).
Proof.
  intros [Hirr Htr Hneg] Ha. unfold Descending.
  induction before as [|b before IH]; intros Hin Hd; simpl.
  - repeat constructor.
  - inversion Hd as [|? ? Hd' Hall]; subst.
    assert (Hb : In b x) by (apply Hin; now left).
    destruct (less a b) eqn:Hab.
    + constructor.
      * apply IH; [|assumption]. intros c Hc. apply Hin. now right.
      * rewrite List.Forall_forall in *. intros c Hc.
        apply (Permutation_in _ (Permutation_sym (insertLeft_Permutation less a before))) in Hc.
        destruct Hc as [<-|Hc].
        -- destruct (less b a) eqn:Hba; [|reflexivity].
           rewrite <- (Hirr a Ha). symmetry. now apply (Htr a b a).
        -- now apply Hall.
    + constructor; [assumption|].
      constructor; [assumption|].
      rewrite List.Forall_forall in *. intros c Hc.
      apply (Hneg a b c); auto. apply Hin. now right.
Qed.

Lemma insertion_fold_Descending {A : Type} (less : A -> A -> bool) (x data before : list A) :
  sort.TransitiveOrdering less x ->
  (forall a, In a data -> In a x) -> (forall b, In b before -> In b x) ->
  Descending less before ->
  Descending less (fold_left (fun before a => sort.insertLeft less a before) data before).
Proof.
  intros Hord. revert before.
  induction data as [|a data IH]; intros before Hdata Hbefore Hd; simpl.
  - assumption.
  - apply IH.
    + intros c Hc. apply Hdata. now right.
    + intros c Hc.
      apply (Permutation_in _ (Permutation_sym (insertLeft_Permutation less a before))) in Hc.
      destruct Hc as [<-|Hc]; [apply Hdata; now left|now apply Hbefore].
    + apply (insertLeft_Descending less x); auto. apply Hdata. now left.
Qed.

Lemma insertionSort_Ascending {A : Type} (less : A -> A -> bool) (data : list A) :
  sort.TransitiveOrdering less data -> sort.Ascending less (sort.insertionSort less data).
Proof.
  intros Hord. apply Descending_rev.
  apply (insertion_fold_Descending less data); auto.
  - intros b [].
  - constructor.
Qed.

(** Insertion sort as a [Sorter]: what [sort.Slice] computes on the short
    slices of the examples below. *)
#[local] Instance insertionSorter : sort.Sorter :=
  {| sort.Slice := @sort.insertionSort;
     sort.Slice_Permutation := @insertionSort_Permutation;
     sort.Slice_Ascending := @insertionSort_Ascending |}.

(** ** [time]: instants are totally preordered *)

Lemma Before_irrefl (t : time.Time) : time.Before t t = false.
Proof.
  unfold time.Before.
  rewrite orb_false_iff, andb_false_iff, !Z.ltb_ge. lia.
Qed.

Lemma Before_trans (t u v : time.Time) :
  time.Before t u = true -> time.Before u v = true -> time.Before t v = true.
Proof.
  unfold time.Before.
  rewrite !orb_true_iff, !andb_true_iff, !Z.ltb_lt, !Z.eqb_eq. lia.
Qed.

Lemma Before_negtrans (t u v : time.Time) :
  time.Before t u = false -> time.Before u v = false -> time.Before t v = false.
Proof.
  unfold time.Before.
  rewrite !orb_false_iff, !andb_false_iff, !Z.ltb_ge, !Z.eqb_neq. lia.
Qed.

Lemma StronglySorted_lookup {A : Type} (R : A -> A -> Prop) (l : list A) :
  StronglySorted R l ->
  forall (i j : nat) (a b : A), (i < j)%nat -> l !! i = Some a -> l !! j = Some b -> R a b.
Proof.
  induction 1 as [|c l Hs IH Hall]; intros i j a b Hij Hi Hj.
  - discriminate.
  - destruct j as [|j]; [lia|]. simpl in Hj.
    destruct i as [|i]; simpl in Hi.
    + injection Hi as ->. rewrite List.Forall_forall in Hall.
      apply Hall. apply list_elem_of_In. eapply list_elem_of_lookup_2. eassumption.
    + apply (IH i j); [lia|assumption..].
Qed.

Lemma Ascending_adjacent {A : Type} (less : A -> A -> bool) (l : list A) (i : nat) (a b : A) :
  sort.Ascending less l -> l !! i = Some a -> l !! S i = Some b -> less b a = false.
Proof.
  intros Hs Hi Hj.
  exact (StronglySorted_lookup _ l Hs i (S i) a b (Nat.lt_succ_diag_r i) Hi Hj).
Qed.

(** ** The parser and the loader *)

Lemma scanStats_decodes (w : World) (filePath : string) (lines : list string) :
  forall (lineNum : nat) (dockerStats : list DockerStat.t),
  match scanStats w filePath lines lineNum dockerStats with
  | Ok _ => forallb (decodes w) lines = true
  | Err _ => forallb (decodes w) lines = false
  end.
Proof.
  induction lines as [|text lines IH]; intros lineNum dockerStats; simpl.
  - reflexivity.
  - unfold decodes at 1 3.
    destruct (String.eqb (TrimSpace w text) "") eqn:Hblank; simpl.
    + apply IH.
    + destruct (Unmarshal w (TrimSpace w text)); simpl; [apply IH|reflexivity].
Qed.

Lemma parseStatsFile_wellFormed (w : World) (now : time.Time) (filePath : string) :
  match parseStatsFile w now filePath with
  | Ok statsFile =>
      wellFormed w filePath = true /\ StatsFile.Name statsFile = filepath.Base filePath
  | Err _ => wellFormed w filePath = false
  end.
Proof.
  unfold parseStatsFile, wellFormed.
  destruct (Open w filePath) as [file|]; [|reflexivity].
  pose proof (scanStats_decodes w filePath (scanLines file) 0 []) as Hscan.
  destruct (scanStats w filePath (scanLines file) 0 []) as [dockerStats|e].
  - rewrite Hscan. destruct (scanErr file); simpl; [reflexivity|]. split; reflexivity.
  - rewrite Hscan. reflexivity.
Qed.

Lemma loadLoop_candidates (w : World) (dir : string) (files : list DirEntry) :
  forall st : Loading,
  let st' := loadLoop w dir files st in
  map StatsFile.Name (statsFiles st')
  = map StatsFile.Name (statsFiles st)
    ++ map filepath.Base (List.filter (wellFormed w) (candidates dir files))
  /\ warnings st'
     = warnings st ++ List.filter (fun filePath => negb (wellFormed w filePath)) (candidates dir files).
Proof.
  unfold loadLoop, candidates.
  induction files as [|file files IH]; intros st; simpl.
  - now rewrite !app_nil_r.
  - specialize (IH (loadFile w dir st file)). simpl in IH.
    destruct IH as [IHs IHw]. rewrite IHs, IHw. clear IHs IHw.
    unfold loadFile, candidate.
    destruct (IsDir file); simpl; [split; reflexivity|].
    destruct (strings.HasSuffix (entryName file) ".json"); simpl; [|split; reflexivity].
    pose proof (parseStatsFile_wellFormed w (Now w (clockReads st))
                  (filepath.Join dir (entryName file))) as Hparse.
    destruct (parseStatsFile w (Now w (clockReads st)) (filepath.Join dir (entryName file)))
      as [statsFile|e]; simpl.
    + destruct Hparse as [-> Hname]. simpl.
      rewrite map_app, <- app_assoc. simpl. rewrite Hname. split; reflexivity.
    + rewrite Hparse. simpl. rewrite <- app_assoc. split; reflexivity.
Qed.

Lemma newerFirst_unfold (a b : StatsFile.t) :
  newerFirst a b = time.Before (StatsFile.Timestamp b) (StatsFile.Timestamp a).
Proof. reflexivity. Qed.

Lemma newerFirst_ordering (x : list StatsFile.t) :
  sort.TransitiveOrdering newerFirst x.
Proof.
  constructor.
  - intros a _. rewrite newerFirst_unfold. apply Before_irrefl.
  - intros a b c _ _ _. rewrite !newerFirst_unfold.
    intros Hab Hbc. exact (Before_trans _ _ _ Hbc Hab).
  - intros a b c _ _ _. rewrite !newerFirst_unfold.
    intros Hab Hbc. exact (Before_negtrans _ _ _ Hbc Hab).
Qed.

(** C1. Whenever the directory can be listed, loading succeeds: the catalog
    holds one snapshot for each well-formed snapshot file of the directory
    (N snapshots for N such files, under the files' names), and each of the
    M malformed snapshot files is skipped with a warning, whatever the other
    files are. *)
Theorem loadAllStatsFiles_partial_failure {sorter : sort.Sorter}
    (w : World) (reads : nat) (dir : string) (files : list DirEntry) :
  ReadDir w dir = Some files ->
  let good := List.filter (wellFormed w) (candidates dir files) in
  let bad := List.filter (fun filePath => negb (wellFormed w filePath)) (candidates dir files) in
  exists catalog : list StatsFile.t,
    loadAllStatsFiles w reads dir = (Ok catalog, bad)
    /\ length catalog = length good
    /\ Permutation (map StatsFile.Name catalog) (map filepath.Base good)
    /\ (length good + length bad = length (candidates dir files))%nat.
Proof.
  intros Hdir good bad. unfold loadAllStatsFiles. rewrite Hdir.
  destruct (loadLoop_candidates w dir files (mkLoading [] [] reads)) as [Hs Hw].
  simpl in Hs, Hw. fold good in Hs. fold bad in Hw.
  eexists. split; [rewrite Hw; reflexivity|].
  pose proof (sort.Slice_Permutation _ newerFirst
                (statsFiles (loadLoop w dir files (mkLoading [] [] reads)))) as Hperm.
  split; [|split].
  - rewrite <- (Permutation_length Hperm).
    rewrite <- (length_map StatsFile.Name), Hs. apply length_map.
  - rewrite <- Hs. apply Permutation_map. now apply Permutation_sym.
  - unfold good, bad. generalize (candidates dir files). intros l.
    induction l as [|a l IH]; simpl; [reflexivity|].
    destruct (wellFormed w a); simpl; lia.
Qed.

(** C2. A catalog the loader returns is sorted by timestamp, newest first:
    of two adjacent snapshots the first is not before the second. *)
Theorem loadAllStatsFiles_newest_first {sorter : sort.Sorter}
    (w : World) (reads : nat) (dir : string)
    (catalog : list StatsFile.t) (warned : list string) :
  loadAllStatsFiles w reads dir = (Ok catalog, warned) ->
  forall (i : nat) (a b : StatsFile.t),
    catalog !! i = Some a -> catalog !! S i = Some b ->
    time.Before (StatsFile.Timestamp a) (StatsFile.Timestamp b) = false.
Proof.
  unfold loadAllStatsFiles. destruct (ReadDir w dir) as [files|]; [|discriminate].
  intros [= <- _] i a b Hi Hj.
  pose proof (sort.Slice_Ascending _ newerFirst _
                (newerFirst_ordering
                   (statsFiles (loadLoop w dir files (mkLoading [] [] reads))))) as Hasc.
  rewrite <- newerFirst_unfold.
  exact (Ascending_adjacent newerFirst _ i a b Hasc Hi Hj).
Qed.

(** ** The time-series reconstructor *)

Lemma collectFile_records (containerID : string) (statsFile : StatsFile.t)
    (stats : list DockerStat.t) :
  forall (dataPoints : list ContainerDataPoint.t) (containerName : string),
  let matching :=
    List.filter (fun r => String.eqb (DockerStat.ID (snd r)) containerID)
      (map (pair statsFile) stats) in
  fold_left (collectStat containerID statsFile) stats (dataPoints, containerName)
  = (dataPoints ++ map (fun r => dataPointOf (fst r) (snd r)) matching,
     if String.eqb containerName ""
     then firstNonEmpty (map (fun r => DockerStat.Name (snd r)) matching)
     else containerName).
Proof.
  induction stats as [|stat stats IH]; intros dataPoints containerName; simpl.
  - rewrite app_nil_r.
    destruct (String.eqb containerName "") eqn:Hname; [|reflexivity].
    apply String.eqb_eq in Hname. now subst.
  - destruct (String.eqb (DockerStat.ID stat) containerID) eqn:Hid; simpl.
    + rewrite IH. simpl. rewrite <- app_assoc. simpl. f_equal.
      destruct (String.eqb containerName "") eqn:Hname.
      * destruct (String.eqb (DockerStat.Name stat) ""); reflexivity.
      * now rewrite Hname.
    + apply IH.
Qed.

Lemma firstNonEmpty_app (names rest : list string) :
  firstNonEmpty (names ++ rest)
  = if String.eqb (firstNonEmpty names) "" then firstNonEmpty rest else firstNonEmpty names.
Proof.
  induction names as [|name names IH]; simpl.
  - reflexivity.
  - destruct (String.eqb name "") eqn:Hn; [apply IH|now rewrite Hn].
Qed.

Lemma collect_records (containerID : string) (statsFiles : list StatsFile.t) :
  forall (dataPoints : list ContainerDataPoint.t) (containerName : string),
  fold_left (collectFile containerID) statsFiles (dataPoints, containerName)
  = (dataPoints ++ pointsOf statsFiles containerID,
     if String.eqb containerName ""
     then firstNonEmptyName statsFiles containerID
     else containerName).
Proof.
  unfold pointsOf, firstNonEmptyName, recordsOfContainer, recordsOf.
  induction statsFiles as [|statsFile statsFiles IH]; intros dataPoints containerName; simpl.
  - rewrite app_nil_r.
    destruct (String.eqb containerName "") eqn:Hname; [|reflexivity].
    apply String.eqb_eq in Hname. now subst.
  - unfold collectFile at 2. rewrite collectFile_records, IH.
    rewrite List.filter_app, !map_app, <- app_assoc, firstNonEmpty_app. f_equal.
    destruct (String.eqb containerName "") eqn:Hname; [reflexivity|now rewrite Hname].
Qed.

(** The series of a container: its identity, the first non-empty name of its
    records and its data points, reordered by the sort. *)
Lemma getContainerComparison_spec {sorter : sort.Sorter}
    (statsFiles : list StatsFile.t) (containerID : string) :
  getContainerComparison statsFiles containerID
  = ContainerComparison.mk containerID (firstNonEmptyName statsFiles containerID)
      (sort.Slice olderFirst (pointsOf statsFiles containerID)).
Proof.
  unfold getContainerComparison. rewrite collect_records. reflexivity.
Qed.

Lemma getContainerComparison_Data {sorter : sort.Sorter}
    (statsFiles : list StatsFile.t) (containerID : string) :
  ContainerComparison.Data (getContainerComparison statsFiles containerID)
  = sort.Slice olderFirst (pointsOf statsFiles containerID).
Proof. rewrite getContainerComparison_spec. reflexivity. Qed.

Lemma olderFirst_unfold (a b : ContainerDataPoint.t) :
  olderFirst a b
  = time.Before (time.parseOrZero time.pointLayout (ContainerDataPoint.Timestamp a))
                (time.parseOrZero time.pointLayout (ContainerDataPoint.Timestamp b)).
Proof. reflexivity. Qed.

Lemma parseOrZero_Some (layout : list time.chunk) (value : string) (t : time.Time) :
  time.Parse layout value = Some t -> time.parseOrZero layout value = t.
Proof. unfold time.parseOrZero. now intros ->. Qed.

Lemma parseOrZero_None (layout : list time.chunk) (value : string) :
  time.Parse layout value = None -> time.parseOrZero layout value = time.zero.
Proof. unfold time.parseOrZero. now intros ->. Qed.

(** A point whose timestamp does not parse is compared as [Time{}]. *)
Lemma olderFirst_unparsable (a b : ContainerDataPoint.t) :
  time.Parse time.pointLayout (ContainerDataPoint.Timestamp a) = None ->
  olderFirst a b
  = time.Before time.zero
      (time.parseOrZero time.pointLayout (ContainerDataPoint.Timestamp b)).
Proof. intros Ha. now rewrite olderFirst_unfold, (parseOrZero_None _ _ Ha). Qed.

Lemma olderFirst_ordering (x : list ContainerDataPoint.t) :
  sort.TransitiveOrdering olderFirst x.
Proof.
  constructor.
  - intros a _. rewrite olderFirst_unfold. apply Before_irrefl.
  - intros a b c _ _ _. rewrite !olderFirst_unfold. apply Before_trans.
  - intros a b c _ _ _. rewrite !olderFirst_unfold. apply Before_negtrans.
Qed.

Lemma getContainerComparison_adjacent {sorter : sort.Sorter}
    (statsFiles : list StatsFile.t) (containerID : string)
    (i : nat) (a b : ContainerDataPoint.t) :
  ContainerComparison.Data (getContainerComparison statsFiles containerID) !! i = Some a ->
  ContainerComparison.Data (getContainerComparison statsFiles containerID) !! S i = Some b ->
  olderFirst b a = false.
Proof.
  rewrite getContainerComparison_Data. intros Hi Hj.
  pose proof (sort.Slice_Ascending _ olderFirst _
                (olderFirst_ordering (pointsOf statsFiles containerID))) as Hasc.
  exact (Ascending_adjacent olderFirst _ i a b Hasc Hi Hj).
Qed.

(** C3, as the code has it. The series of a container is sorted by the
    timestamps read back from its points, oldest first, where a timestamp
    that does not parse counts as [Time{}]: of two adjacent points the second
    is not before the first; in particular this holds of the two parsed
    timestamps whenever both strings parse. *)
Theorem getContainerComparison_oldest_first {sorter : sort.Sorter}
    (statsFiles : list StatsFile.t) (containerID : string)
    (i : nat) (a b : ContainerDataPoint.t) :
  ContainerComparison.Data (getContainerComparison statsFiles containerID) !! i = Some a ->
  ContainerComparison.Data (getContainerComparison statsFiles containerID) !! S i = Some b ->
  time.Before (time.parseOrZero time.pointLayout (ContainerDataPoint.Timestamp b))
              (time.parseOrZero time.pointLayout (ContainerDataPoint.Timestamp a)) = false
  /\ forall ta tb : time.Time,
       time.Parse time.pointLayout (ContainerDataPoint.Timestamp a) = Some ta ->
       time.Parse time.pointLayout (ContainerDataPoint.Timestamp b) = Some tb ->
       time.Before tb ta = false.
Proof.
  intros Hi Hj.
  pose proof (getContainerComparison_adjacent statsFiles containerID i a b Hi Hj) as Hba.
  rewrite olderFirst_unfold in Hba. split; [exact Hba|].
  intros ta tb Ha Hb.
  rewrite <- (parseOrZero_Some _ _ _ Ha), <- (parseOrZero_Some _ _ _ Hb). exact Hba.
Qed.

(** ** [float64]: the order of the comparisons *)

Lemma SFcompare_Lt_trans (x y z : spec_float) :
  SFcompare x y = Some Lt -> SFcompare y z = Some Lt -> SFcompare x z = Some Lt.
Proof.
  destruct x as [sx|sx| |sx mx ex], y as [sy|sy| |sy my ey], z as [sz|sz| |sz mz ez];
    try destruct sx; try destruct sy; try destruct sz; simpl;
    try discriminate; try reflexivity.
  all: fold (Pos.compare mx my); fold (Pos.compare my mz); fold (Pos.compare mx mz).
  all: destruct (Z.compare_spec ex ey), (Z.compare_spec ey ez), (Z.compare_spec ex ez);
    try discriminate; try reflexivity; try lia.
  all: destruct (Pos.compare_spec mx my), (Pos.compare_spec my mz), (Pos.compare_spec mx mz);
    simpl; try discriminate; try reflexivity; try lia.
Qed.

Lemma SFcompare_irrefl (x : spec_float) : SFcompare x x <> Some Lt.
Proof.
  destruct x as [sx|sx| |sx mx ex]; try destruct sx; simpl; try discriminate.
  all: rewrite Z.compare_refl; fold (Pos.compare mx mx); rewrite Pos.compare_refl; discriminate.
Qed.

Lemma float_ltb_irrefl (x : float) : (x <? x)%float = false.
Proof.
  rewrite FloatAxioms.ltb_spec. unfold SFltb.
  pose proof (SFcompare_irrefl (Prim2SF x)).
  destruct (SFcompare (Prim2SF x) (Prim2SF x)) as [[]|]; congruence.
Qed.

Lemma float_ltb_trans (x y z : float) :
  (x <? y)%float = true -> (y <? z)%float = true -> (x <? z)%float = true.
Proof.
  rewrite !FloatAxioms.ltb_spec. unfold SFltb.
  pose proof (SFcompare_Lt_trans (Prim2SF x) (Prim2SF y) (Prim2SF z)) as H.
  destruct (SFcompare (Prim2SF x) (Prim2SF y)) as [[]|]; try discriminate.
  destruct (SFcompare (Prim2SF y) (Prim2SF z)) as [[]|]; try discriminate.
  intros _ _. now rewrite H.
Qed.

(** If [m] is not less than [u] and is less than [v], then [v] is not less
    than [u]: raising the maximum keeps it above what was seen. *)
Lemma float_raise (m v u : float) :
  (m <? v)%float = true -> (m <? u)%float = false -> (v <? u)%float = false.
Proof.
  intros Hmv Hmu. destruct (v <? u)%float eqn:Hvu; [|reflexivity].
  now rewrite (float_ltb_trans m v u Hmv Hvu) in Hmu.
Qed.

Lemma float_lower (m v u : float) :
  (v <? m)%float = true -> (u <? m)%float = false -> (u <? v)%float = false.
Proof.
  intros Hvm Hum. destruct (u <? v)%float eqn:Huv; [|reflexivity].
  now rewrite (float_ltb_trans u v m Huv Hvm) in Hum.
Qed.

Lemma SFcompare_antisym (x y : spec_float) :
  SFcompare y x = option_map CompOpp (SFcompare x y).
Proof.
  destruct x as [sx|sx| |sx mx ex], y as [sy|sy| |sy my ey];
    try destruct sx; try destruct sy; simpl; try reflexivity.
  all: fold (Pos.compare mx my); fold (Pos.compare my mx).
  all: rewrite (Z.compare_antisym ex ey), (Pos.compare_antisym mx my).
  all: destruct (ex ?= ey); simpl; try reflexivity.
  all: destruct (mx ?= my)%positive; reflexivity.
Qed.

Lemma SFcompare_defined (x y : spec_float) :
  match SFcompare x x with Some Eq => true | _ => false end = true ->
  match SFcompare y y with Some Eq => true | _ => false end = true ->
  SFcompare x y <> None.
Proof.
  destruct x as [sx|sx| |sx mx ex], y as [sy|sy| |sy my ey]; simpl; discriminate.
Qed.

(** Of two values that are no NaN, one that is not less is greater or
    equal. *)
Lemma float_not_less (x y : float) :
  (x =? x)%float = true -> (y =? y)%float = true ->
  (x <? y)%float = false -> (y <=? x)%float = true.
Proof.
  rewrite !FloatAxioms.eqb_spec, FloatAxioms.ltb_spec, FloatAxioms.leb_spec.
  unfold SFeqb, SFltb, SFleb.
  intros Hx Hy.
  assert (Hdef : SFcompare (Prim2SF x) (Prim2SF y) <> None)
    by (apply SFcompare_defined; assumption).
  rewrite (SFcompare_antisym (Prim2SF x) (Prim2SF y)).
  destruct (SFcompare (Prim2SF x) (Prim2SF y)) as [[]|]; simpl; congruence.
Qed.

(** Among values none of which is NaN, a maximum is an upper bound and a
    minimum is a lower bound. *)
Lemma Maximum_upper_bound (m : float) (values : list float) :
  Maximum m values -> NoNaN values ->
  forall v, In v values -> (v <=? m)%float = true.
Proof.
  intros [Hin Hmax] Hnan v Hv.
  apply float_not_less; auto.
Qed.

Lemma Minimum_lower_bound (m : float) (values : list float) :
  Minimum m values -> NoNaN values ->
  forall v, In v values -> (m <=? v)%float = true.
Proof.
  intros [Hin Hmin] Hnan v Hv.
  apply float_not_less; auto.
Qed.

(** ** The loops that compute a sum, a maximum and a minimum *)

Lemma statsLoop_invariant (values : list float) :
  forall (seen : list float) (sum maxV minV : float),
  Maximum maxV seen -> Minimum minV seen ->
  exists maxV' minV' : float,
    fold_left statsStep values (sum, maxV, minV)
    = (fold_left PrimFloat.add values sum, maxV', minV')
    /\ Maximum maxV' (seen ++ values) /\ Minimum minV' (seen ++ values).
Proof.
  induction values as [|v values IH]; intros seen sum maxV minV Hmax Hmin.
  - exists maxV, minV. rewrite app_nil_r. auto.
  - cbn [fold_left]. unfold statsStep at 2.
    replace (seen ++ v :: values) with ((seen ++ [v]) ++ values)
      by (rewrite <- app_assoc; reflexivity).
    apply IH.
    + destruct Hmax as [Hin Hle]. destruct (maxV <? v)%float eqn:Hv; split.
      * apply in_or_app. right. now left.
      * intros u Hu. apply in_app_or in Hu. destruct Hu as [Hu|[<-|[]]].
        -- exact (float_raise maxV v u Hv (Hle u Hu)).
        -- apply float_ltb_irrefl.
      * apply in_or_app. now left.
      * intros u Hu. apply in_app_or in Hu. destruct Hu as [Hu|[<-|[]]]; auto.
    + destruct Hmin as [Hin Hle]. destruct (v <? minV)%float eqn:Hv; split.
      * apply in_or_app. right. now left.
      * intros u Hu. apply in_app_or in Hu. destruct Hu as [Hu|[<-|[]]].
        -- exact (float_lower minV v u Hv (Hle u Hu)).
        -- apply float_ltb_irrefl.
      * apply in_or_app. now left.
      * intros u Hu. apply in_app_or in Hu. destruct Hu as [Hu|[<-|[]]]; auto.
Qed.

(** Seeded with a value of the list, the loop returns the sum of the list,
    a maximum and a minimum of it. *)
Lemma statsLoop_spec (first : float) (values : list float) :
  In first values ->
  exists maxV minV : float,
    statsLoop first values = (fold_left PrimFloat.add values 0%float, maxV, minV)
    /\ Maximum maxV values /\ Minimum minV values.
Proof.
  intros Hfirst. unfold statsLoop.
  destruct (statsLoop_invariant values [first] 0%float first first)
    as (maxV & minV & Heq & [Hmax1 Hmax2] & [Hmin1 Hmin2]).
  - split; [now left|]. intros v [<-|[]]. apply float_ltb_irrefl.
  - split; [now left|]. intros v [<-|[]]. apply float_ltb_irrefl.
  - exists maxV, minV. split; [exact Heq|].
    split; split.
    + destruct Hmax1 as [<-|H]; assumption.
    + intros v Hv. apply Hmax2. now right.
    + destruct Hmin1 as [<-|H]; assumption.
    + intros v Hv. apply Hmin2. now right.
Qed.

(** ** The single-container aggregator *)

(** C7. The statistics of a container's series: all zero when the series is
    empty; otherwise the averages are the arithmetic means of the CPU and of
    the memory values of all data points, and the maxima and minima are
    maxima and minima of these values. In scenario A the series of "abc" has
    the CPU values 10 and 30, in this order, with average 20, maximum 30 and
    minimum 10. *)
Theorem getContainerComparisonWithStats_statistics {sorter : sort.Sorter}
    (statsFiles : list StatsFile.t) (containerID : string) :
  let r := getContainerComparisonWithStats statsFiles containerID in
  let data := ContainerComparison.Data (ContainerComparisonWithStats.Comparison r) in
  let cpu := map ContainerDataPoint.CPUPerc data in
  let mem := map ContainerDataPoint.MemPerc data in
  ContainerComparisonWithStats.Comparison r = getContainerComparison statsFiles containerID
  /\ match data with
     | [] =>
         ContainerComparisonWithStats.AvgCPU r = 0%float
         /\ ContainerComparisonWithStats.MaxCPU r = 0%float
         /\ ContainerComparisonWithStats.MinCPU r = 0%float
         /\ ContainerComparisonWithStats.AvgMem r = 0%float
         /\ ContainerComparisonWithStats.MaxMem r = 0%float
         /\ ContainerComparisonWithStats.MinMem r = 0%float
     | _ :: _ =>
         ContainerComparisonWithStats.AvgCPU r = arithmeticMean cpu
         /\ Maximum (ContainerComparisonWithStats.MaxCPU r) cpu
         /\ Minimum (ContainerComparisonWithStats.MinCPU r) cpu
         /\ ContainerComparisonWithStats.AvgMem r = arithmeticMean mem
         /\ Maximum (ContainerComparisonWithStats.MaxMem r) mem
         /\ Minimum (ContainerComparisonWithStats.MinMem r) mem
     end
  /\ exists catalog : list StatsFile.t,
       fst (loadAllStatsFiles (sorter := insertionSorter) scenarioA 0 "stats/") = Ok catalog
       /\ let a := getContainerComparisonWithStats (sorter := insertionSorter) catalog "abc" in
          map ContainerDataPoint.CPUPerc
            (ContainerComparison.Data (ContainerComparisonWithStats.Comparison a))
          = [10%float; 30%float]
          /\ ContainerComparisonWithStats.AvgCPU a = 20%float
          /\ ContainerComparisonWithStats.MaxCPU a = 30%float
          /\ ContainerComparisonWithStats.MinCPU a = 10%float.
Proof.
  intros r data cpu mem. subst cpu mem data r.
  unfold getContainerComparisonWithStats.
  destruct (ContainerComparison.Data (getContainerComparison statsFiles containerID))
    as [|point0 points] eqn:Hdata.
  - cbn [ContainerComparisonWithStats.Comparison ContainerComparisonWithStats.AvgCPU
         ContainerComparisonWithStats.MaxCPU ContainerComparisonWithStats.MinCPU
         ContainerComparisonWithStats.AvgMem ContainerComparisonWithStats.MaxMem
         ContainerComparisonWithStats.MinMem].
    rewrite Hdata. split; [reflexivity|]. split; [repeat split|].
    eexists. split; [vm_compute; reflexivity|]. vm_compute. repeat split.
  - destruct (statsLoop_spec (ContainerDataPoint.CPUPerc point0)
                (map ContainerDataPoint.CPUPerc (point0 :: points)))
      as (maxCPU & minCPU & Hcpu & HmaxCPU & HminCPU); [now left|].
    destruct (statsLoop_spec (ContainerDataPoint.MemPerc point0)
                (map ContainerDataPoint.MemPerc (point0 :: points)))
      as (maxMem & minMem & Hmem & HmaxMem & HminMem); [now left|].
    rewrite Hcpu, Hmem.
    cbn [ContainerComparisonWithStats.Comparison ContainerComparisonWithStats.AvgCPU
         ContainerComparisonWithStats.MaxCPU ContainerComparisonWithStats.MinCPU
         ContainerComparisonWithStats.AvgMem ContainerComparisonWithStats.MaxMem
         ContainerComparisonWithStats.MinMem].
    rewrite Hdata. split; [reflexivity|]. split.
    + unfold arithmeticMean.
      repeat (split; [first [reflexivity|assumption]|]). assumption.
    + eexists. split; [vm_compute; reflexivity|]. vm_compute. repeat split.
Qed.

(** ** Witnesses and counterexamples of the loader and of the series *)

Lemma loadAllStatsFiles_partial_failure_witness :
  exists catalog : list StatsFile.t,
    loadAllStatsFiles (sorter := insertionSorter) scenarioB 0 "stats/"
    = (Ok catalog, ["stats/2024-01-01_10-30-00_x.json"])
    /\ length catalog = 2%nat
    /\ Permutation (map StatsFile.Name catalog)
         ["2024-01-01_10-00-00_x.json"; "2024-01-01_11-00-00_x.json"].
Proof.
  destruct (loadAllStatsFiles_partial_failure (sorter := insertionSorter)
              scenarioB 0 "stats/" _ eq_refl) as (catalog & Hload & Hlength & Hnames & _).
  exists catalog. vm_compute in Hload, Hlength, Hnames |- *. auto.
Defined.

Lemma loadAllStatsFiles_newest_first_witness :
  time.Before (StatsFile.Timestamp snapshotA11) (StatsFile.Timestamp snapshotA10) = false.
Proof.
  apply (loadAllStatsFiles_newest_first (sorter := insertionSorter)
           scenarioA 0 "stats/" [snapshotA11; snapshotA10] []) with (i := 0%nat).
  - vm_compute. reflexivity.
  - reflexivity.
  - reflexivity.
Defined.

Lemma getContainerComparison_oldest_first_witness :
  time.Before (time.parseOrZero time.pointLayout "2024-01-01 11:00:00")
              (time.parseOrZero time.pointLayout "2024-01-01 10:00:00") = false.
Proof.
  refine (proj1 (getContainerComparison_oldest_first (sorter := insertionSorter)
                   [snapshotA11; snapshotA10] "abc" 0
                   (dataPointOf snapshotA10 (record "abc" "web" "10.00%" "20.00%"))
                   (dataPointOf snapshotA11 (record "abc" "web" "30.00%" "40.00%")) _ _)).
  - vm_compute. reflexivity.
  - vm_compute. reflexivity.
Defined.

(** C3, as the specification states it, fails: the timestamp of a snapshot
    of the year 10000 is written with five digits and does not parse back;
    its point compares as [Time{}], before its neighbour of 2024 and not
    equal to it, and opens the series. *)
Lemma unparsable_timestamp_compares_as_zero :
  let series :=
    ContainerComparison.Data
      (getContainerComparison (sorter := insertionSorter) [snapshotFar; snapshotA10] "abc") in
  exists a b : ContainerDataPoint.t,
    series = [a; b]
    /\ ContainerDataPoint.Timestamp a = "10000-01-01 00:00:00"
    /\ ContainerDataPoint.Timestamp b = "2024-01-01 10:00:00"
    /\ time.Parse time.pointLayout (ContainerDataPoint.Timestamp a) = None
    /\ olderFirst a b = true.
Proof.
  eexists. eexists. split; [vm_compute; reflexivity|].
  vm_compute. repeat split.
Qed.

(** ** The timestamp of a snapshot *)

Lemma splitFrom_without_separator (sep : ascii) (s : string) :
  strings.Contains s sep = false ->
  forall cur : string, length (strings.splitFrom cur s sep) = 1%nat.
Proof.
  induction s as [|c s IH]; simpl; intros Hc cur.
  - reflexivity.
  - apply orb_false_iff in Hc. destruct Hc as [-> Hc]. now apply IH.
Qed.

(** C8, as the code has it. The timestamp of a parsed snapshot is read from
    the file's base name when the base name, split at "_", has at least three
    segments and the first two, joined by "_", parse against the layout
    2006-01-02_15-04-05; in every other case it is the time of the clock. *)
Theorem parseStatsFile_timestamp (w : World) (now : time.Time) (filePath : string)
    (statsFile : StatsFile.t) :
  parseStatsFile w now filePath = Ok statsFile ->
  let parts := strings.Split (filepath.Base filePath) "_" in
  let dateStr := String.append (nth 0 parts "") (String "_" (nth 1 parts "")) in
  ((3 <= length parts)%nat ->
   forall t : time.Time,
     time.Parse time.fileLayout dateStr = Some t -> StatsFile.Timestamp statsFile = t)
  /\ ((length parts < 3)%nat \/ time.Parse time.fileLayout dateStr = None ->
      StatsFile.Timestamp statsFile = now).
Proof.
  unfold parseStatsFile.
  destruct (Open w filePath) as [file|]; [|discriminate].
  destruct (scanStats w filePath (scanLines file) 0 []) as [dockerStats|e]; [|discriminate].
  destruct (scanErr file); [discriminate|].
  intros [= <-]. cbn [StatsFile.Timestamp]. cbv zeta.
  destruct (strings.Contains (filepath.Base filePath) "_") eqn:Hcontains.
  - destruct (length (strings.Split (filepath.Base filePath) "_")) as [|[|[|n]]];
      try (split; [lia|reflexivity]).
    split.
    + intros _ t Ht. now rewrite Ht.
    + intros [Hlt|Hnone]; [lia|]. now rewrite Hnone.
  - pose proof (splitFrom_without_separator "_" _ Hcontains EmptyString) as Hone.
    fold (strings.Split (filepath.Base filePath) "_") in Hone.
    split; [lia|reflexivity].
Qed.

Lemma parseStatsFile_timestamp_witness :
  StatsFile.Timestamp snapshotA10 = time.mkTime 2024 1 1 10 0 0 0 0.
Proof.
  refine (proj1 (parseStatsFile_timestamp scenarioA (Now scenarioA 0)
                   "stats/2024-01-01_10-00-00_x.json" snapshotA10 _) _ _ _).
  - vm_compute. reflexivity.
  - vm_compute. lia.
  - vm_compute. reflexivity.
Defined.

(** C8, as the specification states it, fails: the base name
    2024-01-01_10-00-00 has two segments which, joined, parse as a timestamp,
    and the snapshot is stamped with the time of the clock. *)
Lemma two_segments_fall_back_to_clock :
  let filePath := "stats/2024-01-01_10-00-00" in
  let now := time.mkTime 2026 11 2 9 30 0 0 3600 in
  let parts := strings.Split (filepath.Base filePath) "_" in
  parts = ["2024-01-01"; "10-00-00"]
  /\ time.Parse time.fileLayout (String.append (nth 0 parts "") (String "_" (nth 1 parts "")))
     = Some (time.mkTime 2024 1 1 10 0 0 0 0)
  /\ parseStatsFile bareStamp now filePath = Ok (StatsFile.mk "2024-01-01_10-00-00" now [])
  /\ now <> time.mkTime 2024 1 1 10 0 0 0 0.
Proof.
  vm_compute. repeat split. discriminate.
Qed.

(** *** Names that end in .json

    The loader passes only names that end in .json. For these the segments
    the code asks for, three, and the two that the timestamp is read from,
    make no difference. *)

Lemma stampByte_digit (c : ascii) : time.isDigit c = true -> stampByte c = true.
Proof. unfold stampByte. now intros ->. Qed.

Lemma getnum_bytes (s : string) (fixed : bool) (n : Z) (rest : string) :
  time.getnum s fixed = Some (n, rest) ->
  allBytes stampByte rest = true -> allBytes stampByte s = true.
Proof.
  unfold time.getnum. destruct s as [|c0 [|c1 s]]; [discriminate| |].
  - destruct (time.isDigit c0) eqn:H0; [|discriminate].
    destruct fixed; [discriminate|]. intros [= _ <-] _.
    cbn [allBytes]. now rewrite (stampByte_digit _ H0).
  - destruct (time.isDigit c0) eqn:H0; [|discriminate].
    destruct (time.isDigit c1) eqn:H1.
    + intros [= _ <-] Hrest. cbn [allBytes].
      now rewrite (stampByte_digit _ H0), (stampByte_digit _ H1).
    + destruct fixed; [discriminate|]. intros [= _ <-] Hrest.
      cbn [allBytes] in *. now rewrite (stampByte_digit _ H0).
Qed.

Lemma getyear_bytes (s : string) (y : Z) (rest : string) :
  time.getyear s = Some (y, rest) ->
  allBytes stampByte rest = true -> allBytes stampByte s = true.
Proof.
  unfold time.getyear. destruct s as [|a [|b [|c [|d s]]]]; try discriminate.
  destruct (time.isDigit a) eqn:Ha; [|discriminate].
  destruct (time.isDigit b) eqn:Hb; [|discriminate].
  destruct (time.isDigit c) eqn:Hc; [|discriminate].
  destruct (time.isDigit d) eqn:Hd; [|discriminate].
  intros [= _ <-] Hrest. cbn [allBytes].
  now rewrite (stampByte_digit _ Ha), (stampByte_digit _ Hb),
    (stampByte_digit _ Hc), (stampByte_digit _ Hd).
Qed.

Lemma cutspace_bytes (s : string) :
  allBytes stampByte (time.cutspace s) = true -> allBytes stampByte s = true.
Proof.
  induction s as [|c s IH]; [reflexivity|].
  cbn [time.cutspace].
  destruct c as [[] [] [] [] [] [] [] []]; try (intros H; exact H).
  intros H. cbn [allBytes]. rewrite (IH H). reflexivity.
Qed.

Lemma skip_bytes (value : string) (c : ascii) (rest : string) :
  stampByte c = true -> time.skip value c = Some rest ->
  allBytes stampByte rest = true -> allBytes stampByte value = true.
Proof.
  intros Hc. unfold time.skip. destruct (Ascii.eqb c " ") eqn:Hspace.
  - destruct value as [|v value]; [now intros [= <-]|].
    destruct (Ascii.eqb_spec v " ") as [->|]; [|discriminate].
    intros [= <-]. exact (cutspace_bytes (String " " value)).
  - destruct value as [|v value]; [discriminate|].
    destruct (Ascii.eqb_spec v c) as [->|]; [|discriminate].
    intros [= <-] Hrest. cbn [allBytes]. now rewrite Hc.
Qed.

Lemma leadingDigits_bytes (value : string) :
  forall (keep : nat) (acc : Z) (kept : nat) (ns : Z) (k : nat) (rest : string),
  time.leadingDigits value keep acc kept = (ns, k, rest) ->
  allBytes stampByte rest = true -> allBytes stampByte value = true.
Proof.
  induction value as [|c value IH]; intros keep acc kept ns k rest; cbn [time.leadingDigits].
  - now intros [= _ _ <-].
  - destruct (time.isDigit c) eqn:Hc.
    + destruct keep; intros H Hrest; cbn [allBytes];
        rewrite (stampByte_digit _ Hc); exact (IH _ _ _ _ _ _ H Hrest).
    + now intros [= _ _ <-].
Qed.

Lemma fractionalSecond_bytes (value : string) (ns : Z) (rest : string) :
  time.fractionalSecond value = (ns, rest) ->
  allBytes stampByte rest = true -> allBytes stampByte value = true.
Proof.
  unfold time.fractionalSecond. destruct value as [|p [|d value]]; try now intros [= _ <-].
  destruct ((Ascii.eqb p "." || Ascii.eqb p ",") && time.isDigit d) eqn:Hfrac;
    [|now intros [= _ <-]].
  destruct (time.leadingDigits (String d value) 9 0 0) as [[n k] rest'] eqn:Hdigits.
  intros [= _ <-] Hrest.
  pose proof (leadingDigits_bytes _ _ _ _ _ _ _ Hdigits Hrest) as Hvalue.
  change (allBytes stampByte (String p (String d value)))
    with (stampByte p && allBytes stampByte (String d value)).
  rewrite Hvalue. apply andb_true_iff in Hfrac. destruct Hfrac as [Hp _].
  unfold stampByte. apply orb_true_iff in Hp. destruct Hp as [->| ->];
    now rewrite ?orb_true_r.
Qed.

Lemma parseChunks_bytes (layout : list time.chunk) :
  plainLayout layout ->
  forall (value : string) (t0 t : time.Time),
  time.parseChunks layout value t0 = Some t -> allBytes stampByte value = true.
Proof.
  induction layout as [|c layout IH]; intros Hplain value t0 t; cbn [time.parseChunks].
  - now destruct value.
  - assert (Hplain' : plainLayout layout) by (intros x Hx; apply Hplain; now right).
    specialize (IH Hplain').
    destruct c.
    + destruct (time.skip value c) as [value'|] eqn:Hskip; [|discriminate].
      intros H. apply (skip_bytes _ _ _ (Hplain c (or_introl eq_refl)) Hskip).
      exact (IH _ _ _ H).
    + destruct (time.getyear value) as [[y value']|] eqn:Hy; [|discriminate].
      intros H. exact (getyear_bytes _ _ _ Hy (IH _ _ _ H)).
    + destruct (time.getnum value true) as [[m value']|] eqn:Hm; [|discriminate].
      destruct (_ || _); [discriminate|].
      intros H. exact (getnum_bytes _ _ _ _ Hm (IH _ _ _ H)).
    + destruct (time.getnum value true) as [[m value']|] eqn:Hm; [|discriminate].
      intros H. exact (getnum_bytes _ _ _ _ Hm (IH _ _ _ H)).
    + destruct (time.getnum value false) as [[m value']|] eqn:Hm; [|discriminate].
      destruct (_ || _); [discriminate|].
      intros H. exact (getnum_bytes _ _ _ _ Hm (IH _ _ _ H)).
    + destruct (time.getnum value true) as [[m value']|] eqn:Hm; [|discriminate].
      destruct (_ || _); [discriminate|].
      intros H. exact (getnum_bytes _ _ _ _ Hm (IH _ _ _ H)).
    + destruct (time.getnum value true) as [[m value']|] eqn:Hm; [|discriminate].
      destruct (_ || _); [discriminate|].
      destruct (time.fractionalSecond value') as [ns value''] eqn:Hfrac.
      intros H.
      exact (getnum_bytes _ _ _ _ Hm (fractionalSecond_bytes _ _ _ Hfrac (IH _ _ _ H))).
Qed.

Lemma fileLayout_plain : plainLayout time.fileLayout.
Proof.
  intros c Hc. unfold time.fileLayout in Hc. cbn [In] in Hc.
  repeat (destruct Hc as [Hc|Hc]; [try discriminate; injection Hc as <-; reflexivity|]).
  destruct Hc.
Qed.

(** A value that parses holds no letter. *)
Lemma Parse_fileLayout_bytes (value : string) (t : time.Time) :
  time.Parse time.fileLayout value = Some t -> allBytes stampByte value = true.
Proof.
  unfold time.Parse.
  destruct (time.parseChunks time.fileLayout value _) as [t1|] eqn:Hparse; [|discriminate].
  intros _. exact (parseChunks_bytes _ fileLayout_plain _ _ _ Hparse).
Qed.

Lemma allBytes_rev_append (P : ascii -> bool) (s : string) :
  forall acc : string,
  allBytes P (strings.rev_append s acc) = allBytes P s && allBytes P acc.
Proof.
  induction s as [|c s IH]; intros acc; cbn [strings.rev_append allBytes].
  - reflexivity.
  - rewrite IH. cbn [allBytes]. now destruct (P c), (allBytes P s).
Qed.

(** A name that ends in .json holds a letter. *)
Lemma json_name_bytes (name : string) :
  strings.HasSuffix name ".json" = true -> allBytes stampByte name = false.
Proof.
  unfold strings.HasSuffix. intros Hsuffix.
  assert (Hrev : allBytes stampByte (strings.reverse name) = false).
  { destruct (strings.reverse name) as [|c rest]; [discriminate|].
    change (strings.reverse ".json") with "nosj." in Hsuffix.
    cbn [strings.HasPrefix] in Hsuffix. apply andb_true_iff in Hsuffix.
    destruct Hsuffix as [Hc _]. apply Ascii.eqb_eq in Hc. subst c. reflexivity. }
  unfold strings.reverse in Hrev. rewrite allBytes_rev_append in Hrev.
  now rewrite andb_true_r in Hrev.
Qed.

Lemma rev_append_then_append (s : string) :
  forall acc rest : string,
  String.append (strings.rev_append s acc) rest
  = strings.rev_append s (String.append acc rest).
Proof.
  induction s as [|c s IH]; intros acc rest; cbn [strings.rev_append].
  - reflexivity.
  - now rewrite IH.
Qed.

Lemma reverse_cons_append (c : ascii) (cur rest : string) :
  String.append (strings.reverse (String c cur)) rest
  = String.append (strings.reverse cur) (String c rest).
Proof. unfold strings.reverse. now rewrite !rev_append_then_append. Qed.

Lemma splitFrom_nonempty (sep : ascii) (s : string) :
  forall cur : string, strings.splitFrom cur s sep <> [].
Proof.
  induction s as [|c s IH]; intros cur; cbn [strings.splitFrom]; [discriminate|].
  destruct (Ascii.eqb c sep); [discriminate|apply IH].
Qed.

(** The string is its fields joined by the separator: for one field, and for
    two. *)
Lemma splitFrom_one (sep : ascii) (s : string) :
  forall cur field : string,
  strings.splitFrom cur s sep = [field] ->
  field = String.append (strings.reverse cur) s.
Proof.
  induction s as [|c s IH]; intros cur field; cbn [strings.splitFrom].
  - intros [= <-]. clear. induction (strings.reverse cur) as [|c s IH]; [reflexivity|].
    change (String c s = String c (String.append s "")). now rewrite <- IH.
  - destruct (Ascii.eqb c sep).
    + intros [= _ Hrest]. now apply splitFrom_nonempty in Hrest.
    + intros H. rewrite (IH _ _ H). apply reverse_cons_append.
Qed.

Lemma splitFrom_two (sep : ascii) (s : string) :
  forall cur first second : string,
  strings.splitFrom cur s sep = [first; second] ->
  String.append first (String sep second) = String.append (strings.reverse cur) s.
Proof.
  induction s as [|c s IH]; intros cur first second; cbn [strings.splitFrom].
  - discriminate.
  - destruct (Ascii.eqb_spec c sep) as [->|_].
    + intros [= <- Hrest]. now rewrite (splitFrom_one _ _ _ _ Hrest).
    + intros H. rewrite (IH _ _ _ H). apply reverse_cons_append.
Qed.

(** The base name of a JSON file with exactly two segments does not parse:
    joined again, the segments are the whole name, and its extension is no
    part of a timestamp. *)
Lemma json_name_of_two_segments (basename : string) :
  strings.HasSuffix basename ".json" = true ->
  let parts := strings.Split basename "_" in
  length parts = 2%nat ->
  time.Parse time.fileLayout (String.append (nth 0 parts "") (String "_" (nth 1 parts "")))
  = None.
Proof.
  intros Hjson parts Hlen.
  destruct parts as [|first [|second [|? ?]]] eqn:Hparts; try discriminate.
  cbn [nth]. unfold parts, strings.Split in Hparts.
  rewrite (splitFrom_two _ _ _ _ _ Hparts).
  change (String.append (strings.reverse "") basename) with basename.
  destruct (time.Parse time.fileLayout basename) as [t|] eqn:Hparse; [|reflexivity].
  apply Parse_fileLayout_bytes in Hparse.
  now rewrite (json_name_bytes _ Hjson) in Hparse.
Qed.

(** X4. For a file whose base name ends in .json, as the names of the files
    the loader reads do, two segments are as good as three: the timestamp is
    read from the name exactly when the name has at least two segments and
    the first two parse. *)
Lemma parseStatsFile_timestamp_of_json_name (w : World) (now : time.Time)
    (filePath : string) (statsFile : StatsFile.t) :
  parseStatsFile w now filePath = Ok statsFile ->
  strings.HasSuffix (filepath.Base filePath) ".json" = true ->
  let parts := strings.Split (filepath.Base filePath) "_" in
  let dateStr := String.append (nth 0 parts "") (String "_" (nth 1 parts "")) in
  ((2 <= length parts)%nat ->
   forall t : time.Time,
     time.Parse time.fileLayout dateStr = Some t -> StatsFile.Timestamp statsFile = t)
  /\ ((length parts < 2)%nat \/ time.Parse time.fileLayout dateStr = None ->
      StatsFile.Timestamp statsFile = now).
Proof.
  intros Hparse Hjson.
  pose proof (json_name_of_two_segments _ Hjson) as Htwo. cbv zeta in Htwo.
  revert Hparse. unfold parseStatsFile.
  destruct (Open w filePath) as [file|]; [|discriminate].
  destruct (scanStats w filePath (scanLines file) 0 []) as [dockerStats|e]; [|discriminate].
  destruct (scanErr file); [discriminate|].
  intros [= <-]. cbn [StatsFile.Timestamp]. cbv zeta.
  destruct (strings.Contains (filepath.Base filePath) "_") eqn:Hcontains.
  - destruct (length (strings.Split (filepath.Base filePath) "_")) as [|[|[|n]]].
    + split; [lia|reflexivity].
    + split; [lia|reflexivity].
    + rewrite (Htwo eq_refl). split; [discriminate|reflexivity].
    + split.
      * intros _ t Ht. now rewrite Ht.
      * intros [Hlt|Hnone]; [lia|]. now rewrite Hnone.
  - pose proof (splitFrom_without_separator "_" _ Hcontains EmptyString) as Hone.
    fold (strings.Split (filepath.Base filePath) "_") in Hone.
    split; [lia|reflexivity].
Qed.

(** ** The catalog store *)

(** A turn of the refresh loop that has run to its end leaves the store as
    it was when the script fails, when the reload fails and when the reload
    finds no snapshot; otherwise both variables of the store hold the whole
    catalog just loaded. *)
Theorem refresh_keeps_or_replaces {sorter : sort.Sorter}
    (w : World) (reads : nat) (cmdErr : bool) (store : Store) :
  match cmdErr, fst (loadAllStatsFiles w reads "stats/") with
  | false, Ok (statsFile :: newStatsFiles) =>
      refresh w reads cmdErr store
      = mkStore (statsFile :: newStatsFiles) (statsFile :: newStatsFiles)
  | _, _ => refresh w reads cmdErr store = store
  end.
Proof.
  unfold refresh. destruct cmdErr; [reflexivity|].
  destruct (fst (loadAllStatsFiles w reads "stats/")) as [[|statsFile newStatsFiles]|e];
    reflexivity.
Qed.

(** C9. The claim holds of a failed and of an empty refresh, which assign
    nothing, and fails of a refresh that loaded snapshots: the catalog is
    held in two variables, which the turn replaces one after the other, and
    between the two assignments the store holds the new catalog in
    [statsFiles] and the old one in [serverData.Files]. The store of a server
    started on the first file of scenario A and refreshed when the second
    file has come passes through such a state; the main page, which serves
    the request for the snapshot at index 1 on the old and on the new
    catalog, panics on it with an index out of range. *)
Theorem refresh_replaces_in_two_steps {sorter : sort.Sorter}
    (w : World) (reads : nat) (cmdErr : bool) (store : Store) :
  match cmdErr, fst (loadAllStatsFiles w reads "stats/") with
  | false, Ok (statsFile :: newStatsFiles) =>
      refreshStates w reads cmdErr store
      = [mkStore (statsFile :: newStatsFiles) (serverDataFiles store);
         mkStore (statsFile :: newStatsFiles) (statsFile :: newStatsFiles)]
  | _, _ => refreshStates w reads cmdErr store = []
  end
  /\ refresh w reads cmdErr store = List.last (refreshStates w reads cmdErr store) store
  /\ startup (sorter := insertionSorter) firstHour 0
     = Serving (mkStore [snapshotA10] [snapshotA10])
  /\ refreshStates (sorter := insertionSorter) scenarioA 1 false
       (mkStore [snapshotA10] [snapshotA10])
     = [mkStore catalogA [snapshotA10]; mkStore catalogA catalogA]
  /\ mainPageHandler (mkStore [snapshotA10] [snapshotA10]) "1"
     = ExecuteStats (PageData.mk [snapshotA10] snapshotA10 0)
  /\ mainPageHandler (mkStore catalogA [snapshotA10]) "1" = IndexOutOfRange
  /\ mainPageHandler (mkStore catalogA catalogA) "1"
     = ExecuteStats (PageData.mk catalogA snapshotA10 1).
Proof.
  split; [|split].
  - unfold refreshStates. destruct cmdErr; [reflexivity|].
    destruct (fst (loadAllStatsFiles w reads "stats/"))
      as [[|statsFile newStatsFiles]|e]; reflexivity.
  - unfold refresh, refreshStates. destruct cmdErr; [reflexivity|].
    destruct (fst (loadAllStatsFiles w reads "stats/"))
      as [[|statsFile newStatsFiles]|e]; reflexivity.
  - repeat split; vm_compute; reflexivity.
Qed.

(** ** The conversion of a record *)

Lemma rev_append_append (s u acc : string) :
  strings.rev_append (String.append s u) acc
  = strings.rev_append u (strings.rev_append s acc).
Proof.
  revert acc. induction s as [|c s IH]; intros acc; simpl; [reflexivity|apply IH].
Qed.

Lemma substring_append (s u : string) :
  String.substring 0 (String.length s) (String.append s u) = s.
Proof.
  induction s as [|c s IH]; simpl.
  - now destruct u.
  - now rewrite IH.
Qed.

Lemma length_append (s u : string) :
  String.length (String.append s u) = (String.length s + String.length u)%nat.
Proof. induction s as [|c s IH]; simpl; [reflexivity|now rewrite IH]. Qed.

(** One trailing "%" is stripped. *)
Lemma TrimSuffix_percent (digits : string) :
  strings.TrimSuffix (String.append digits "%") "%" = digits.
Proof.
  unfold strings.TrimSuffix, strings.HasSuffix, strings.reverse.
  rewrite rev_append_append. cbn [strings.rev_append strings.HasPrefix].
  rewrite Ascii.eqb_refl. cbn [andb].
  replace (strings.HasPrefix (strings.rev_append digits "") "") with true
    by now destruct (strings.rev_append digits "").
  rewrite length_append. cbn [String.length].
  replace (String.length digits + 1 - 1)%nat with (String.length digits) by lia.
  apply substring_append.
Qed.

Lemma ParseFloat_syntax_zero (s : string) :
  snd (strconv.ParseFloat s) = Some strconv.ErrSyntax ->
  fst (strconv.ParseFloat s) = 0%float.
Proof.
  unfold strconv.ParseFloat.
  destruct (strconv.special s); [discriminate|].
  destruct (strconv.readFloat s) as [[n rest]|]; [|reflexivity].
  destruct rest; [|reflexivity].
  destruct (strconv.nearest n); cbn [fst snd]; discriminate.
Qed.

Lemma dataPointOf_Converted (statsFile : StatsFile.t) (stat : DockerStat.t) :
  Converted stat (dataPointOf statsFile stat).
Proof.
  assert (Hnorm : forall text,
             Normalized text (fst (strconv.ParseFloat (strings.TrimSuffix text "%")))).
  { intros text. repeat split.
    - intros digits ->. now rewrite TrimSuffix_percent.
    - intros Hsuffix. unfold strings.TrimSuffix. now rewrite Hsuffix.
    - apply ParseFloat_syntax_zero.
    - intros ->. reflexivity. }
  unfold Converted, dataPointOf.
  cbn [ContainerDataPoint.CPUPerc ContainerDataPoint.MemPerc ContainerDataPoint.MemUsage
       ContainerDataPoint.NetIO ContainerDataPoint.BlockIO ContainerDataPoint.PIDs].
  repeat split; apply Hnorm.
Qed.

Lemma In_recordsOfContainer (statsFiles : list StatsFile.t) (containerID : string)
    (r : StatsFile.t * DockerStat.t) :
  In r (recordsOfContainer statsFiles containerID) <->
  In (fst r) statsFiles /\ In (snd r) (StatsFile.Stats (fst r))
  /\ DockerStat.ID (snd r) = containerID.
Proof.
  unfold recordsOfContainer, recordsOf.
  rewrite List.filter_In, in_flat_map, String.eqb_eq. split.
  - intros [(statsFile & Hin & Hr) Hid]. apply in_map_iff in Hr.
    destruct Hr as (stat & <- & Hstat). simpl in *. auto.
  - intros (Hfile & Hstat & Hid). split; [|assumption].
    exists (fst r). split; [assumption|]. apply in_map_iff.
    exists (snd r). split; [now destruct r|assumption].
Qed.

Lemma In_pointsOf (statsFiles : list StatsFile.t) (containerID : string)
    (point : ContainerDataPoint.t) :
  In point (pointsOf statsFiles containerID) ->
  exists (statsFile : StatsFile.t) (stat : DockerStat.t),
    In statsFile statsFiles /\ In stat (StatsFile.Stats statsFile)
    /\ DockerStat.ID stat = containerID /\ point = dataPointOf statsFile stat.
Proof.
  unfold pointsOf. rewrite in_map_iff. intros ([statsFile stat] & <- & Hr).
  apply In_recordsOfContainer in Hr. simpl in Hr.
  exists statsFile, stat. tauto.
Qed.

(** ** The maps of the all-containers aggregator *)

Lemma collectAll_records (statsFiles : list StatsFile.t) :
  collectAll statsFiles = fold_left collectAllRecord (recordsOf statsFiles) (∅, ∅).
Proof.
  unfold collectAll. generalize ((∅, ∅) : gmap string (list ContainerDataPoint.t) * gmap string string).
  induction statsFiles as [|statsFile statsFiles IH]; intros acc.
  - reflexivity.
  - cbn [fold_left recordsOf flat_map]. rewrite fold_left_app, IH. f_equal.
    unfold collectAllFile. generalize (StatsFile.Stats statsFile). intros stats.
    revert acc. induction stats as [|stat stats IHs]; intros acc; [reflexivity|].
    cbn [fold_left map]. apply IHs.
Qed.

Lemma collectAll_lookup (statsFiles : list StatsFile.t) (containerID : string) :
  fst (collectAll statsFiles) !! containerID
  = match pointsOf statsFiles containerID with
    | [] => None
    | dataPoints => Some dataPoints
    end
  /\ snd (collectAll statsFiles) !! containerID
     = last (map (fun r => DockerStat.Name (snd r))
               (recordsOfContainer statsFiles containerID)).
Proof.
  rewrite collectAll_records. unfold pointsOf, recordsOfContainer.
  induction (recordsOf statsFiles) as [|r records IH] using rev_ind.
  - split; reflexivity.
  - rewrite fold_left_app. cbn [fold_left].
    destruct (fold_left collectAllRecord records (∅, ∅)) as [containerData containerNames].
    cbn [fst snd] in IH. destruct IH as [IHdata IHnames].
    unfold collectAllRecord, collectAllStat. cbn [fst snd].
    rewrite List.filter_app, !map_app. cbn [List.filter].
    destruct (String.eqb_spec (DockerStat.ID (snd r)) containerID) as [Hid|Hid].
    + rewrite Hid, !lookup_insert_eq, IHdata. cbn [map]. split.
      * destruct (map _ (List.filter _ records)); reflexivity.
      * now rewrite last_snoc.
    + rewrite !lookup_insert_ne by assumption.
      cbn [map]. rewrite !app_nil_r. split; assumption.
Qed.

Lemma Forall2_PointOf (records : list (StatsFile.t * DockerStat.t)) :
  Forall2 PointOf records (map (fun r => dataPointOf (fst r) (snd r)) records).
Proof.
  induction records as [|r records IH]; cbn [map]; constructor; [|exact IH].
  split; [apply dataPointOf_Converted|reflexivity].
Qed.

(** C4. The data points of a container's series, and the data points the
    all-containers aggregator collects for a container, are the conversions
    of the records of that container, one point for each record and under
    the timestamp of the record's snapshot: the points of the series pair off
    with the records taken in some order, those of the aggregator with the
    records in the order of the catalog, and a container with a record has
    points. In each pair the CPU and memory percentages of the point are
    parsed from those of the record without their trailing "%" and are 0 when
    the text is missing or malformed, and the memory usage, network I/O,
    block I/O and PIDs texts of the point are those of the record. So every
    point comes from a record of its container by the conversion. *)
Theorem data_points_are_converted_records {sorter : sort.Sorter}
    (statsFiles : list StatsFile.t) (containerID : string) :
  (exists records : list (StatsFile.t * DockerStat.t),
     Permutation records (recordsOfContainer statsFiles containerID)
     /\ Forall2 PointOf records
          (ContainerComparison.Data (getContainerComparison statsFiles containerID)))
  /\ match fst (collectAll statsFiles) !! containerID with
     | Some dataPoints =>
         dataPoints <> []
         /\ Forall2 PointOf (recordsOfContainer statsFiles containerID) dataPoints
     | None => recordsOfContainer statsFiles containerID = []
     end
  /\ (forall point : ContainerDataPoint.t,
        In point (ContainerComparison.Data (getContainerComparison statsFiles containerID)) ->
        exists (statsFile : StatsFile.t) (stat : DockerStat.t),
          In statsFile statsFiles /\ In stat (StatsFile.Stats statsFile)
          /\ DockerStat.ID stat = containerID /\ Converted stat point)
  /\ (forall (dataPoints : list ContainerDataPoint.t) (point : ContainerDataPoint.t),
        fst (collectAll statsFiles) !! containerID = Some dataPoints ->
        In point dataPoints ->
        exists (statsFile : StatsFile.t) (stat : DockerStat.t),
          In statsFile statsFiles /\ In stat (StatsFile.Stats statsFile)
          /\ DockerStat.ID stat = containerID /\ Converted stat point).
Proof.
  assert (Hpoints : forall point, In point (pointsOf statsFiles containerID) ->
            exists statsFile stat,
              In statsFile statsFiles /\ In stat (StatsFile.Stats statsFile)
              /\ DockerStat.ID stat = containerID /\ Converted stat point).
  { intros point Hin. apply In_pointsOf in Hin.
    destruct Hin as (statsFile & stat & Hfile & Hstat & Hid & ->).
    exists statsFile, stat. repeat split; try assumption; apply dataPointOf_Converted. }
  split; [|split; [|split]].
  - rewrite getContainerComparison_Data.
    pose proof (sort.Slice_Permutation _ olderFirst (pointsOf statsFiles containerID))
      as Hperm.
    unfold pointsOf in Hperm at 1. apply Permutation_sym in Hperm.
    apply Permutation_map_inv in Hperm. destruct Hperm as (records & Hdata & Hrecords).
    exists records. split; [now apply Permutation_sym|].
    rewrite Hdata. apply Forall2_PointOf.
  - rewrite (proj1 (collectAll_lookup statsFiles containerID)). unfold pointsOf.
    pose proof (Forall2_PointOf (recordsOfContainer statsFiles containerID)) as Hpairs.
    destruct (recordsOfContainer statsFiles containerID) as [|r records];
      [reflexivity|].
    split; [discriminate|exact Hpairs].
  - intros point Hin. rewrite getContainerComparison_Data in Hin.
    apply Hpoints.
    exact (Permutation_in _ (Permutation_sym (sort.Slice_Permutation _ olderFirst _)) Hin).
  - intros dataPoints point Hlookup Hin.
    rewrite (proj1 (collectAll_lookup statsFiles containerID)) in Hlookup.
    apply Hpoints.
    destruct (pointsOf statsFiles containerID); [discriminate|].
    now injection Hlookup as <-.
Qed.

(** ** The all-containers aggregator *)

Lemma fold_left_append_Some {A B : Type} (f : A -> option B) (l : list A) :
  forall acc : list B,
  fold_left (fun acc a => match f a with Some b => acc ++ [b] | None => acc end) l acc
  = acc ++ omap f l.
Proof.
  induction l as [|a l IH]; intros acc; cbn [fold_left omap list_omap].
  - now rewrite app_nil_r.
  - rewrite IH. destruct (f a); [|reflexivity]. now rewrite <- app_assoc.
Qed.

Lemma fold_left_pointwise {A B : Type} (f g : B -> A -> B) (l : list A) :
  (forall acc a, f acc a = g acc a) ->
  forall acc : B, fold_left f l acc = fold_left g l acc.
Proof.
  intros Hfg. induction l as [|a l IH]; intros acc; cbn [fold_left].
  - reflexivity.
  - now rewrite Hfg, IH.
Qed.

Lemma getAllContainerSummaries_spec {sorter : sort.Sorter}
    (keys : list string) (statsFiles : list StatsFile.t) :
  getAllContainerSummaries keys statsFiles
  = sort.Slice busierFirst (omap (summaryOf statsFiles) keys).
Proof.
  unfold getAllContainerSummaries, summaryOf.
  destruct (collectAll statsFiles) as [containerData containerNames]. cbn [fst snd].
  f_equal.
  etransitivity;
    [|exact (fold_left_append_Some
               (fun containerID =>
                  match containerData !! containerID with
                  | Some dataPoints => summarize containerNames containerID dataPoints
                  | None => None
                  end) keys [])].
  apply fold_left_pointwise. intros summaries containerID.
  now destruct (containerData !! containerID).
Qed.

Lemma last_In {A : Type} (l : list A) (d : A) : l <> [] -> In (List.last l d) l.
Proof.
  induction l as [|a l IH]; [congruence|]. intros _.
  destruct l as [|b l]; [now left|].
  right. apply IH. discriminate.
Qed.

Lemma Ascending_last {A : Type} (less : A -> A -> bool) (l : list A) (d : A) :
  (forall a, less a a = false) -> sort.Ascending less l ->
  forall q, In q l -> less (List.last l d) q = false.
Proof.
  intros Hirr. unfold sort.Ascending.
  induction 1 as [|a l Hs IH Hall]; intros q Hq; [destruct Hq|].
  destruct l as [|b l].
  - destruct Hq as [<-|[]]. apply Hirr.
  - change (List.last (a :: b :: l) d) with (List.last (b :: l) d).
    destruct Hq as [<-|Hq]; [|now apply IH].
    rewrite List.Forall_forall in Hall. apply Hall. apply last_In. discriminate.
Qed.

Lemma olderFirst_irrefl (a : ContainerDataPoint.t) : olderFirst a a = false.
Proof. rewrite olderFirst_unfold. apply Before_irrefl. Qed.

(** What the loop over [containerData] computes for one container. *)
Lemma summarize_spec {sorter : sort.Sorter} (containerNames : gmap string string)
    (containerID : string) (dataPoints : list ContainerDataPoint.t)
    (summary : ContainerSummary.t) :
  summarize containerNames containerID dataPoints = Some summary ->
  exists sorted : list ContainerDataPoint.t,
    Permutation sorted dataPoints /\ sort.Ascending olderFirst sorted
    /\ ContainerSummary.ContainerID summary = containerID
    /\ ContainerSummary.ContainerName summary
       = default EmptyString (containerNames !! containerID)
    /\ ContainerSummary.DataPoints summary = length sorted
    /\ (1 <= ContainerSummary.DataPoints summary)%nat
    /\ ContainerSummary.AvgCPU summary
       = arithmeticMean (map ContainerDataPoint.CPUPerc sorted)
    /\ Maximum (ContainerSummary.MaxCPU summary) (map ContainerDataPoint.CPUPerc sorted)
    /\ Minimum (ContainerSummary.MinCPU summary) (map ContainerDataPoint.CPUPerc sorted)
    /\ ContainerSummary.AvgMem summary
       = arithmeticMean (map ContainerDataPoint.MemPerc sorted)
    /\ Maximum (ContainerSummary.MaxMem summary) (map ContainerDataPoint.MemPerc sorted)
    /\ Minimum (ContainerSummary.MinMem summary) (map ContainerDataPoint.MemPerc sorted)
    /\ Earliest (ContainerSummary.FirstSeen summary) sorted
    /\ Latest (ContainerSummary.LastSeen summary) sorted.
Proof.
  unfold summarize. destruct dataPoints as [|point dataPoints]; [discriminate|].
  pose proof (sort.Slice_Permutation _ olderFirst (point :: dataPoints)) as Hperm.
  pose proof (sort.Slice_Ascending _ olderFirst _
                (olderFirst_ordering (point :: dataPoints))) as Hasc.
  destruct (sort.Slice olderFirst (point :: dataPoints)) as [|point0 sorted];
    [discriminate|].
  destruct (statsLoop_spec (ContainerDataPoint.CPUPerc point0)
              (map ContainerDataPoint.CPUPerc (point0 :: sorted)))
    as (maxCPU & minCPU & Hcpu & HmaxCPU & HminCPU); [now left|].
  destruct (statsLoop_spec (ContainerDataPoint.MemPerc point0)
              (map ContainerDataPoint.MemPerc (point0 :: sorted)))
    as (maxMem & minMem & Hmem & HmaxMem & HminMem); [now left|].
  rewrite Hcpu, Hmem. intros [= <-].
  exists (point0 :: sorted).
  cbn [ContainerSummary.ContainerID ContainerSummary.ContainerName
       ContainerSummary.DataPoints ContainerSummary.AvgCPU ContainerSummary.MaxCPU
       ContainerSummary.MinCPU ContainerSummary.AvgMem ContainerSummary.MaxMem
       ContainerSummary.MinMem ContainerSummary.FirstSeen ContainerSummary.LastSeen].
  split; [now apply Permutation_sym|]. split; [assumption|].
  do 3 (split; [reflexivity|]). split; [cbn [length]; lia|].
  unfold arithmeticMean. rewrite !length_map.
  do 6 (split; [first [reflexivity|assumption]|]).
  split.
  - exists point0. split; [now left|]. split; [reflexivity|].
    intros other [<-|Hother]; [apply olderFirst_irrefl|].
    unfold sort.Ascending in Hasc. inversion Hasc as [|? ? _ Hall]; subst.
    rewrite List.Forall_forall in Hall. now apply Hall.
  - exists (List.last (point0 :: sorted) point0).
    split; [apply last_In; discriminate|]. split; [reflexivity|].
    apply Ascending_last; [apply olderFirst_irrefl|assumption].
Qed.

(** C10, as the code has it. A summary of the all-containers aggregator
    covers the data points of its container, at least one, taken in the order
    of their timestamps: the averages are the arithmetic means of the values
    in this order, the maxima and minima are maxima and minima of the values,
    with the minimum below or equal to the maximum when no value is NaN, and
    the first and last seen timestamps are those of an earliest and of a
    latest point. *)
Theorem getAllContainerSummaries_statistics {sorter : sort.Sorter}
    (keys : list string) (statsFiles : list StatsFile.t) (summary : ContainerSummary.t) :
  In summary (getAllContainerSummaries keys statsFiles) ->
  exists dataPoints : list ContainerDataPoint.t,
    let cpu := map ContainerDataPoint.CPUPerc dataPoints in
    let mem := map ContainerDataPoint.MemPerc dataPoints in
    Permutation dataPoints (pointsOf statsFiles (ContainerSummary.ContainerID summary))
    /\ sort.Ascending olderFirst dataPoints
    /\ ContainerSummary.DataPoints summary = length dataPoints
    /\ (1 <= ContainerSummary.DataPoints summary)%nat
    /\ ContainerSummary.AvgCPU summary = arithmeticMean cpu
    /\ Maximum (ContainerSummary.MaxCPU summary) cpu
    /\ Minimum (ContainerSummary.MinCPU summary) cpu
    /\ (NoNaN cpu ->
        (ContainerSummary.MinCPU summary <=? ContainerSummary.MaxCPU summary)%float = true)
    /\ ContainerSummary.AvgMem summary = arithmeticMean mem
    /\ Maximum (ContainerSummary.MaxMem summary) mem
    /\ Minimum (ContainerSummary.MinMem summary) mem
    /\ (NoNaN mem ->
        (ContainerSummary.MinMem summary <=? ContainerSummary.MaxMem summary)%float = true)
    /\ Earliest (ContainerSummary.FirstSeen summary) dataPoints
    /\ Latest (ContainerSummary.LastSeen summary) dataPoints.
Proof.
  rewrite getAllContainerSummaries_spec. intros Hin.
  apply (Permutation_in _ (Permutation_sym (sort.Slice_Permutation _ busierFirst _))) in Hin.
  apply list_elem_of_In, list_elem_of_omap in Hin.
  destruct Hin as (containerID & _ & Hsummary).
  unfold summaryOf in Hsummary.
  rewrite (proj1 (collectAll_lookup statsFiles containerID)) in Hsummary.
  destruct (pointsOf statsFiles containerID) as [|point points] eqn:Hpoints;
    [discriminate|].
  apply summarize_spec in Hsummary.
  destruct Hsummary as (sorted & Hperm & Hasc & Hid & _ & Hlen & Hone & HavgCPU & HmaxCPU
                        & HminCPU & HavgMem & HmaxMem & HminMem & Hfirst & Hlast).
  exists sorted. cbv zeta. rewrite Hid, Hpoints.
  repeat (split; [assumption|]).
  split; [intros Hnan; exact (Maximum_upper_bound _ _ HmaxCPU Hnan _ (proj1 HminCPU))|].
  repeat (split; [assumption|]).
  split; [intros Hnan; exact (Maximum_upper_bound _ _ HmaxMem Hnan _ (proj1 HminMem))|].
  split; assumption.
Qed.

(** ** Timestamps written and read back *)

Lemma forallb_below (P : Z -> bool) (k : nat) :
  forallb P (map Z.of_nat (seq 0 k)) = true ->
  forall n, 0 <= n < Z.of_nat k -> P n = true.
Proof.
  intros Hall n Hn. rewrite forallb_forall in Hall. apply Hall.
  apply in_map_iff. exists (Z.to_nat n). split; [lia|].
  apply in_seq. lia.
Qed.

Lemma twoDigits_below_100 (n : Z) : 0 <= n < 100 -> twoDigits n = true.
Proof. apply (forallb_below twoDigits 100). vm_compute. reflexivity. Qed.

Lemma fourDigits_below_10000 (n : Z) : 0 <= n < 10000 -> fourDigits n = true.
Proof.
  intros Hn.
  assert (Hall : forallb (fun hi => forallb (fun lo => fourDigits (hi * 100 + lo)) hundred)
                   hundred = true) by (vm_compute; reflexivity).
  pose proof (forallb_below _ 100 Hall (n / 100)) as Hhi. cbv beta in Hhi.
  pose proof (forallb_below _ 100 (Hhi ltac:(split; [apply Z.div_pos; lia|apply Z.div_lt_upper_bound; lia])) (n mod 100)) as Hlo.
  cbv beta in Hlo.
  replace (n / 100 * 100 + n mod 100) with n in Hlo
    by (rewrite (Z.div_mod n 100) at 1; lia).
  apply Hlo. apply Z.mod_pos_bound. lia.
Qed.

Lemma getnum_appendInt (n : Z) (fixed : bool) (rest : string) :
  0 <= n < 100 ->
  time.getnum (String.append (time.appendInt n 2) rest) fixed = Some (n, rest).
Proof.
  intros Hn. pose proof (twoDigits_below_100 n Hn) as H. unfold twoDigits in H.
  destruct (time.appendInt n 2) as [|a [|b [|c s]]]; try discriminate.
  apply andb_true_iff in H. destruct H as [H Hv].
  apply andb_true_iff in H. destruct H as [Ha Hb].
  apply Z.eqb_eq in Hv.
  change (time.getnum (String a (String b rest)) fixed = Some (n, rest)).
  unfold time.getnum. rewrite Ha, Hb, Hv. reflexivity.
Qed.

Lemma getyear_appendInt (n : Z) (rest : string) :
  0 <= n < 10000 ->
  time.getyear (String.append (time.appendInt n 4) rest) = Some (n, rest).
Proof.
  intros Hn. pose proof (fourDigits_below_10000 n Hn) as H. unfold fourDigits in H.
  destruct (time.appendInt n 4) as [|a [|b [|c [|d [|e s]]]]]; try discriminate.
  apply andb_true_iff in H. destruct H as [H Hv]. apply Z.eqb_eq in Hv.
  change (time.getyear (String a (String b (String c (String d rest)))) = Some (n, rest)).
  unfold time.getyear. rewrite H, Hv. reflexivity.
Qed.

Lemma appendInt_starts_with_digit (n : Z) (rest : string) :
  0 <= n < 100 ->
  time.cutspace (String.append (time.appendInt n 2) rest)
  = String.append (time.appendInt n 2) rest.
Proof.
  intros Hn. pose proof (twoDigits_below_100 n Hn) as H. unfold twoDigits in H.
  destruct (time.appendInt n 2) as [|a [|b [|c s]]]; try discriminate.
  apply andb_true_iff in H. destruct H as [H _].
  apply andb_true_iff in H. destruct H as [Ha _].
  change (time.cutspace (String a (String b rest)) = String a (String b rest)).
  destruct a as [[] [] [] [] [] [] [] []]; try reflexivity; discriminate Ha.
Qed.

Lemma Format_pointLayout (t : time.Time) :
  time.Format t time.pointLayout
  = String.append (time.appendInt (time.Year t) 4) (String "-"
      (String.append (time.appendInt (time.Month t) 2) (String "-"
        (String.append (time.appendInt (time.Day t) 2) (String " "
          (String.append (time.appendInt (time.Hour t) 2) (String ":"
            (String.append (time.appendInt (time.Minute t) 2) (String ":"
              (String.append (time.appendInt (time.Second t) 2) EmptyString)))))))))).
Proof. reflexivity. Qed.

Lemma daysIn_upper (month year : Z) : time.daysIn month year <= 31.
Proof.
  unfold time.daysIn.
  destruct (month =? 2); [destruct (time.isLeap year); lia|].
  destruct ((month =? 4) || (month =? 6) || (month =? 9) || (month =? 11)); lia.
Qed.

Lemma Format_Parse (t : time.Time) :
  validStamp t ->
  time.Parse time.pointLayout (time.Format t time.pointLayout) = Some (wallClock t).
Proof.
  intros (Hy & Hm & Hd & Hh & Hmi & Hs).
  pose proof (daysIn_upper (time.Month t) (time.Year t)) as Hd31.
  unfold time.Parse. rewrite Format_pointLayout. unfold time.pointLayout.
  cbn [time.parseChunks].
  rewrite getyear_appendInt by lia.
  cbn [time.skip Ascii.eqb Bool.eqb andb].
  rewrite getnum_appendInt by lia.
  replace ((time.Month t <=? 0) || (12 <? time.Month t)) with false
    by (symmetry; apply orb_false_iff; split; [apply Z.leb_gt|apply Z.ltb_ge]; lia).
  cbn [time.skip Ascii.eqb Bool.eqb andb].
  rewrite getnum_appendInt by lia.
  cbn [time.skip Ascii.eqb Bool.eqb andb time.cutspace].
  rewrite appendInt_starts_with_digit by lia.
  rewrite getnum_appendInt by lia.
  replace ((time.Hour t <? 0) || (24 <=? time.Hour t)) with false
    by (symmetry; apply orb_false_iff; split; [apply Z.ltb_ge|apply Z.leb_gt]; lia).
  cbn [time.skip Ascii.eqb Bool.eqb andb].
  rewrite getnum_appendInt by lia.
  replace ((time.Minute t <? 0) || (60 <=? time.Minute t)) with false
    by (symmetry; apply orb_false_iff; split; [apply Z.ltb_ge|apply Z.leb_gt]; lia).
  cbn [time.skip Ascii.eqb Bool.eqb andb].
  rewrite getnum_appendInt by lia.
  replace ((time.Second t <? 0) || (60 <=? time.Second t)) with false
    by (symmetry; apply orb_false_iff; split; [apply Z.ltb_ge|apply Z.leb_gt]; lia).
  cbn [time.fractionalSecond time.Year time.Month time.Day time.Hour time.Minute
       time.Second time.Nanosecond].
  replace (time.Month t <? 0) with false by (symmetry; apply Z.ltb_ge; lia).
  replace (time.Day t <? 0) with false by (symmetry; apply Z.ltb_ge; lia).
  replace ((time.Day t <? 1) || (time.daysIn (time.Month t) (time.Year t) <? time.Day t))
    with false
    by (symmetry; apply orb_false_iff; split; apply Z.ltb_ge; lia).
  reflexivity.
Qed.

Lemma isDigit_digitVal (c : ascii) : time.isDigit c = true -> 0 <= time.digitVal c <= 9.
Proof.
  unfold time.isDigit, time.digitVal. rewrite andb_true_iff, !Z.leb_le. lia.
Qed.

Lemma getnum_bounds (s : string) (fixed : bool) (n : Z) (rest : string) :
  time.getnum s fixed = Some (n, rest) -> 0 <= n <= 99.
Proof.
  unfold time.getnum. destruct s as [|c0 [|c1 s]]; [discriminate| |].
  - destruct (time.isDigit c0) eqn:H0; [|discriminate].
    apply isDigit_digitVal in H0. destruct fixed; [discriminate|]. intros [= <- _]. lia.
  - destruct (time.isDigit c0) eqn:H0; [|discriminate]. apply isDigit_digitVal in H0.
    destruct (time.isDigit c1) eqn:H1.
    + apply isDigit_digitVal in H1. intros [= <- _]. lia.
    + destruct fixed; [discriminate|]. intros [= <- _]. lia.
Qed.

Lemma getyear_bounds (s : string) (y : Z) (rest : string) :
  time.getyear s = Some (y, rest) -> 0 <= y <= 9999.
Proof.
  unfold time.getyear. destruct s as [|a [|b [|c [|d s]]]]; try discriminate.
  destruct (time.isDigit a) eqn:Ha; [|discriminate].
  destruct (time.isDigit b) eqn:Hb; [|discriminate].
  destruct (time.isDigit c) eqn:Hc; [|discriminate].
  destruct (time.isDigit d) eqn:Hd; [|discriminate].
  apply isDigit_digitVal in Ha, Hb, Hc, Hd. intros [= <- _]. lia.
Qed.

Lemma parseChunks_fieldsInRange (layout : list time.chunk) :
  forall (value : string) (t0 t : time.Time),
  time.parseChunks layout value t0 = Some t -> fieldsInRange t0 t.
Proof.
  unfold fieldsInRange.
  induction layout as [|c layout IH]; intros value t0 t; cbn [time.parseChunks].
  - destruct value; [|discriminate]. intros [= <-]. tauto.
  - destruct c.
    + destruct (time.skip value c) as [value'|]; [|discriminate]. apply IH.
    + destruct (time.getyear value) as [[y value']|] eqn:Hy; [|discriminate].
      apply getyear_bounds in Hy. intros H. apply IH in H.
      cbn [time.Year time.Month time.Day time.Hour time.Minute time.Second] in H.
      intuition lia.
    + destruct (time.getnum value true) as [[m value']|] eqn:Hm; [|discriminate].
      destruct ((m <=? 0) || (12 <? m)) eqn:Hr; [discriminate|].
      apply orb_false_iff in Hr. rewrite Z.leb_gt, Z.ltb_ge in Hr.
      intros H. apply IH in H.
      cbn [time.Year time.Month time.Day time.Hour time.Minute time.Second] in H.
      intuition lia.
    + destruct (time.getnum value true) as [[d value']|] eqn:Hd; [|discriminate].
      apply getnum_bounds in Hd. intros H. apply IH in H.
      cbn [time.Year time.Month time.Day time.Hour time.Minute time.Second] in H.
      intuition lia.
    + destruct (time.getnum value false) as [[h value']|] eqn:Hh; [|discriminate].
      destruct ((h <? 0) || (24 <=? h)) eqn:Hr; [discriminate|].
      apply orb_false_iff in Hr. rewrite Z.ltb_ge, Z.leb_gt in Hr.
      intros H. apply IH in H.
      cbn [time.Year time.Month time.Day time.Hour time.Minute time.Second] in H.
      intuition lia.
    + destruct (time.getnum value true) as [[m value']|] eqn:Hm; [|discriminate].
      destruct ((m <? 0) || (60 <=? m)) eqn:Hr; [discriminate|].
      apply orb_false_iff in Hr. rewrite Z.ltb_ge, Z.leb_gt in Hr.
      intros H. apply IH in H.
      cbn [time.Year time.Month time.Day time.Hour time.Minute time.Second] in H.
      intuition lia.
    + destruct (time.getnum value true) as [[s value']|] eqn:Hs; [|discriminate].
      destruct ((s <? 0) || (60 <=? s)) eqn:Hr; [discriminate|].
      apply orb_false_iff in Hr. rewrite Z.ltb_ge, Z.leb_gt in Hr.
      destruct (time.fractionalSecond value') as [ns value''].
      intros H. apply IH in H.
      cbn [time.Year time.Month time.Day time.Hour time.Minute time.Second] in H.
      intuition lia.
Qed.

(** A time [Parse] returns is a valid date of a year from 0 to 9999. *)
Lemma Parse_validStamp (layout : list time.chunk) (value : string) (t : time.Time) :
  time.Parse layout value = Some t -> validStamp t.
Proof.
  unfold time.Parse.
  destruct (time.parseChunks layout value (time.mkTime 0 (-1) (-1) 0 0 0 0 0))
    as [t1|] eqn:Hparse; [|discriminate].
  apply parseChunks_fieldsInRange in Hparse. unfold fieldsInRange in Hparse.
  cbn [time.Year time.Month time.Day time.Hour time.Minute time.Second] in Hparse.
  destruct Hparse as (Hy & Hm & Hd & Hh & Hmi & Hs).
  destruct (_ || _) eqn:Hday; [discriminate|].
  apply orb_false_iff in Hday. rewrite !Z.ltb_ge in Hday.
  intros [= <-]. unfold validStamp.
  cbn [time.Year time.Month time.Day time.Hour time.Minute time.Second].
  destruct (Z.ltb_spec (time.Month t1) 0), (Z.ltb_spec (time.Day t1) 0); lia.
Qed.

Lemma parseStatsFile_validStamp (w : World) (now : time.Time) (filePath : string)
    (statsFile : StatsFile.t) :
  validStamp now -> parseStatsFile w now filePath = Ok statsFile ->
  validStamp (StatsFile.Timestamp statsFile).
Proof.
  intros Hnow. unfold parseStatsFile.
  destruct (Open w filePath) as [file|]; [|discriminate].
  destruct (scanStats w filePath (scanLines file) 0 []) as [dockerStats|e]; [|discriminate].
  destruct (scanErr file); [discriminate|].
  intros [= <-]. cbn [StatsFile.Timestamp]. cbv zeta.
  destruct (strings.Contains (filepath.Base filePath) "_"); [|assumption].
  destruct (length (strings.Split (filepath.Base filePath) "_")) as [|[|[|n]]];
    try assumption.
  destruct (time.Parse time.fileLayout _) as [t|] eqn:Hparse; [|assumption].
  exact (Parse_validStamp _ _ _ Hparse).
Qed.

Lemma loadLoop_validStamps (w : World) (dir : string) (files : list DirEntry) :
  (forall n, validStamp (Now w n)) ->
  forall st : Loading,
  Forall (fun statsFile => validStamp (StatsFile.Timestamp statsFile)) (statsFiles st) ->
  Forall (fun statsFile => validStamp (StatsFile.Timestamp statsFile))
    (statsFiles (loadLoop w dir files st)).
Proof.
  intros Hclock. unfold loadLoop.
  induction files as [|file files IH]; intros st Hst; cbn [fold_left]; [assumption|].
  apply IH. unfold loadFile.
  destruct (IsDir file || negb (strings.HasSuffix (entryName file) ".json")); [assumption|].
  destruct (parseStatsFile w (Now w (clockReads st)) (filepath.Join dir (entryName file)))
    as [statsFile|e] eqn:Hparse; cbn [statsFiles]; [|assumption].
  apply List.Forall_app. split; [assumption|]. constructor; [|constructor].
  exact (parseStatsFile_validStamp _ _ _ _ (Hclock _) Hparse).
Qed.

(** When the clock shows valid dates of the years 0 to 9999, so do the
    timestamps of the catalog the loader returns. *)
Lemma loadAllStatsFiles_validStamps {sorter : sort.Sorter}
    (w : World) (reads : nat) (dir : string)
    (catalog : list StatsFile.t) (warned : list string) :
  (forall n, validStamp (Now w n)) ->
  loadAllStatsFiles w reads dir = (Ok catalog, warned) ->
  forall statsFile, In statsFile catalog -> validStamp (StatsFile.Timestamp statsFile).
Proof.
  intros Hclock. unfold loadAllStatsFiles.
  destruct (ReadDir w dir) as [files|]; [|discriminate].
  intros [= <- _] statsFile Hin.
  apply (Permutation_in _ (Permutation_sym (sort.Slice_Permutation _ newerFirst _))) in Hin.
  pose proof (loadLoop_validStamps w dir files Hclock (mkLoading [] [] reads)
                (List.Forall_nil _)) as Hall.
  rewrite List.Forall_forall in Hall. now apply Hall.
Qed.

(** The timestamps of the points then parse back, to the wall clock readings
    of their snapshots. *)
Lemma series_timestamps_parse {sorter : sort.Sorter}
    (statsFiles : list StatsFile.t) (containerID : string) (point : ContainerDataPoint.t) :
  (forall statsFile, In statsFile statsFiles -> validStamp (StatsFile.Timestamp statsFile)) ->
  In point (ContainerComparison.Data (getContainerComparison statsFiles containerID)) ->
  exists statsFile : StatsFile.t,
    In statsFile statsFiles
    /\ time.Parse time.pointLayout (ContainerDataPoint.Timestamp point)
       = Some (wallClock (StatsFile.Timestamp statsFile)).
Proof.
  intros Hvalid Hin. rewrite getContainerComparison_Data in Hin.
  apply (Permutation_in _ (Permutation_sym (sort.Slice_Permutation _ olderFirst _))) in Hin.
  apply In_pointsOf in Hin. destruct Hin as (statsFile & stat & Hfile & _ & _ & ->).
  exists statsFile. split; [assumption|].
  unfold dataPointOf. cbn [ContainerDataPoint.Timestamp].
  apply Format_Parse. now apply Hvalid.
Qed.

(** X11. In a catalog the loader returns while the clock shows valid dates,
    the timestamps of two adjacent points of a series both parse, and the
    second is not before the first. *)
Lemma loaded_series_oldest_first {sorter : sort.Sorter}
    (w : World) (reads : nat) (dir : string)
    (catalog : list StatsFile.t) (warned : list string)
    (containerID : string) (i : nat) (a b : ContainerDataPoint.t) :
  (forall n, validStamp (Now w n)) ->
  loadAllStatsFiles w reads dir = (Ok catalog, warned) ->
  ContainerComparison.Data (getContainerComparison catalog containerID) !! i = Some a ->
  ContainerComparison.Data (getContainerComparison catalog containerID) !! S i = Some b ->
  exists ta tb : time.Time,
    time.Parse time.pointLayout (ContainerDataPoint.Timestamp a) = Some ta
    /\ time.Parse time.pointLayout (ContainerDataPoint.Timestamp b) = Some tb
    /\ time.Before tb ta = false.
Proof.
  intros Hclock Hload Hi Hj.
  pose proof (loadAllStatsFiles_validStamps w reads dir catalog warned Hclock Hload)
    as Hvalid.
  destruct (series_timestamps_parse catalog containerID a Hvalid) as (fa & _ & Ha).
  { apply list_elem_of_In. eapply list_elem_of_lookup_2. exact Hi. }
  destruct (series_timestamps_parse catalog containerID b Hvalid) as (fb & _ & Hb).
  { apply list_elem_of_In. eapply list_elem_of_lookup_2. exact Hj. }
  exists (wallClock (StatsFile.Timestamp fa)), (wallClock (StatsFile.Timestamp fb)).
  split; [exact Ha|]. split; [exact Hb|].
  pose proof (getContainerComparison_adjacent catalog containerID i a b Hi Hj) as Hba.
  rewrite olderFirst_unfold in Hba.
  now rewrite (parseOrZero_Some _ _ _ Ha), (parseOrZero_Some _ _ _ Hb) in Hba.
Qed.

(** ** The display name of a container *)

(** X9. The series of a container carries the first non-empty name of its
    records, in the order of the catalog. *)
Lemma getContainerComparison_ContainerName {sorter : sort.Sorter}
    (statsFiles : list StatsFile.t) (containerID : string) :
  ContainerComparison.ContainerName (getContainerComparison statsFiles containerID)
  = firstNonEmptyName statsFiles containerID.
Proof. rewrite getContainerComparison_spec. reflexivity. Qed.

(** X16. The summary of a container carries the name of its last record, in
    the order of the catalog. *)
Lemma getAllContainerSummaries_ContainerName {sorter : sort.Sorter}
    (keys : list string) (statsFiles : list StatsFile.t) (summary : ContainerSummary.t) :
  In summary (getAllContainerSummaries keys statsFiles) ->
  last (map (fun r => DockerStat.Name (snd r))
          (recordsOfContainer statsFiles (ContainerSummary.ContainerID summary)))
  = Some (ContainerSummary.ContainerName summary).
Proof.
  rewrite getAllContainerSummaries_spec. intros Hin.
  apply (Permutation_in _ (Permutation_sym (sort.Slice_Permutation _ busierFirst _))) in Hin.
  apply list_elem_of_In, list_elem_of_omap in Hin.
  destruct Hin as (containerID & _ & Hsummary).
  unfold summaryOf in Hsummary.
  destruct (collectAll_lookup statsFiles containerID) as [Hdata Hnames].
  rewrite Hdata in Hsummary. unfold pointsOf in Hsummary.
  destruct (recordsOfContainer statsFiles containerID) as [|r records] eqn:Hrecords;
    [discriminate|].
  apply summarize_spec in Hsummary.
  destruct Hsummary as (sorted & _ & _ & Hid & Hname & _).
  rewrite Hid, Hrecords, Hname, Hnames.
  change (map (fun r0 => DockerStat.Name (snd r0)) (r :: records))
    with (DockerStat.Name (snd r) :: map (fun r0 => DockerStat.Name (snd r0)) records).
  destruct (last_is_Some (DockerStat.Name (snd r)
                          :: map (fun r0 => DockerStat.Name (snd r0)) records))
    as [_ Hsome].
  destruct Hsome as [name Hlast]; [discriminate|].
  now rewrite Hlast.
Qed.

(** ** The order of the summaries *)

Lemma busierFirst_unfold (a b : ContainerSummary.t) :
  busierFirst a b = (ContainerSummary.AvgCPU b <? ContainerSummary.AvgCPU a)%float.
Proof. reflexivity. Qed.

(** Without ties, the comparison of the averages is a transitive ordering. *)
Lemma busierFirst_ordering (x summaries : list ContainerSummary.t) :
  NoTies summaries -> (forall a, In a x -> In a summaries) ->
  sort.TransitiveOrdering busierFirst x.
Proof.
  intros Hties Hsub.
  assert (Htrans : forall a b c, busierFirst a b = true -> busierFirst b c = true ->
                                 busierFirst a c = true).
  { intros a b c. rewrite !busierFirst_unfold. intros Hab Hbc.
    exact (float_ltb_trans _ _ _ Hbc Hab). }
  assert (Hirr : forall a, busierFirst a a = false).
  { intros a. rewrite busierFirst_unfold. apply float_ltb_irrefl. }
  constructor.
  - intros a _. apply Hirr.
  - intros a b c _ _ _. apply Htrans.
  - intros a b c Ha Hb Hc Hab Hbc.
    destruct (busierFirst a c) eqn:Hac; [exfalso|reflexivity].
    destruct (Hties a b (Hsub a Ha) (Hsub b Hb)) as [->|[H|Hba]].
    + congruence.
    + congruence.
    + rewrite (Htrans b a c Hba Hac) in Hbc. discriminate.
Qed.

(** Two lists in ascending order with the same elements are equal when no
    two elements tie. *)
Lemma Ascending_unique {A : Type} (less : A -> A -> bool) (l1 : list A) :
  forall l2 : list A,
  (forall a b, In a l1 -> In b l1 -> a = b \/ less a b = true \/ less b a = true) ->
  sort.Ascending less l1 -> sort.Ascending less l2 -> Permutation l1 l2 -> l1 = l2.
Proof.
  unfold sort.Ascending.
  induction l1 as [|a l1 IH]; intros l2 Hties Hs1 Hs2 Hperm.
  - now apply Permutation_nil in Hperm.
  - destruct l2 as [|b l2]; [now apply Permutation_sym, Permutation_nil in Hperm|].
    inversion Hs1 as [|? ? Hs1' Hall1]; subst.
    inversion Hs2 as [|? ? Hs2' Hall2]; subst.
    rewrite List.Forall_forall in Hall1, Hall2.
    assert (Hab : a = b).
    { assert (Ha2 : In a (b :: l2)) by (apply (Permutation_in _ Hperm); now left).
      assert (Hb1 : In b (a :: l1))
        by (apply (Permutation_in _ (Permutation_sym Hperm)); now left).
      destruct Ha2 as [Ha2|Ha2]; [now symmetry|].
      destruct Hb1 as [Hb1|Hb1]; [assumption|].
      destruct (Hties a b) as [H|[H|H]]; [now left|now right|assumption|..].
      - rewrite (Hall2 a Ha2) in H. discriminate.
      - rewrite (Hall1 b Hb1) in H. discriminate. }
    subst b. f_equal. apply IH; try assumption.
    + intros x y Hx Hy. apply Hties; now right.
    + exact (Permutation_cons_inv Hperm).
Qed.

Lemma RangeOrder_Permutation {V : Type} (m : gmap string V) (keys1 keys2 : list string) :
  RangeOrder m keys1 -> RangeOrder m keys2 -> Permutation keys1 keys2.
Proof.
  intros [Hnd1 Hin1] [Hnd2 Hin2].
  apply NoDup_Permutation; [assumption..|].
  intros k. rewrite !list_elem_of_In, Hin1, Hin2. reflexivity.
Qed.

(** C6, as the code has it. Two computations of the all-containers summary
    over one catalog return the same summaries, with the same field values,
    possibly in different orders: the order in which [range] visits the map
    shows among summaries whose averages tie. When no two summaries tie, the
    two results are identical. *)
Theorem getAllContainerSummaries_up_to_ties {sorter : sort.Sorter}
    (statsFiles : list StatsFile.t) (keys1 keys2 : list string) :
  RangeOrder (fst (collectAll statsFiles)) keys1 ->
  RangeOrder (fst (collectAll statsFiles)) keys2 ->
  Permutation (getAllContainerSummaries keys1 statsFiles)
              (getAllContainerSummaries keys2 statsFiles)
  /\ (NoTies (getAllContainerSummaries keys1 statsFiles) ->
      getAllContainerSummaries keys1 statsFiles = getAllContainerSummaries keys2 statsFiles).
Proof.
  intros Hkeys1 Hkeys2. rewrite !getAllContainerSummaries_spec.
  pose proof (RangeOrder_Permutation _ _ _ Hkeys1 Hkeys2) as Hkeys.
  pose proof (omap_Permutation (summaryOf statsFiles) _ _ Hkeys) as Hsummaries.
  pose proof (sort.Slice_Permutation _ busierFirst (omap (summaryOf statsFiles) keys1)) as Hp1.
  pose proof (sort.Slice_Permutation _ busierFirst (omap (summaryOf statsFiles) keys2)) as Hp2.
  assert (Hperm : Permutation (sort.Slice busierFirst (omap (summaryOf statsFiles) keys1))
                              (sort.Slice busierFirst (omap (summaryOf statsFiles) keys2))).
  { rewrite <- Hp1, <- Hp2. exact Hsummaries. }
  split; [exact Hperm|]. intros Hties.
  apply (Ascending_unique busierFirst); [exact Hties| | |exact Hperm].
  - apply sort.Slice_Ascending. apply (busierFirst_ordering _ _ Hties).
    intros a Ha. exact (Permutation_in _ Hp1 Ha).
  - apply sort.Slice_Ascending. apply (busierFirst_ordering _ _ Hties).
    intros a Ha. apply (Permutation_in _ (Permutation_sym Hperm)).
    exact (Permutation_in _ Hp2 Ha).
Qed.

(** The keys of a map, in any order, are an order for [range]. *)
Lemma RangeOrder_map_to_list {V : Type} (m : gmap string V) (keys : list string) :
  Permutation keys (map fst (map_to_list m)) -> RangeOrder m keys.
Proof.
  intros Hperm. split.
  - rewrite Hperm. apply NoDup_fst_map_to_list.
  - intros k. rewrite <- list_elem_of_In, Hperm.
    change (map fst (map_to_list m)) with ((map_to_list m).*1).
    rewrite list_elem_of_fmap. split.
    + intros ([k' v] & -> & Hkv). apply elem_of_map_to_list in Hkv. now exists v.
    + intros [v Hv]. exists (k, v). split; [reflexivity|]. now apply elem_of_map_to_list.
Qed.

Lemma tied_keys (keys : list string) :
  Permutation keys ["aaa"; "bbb"] -> RangeOrder (fst (collectAll tied)) keys.
Proof.
  intros Hperm. apply RangeOrder_map_to_list.
  rewrite Hperm. vm_compute. reflexivity.
Qed.

Lemma untied_keys (keys : list string) :
  Permutation keys ["aaa"; "bbb"] -> RangeOrder (fst (collectAll untied)) keys.
Proof.
  intros Hperm. apply RangeOrder_map_to_list.
  rewrite Hperm. vm_compute. reflexivity.
Qed.

(** ** Witnesses and counterexamples of the aggregators *)

(** C6, as the specification states it, fails: the two containers of the
    catalog have the same average, [range] may visit them in either order,
    and the two results list them in different orders. *)
Lemma tied_summaries_follow_the_range_order :
  RangeOrder (fst (collectAll tied)) ["aaa"; "bbb"]
  /\ RangeOrder (fst (collectAll tied)) ["bbb"; "aaa"]
  /\ map ContainerSummary.ContainerID
       (getAllContainerSummaries (sorter := insertionSorter) ["aaa"; "bbb"] tied)
     = ["aaa"; "bbb"]
  /\ map ContainerSummary.ContainerID
       (getAllContainerSummaries (sorter := insertionSorter) ["bbb"; "aaa"] tied)
     = ["bbb"; "aaa"]
  /\ getAllContainerSummaries (sorter := insertionSorter) ["aaa"; "bbb"] tied
     <> getAllContainerSummaries (sorter := insertionSorter) ["bbb"; "aaa"] tied.
Proof.
  split; [apply tied_keys; reflexivity|].
  split; [apply tied_keys; apply perm_swap|].
  split; [vm_compute; reflexivity|].
  split; [vm_compute; reflexivity|].
  intros Heq. apply (f_equal (map ContainerSummary.ContainerID)) in Heq.
  vm_compute in Heq. discriminate.
Qed.

Lemma getAllContainerSummaries_up_to_ties_witness :
  getAllContainerSummaries (sorter := insertionSorter) ["aaa"; "bbb"] untied
  = getAllContainerSummaries (sorter := insertionSorter) ["bbb"; "aaa"] untied.
Proof.
  apply (getAllContainerSummaries_up_to_ties (sorter := insertionSorter)
           untied ["aaa"; "bbb"] ["bbb"; "aaa"]).
  - apply untied_keys. reflexivity.
  - apply untied_keys. apply perm_swap.
  - intros a b Ha Hb. vm_compute in Ha, Hb.
    destruct Ha as [<-|[<-|[]]], Hb as [<-|[<-|[]]];
      first [left; reflexivity|right; left; vm_compute; reflexivity
            |right; right; vm_compute; reflexivity].
Defined.

(** C10, as the specification states it, fails: the average of three
    readings of 0.10% is the [float64] above 0.1, greater than the maximum. *)
Lemma average_above_the_maximum :
  exists summary : ContainerSummary.t,
    getAllContainerSummaries (sorter := insertionSorter) ["abc"] tenths = [summary]
    /\ ContainerSummary.DataPoints summary = 3%nat
    /\ ContainerSummary.MaxCPU summary = fst (strconv.ParseFloat "0.10")
    /\ ContainerSummary.AvgCPU summary = fst (strconv.ParseFloat "0.10000000000000002")
    /\ (ContainerSummary.AvgCPU summary <=? ContainerSummary.MaxCPU summary)%float = false.
Proof.
  eexists. split; [vm_compute; reflexivity|]. vm_compute. repeat split.
Qed.

Lemma getAllContainerSummaries_statistics_witness :
  exists dataPoints : list ContainerDataPoint.t,
    Permutation dataPoints (pointsOf catalogA "abc")
    /\ length dataPoints = 2%nat
    /\ Earliest "2024-01-01 10:00:00" dataPoints
    /\ Latest "2024-01-01 11:00:00" dataPoints.
Proof.
  destruct (getAllContainerSummaries_statistics (sorter := insertionSorter)
              ["abc"] catalogA
              (ContainerSummary.mk "abc" "web" 2 20 30 10 30 40 20
                 "2024-01-01 10:00:00" "2024-01-01 11:00:00"))
    as (dataPoints & Hperm & _ & Hlen & _ & _ & _ & _ & _ & _ & _ & _ & _ & Hfirst & Hlast).
  - vm_compute. left. reflexivity.
  - exists dataPoints. split; [exact Hperm|]. split; [symmetry; exact Hlen|].
    split; [exact Hfirst|exact Hlast].
Defined.

(** C5 fails on the code at a container that was renamed: its series carries
    the first non-empty name met in the catalog, "web", and its summary the
    name of the last record met, "web-old". *)
Theorem summary_carries_the_last_name :
  firstNonEmptyName renamed "abc" = "web"
  /\ ContainerComparison.ContainerName
       (getContainerComparison (sorter := insertionSorter) renamed "abc") = "web"
  /\ map ContainerSummary.ContainerName
       (getAllContainerSummaries (sorter := insertionSorter) ["abc"] renamed)
     = ["web-old"].
Proof. vm_compute. repeat split. Qed.

(** * Further properties *)

(** ** Strings and paths *)

Lemma append_nil_r (s : string) : String.append s EmptyString = s.
Proof.
  induction s as [|c s IH]; [reflexivity|].
  change (String c (String.append s "") = String c s). now rewrite IH.
Qed.

Lemma append_assoc (s u v : string) :
  String.append (String.append s u) v = String.append s (String.append u v).
Proof.
  induction s as [|c s IH]; [reflexivity|].
  change (String c (String.append (String.append s u) v)
          = String c (String.append s (String.append u v))).
  now rewrite IH.
Qed.

Lemma reverse_append (s u : string) :
  strings.reverse (String.append s u)
  = String.append (strings.reverse u) (strings.reverse s).
Proof.
  unfold strings.reverse. rewrite rev_append_append.
  rewrite rev_append_then_append. reflexivity.
Qed.

Lemma rev_append_involutive (s : string) :
  forall acc : string,
  strings.rev_append (strings.rev_append s acc) EmptyString
  = String.append (strings.rev_append acc EmptyString) s.
Proof.
  induction s as [|c s IH]; intros acc; cbn [strings.rev_append].
  - now rewrite append_nil_r.
  - rewrite IH. cbn [strings.rev_append].
    exact (reverse_cons_append c acc s).
Qed.

Lemma reverse_involutive (s : string) : strings.reverse (strings.reverse s) = s.
Proof. unfold strings.reverse. now rewrite rev_append_involutive. Qed.

Lemma Contains_cons (c : ascii) (s : string) (sep : ascii) :
  strings.Contains (String c s) sep = Ascii.eqb c sep || strings.Contains s sep.
Proof. reflexivity. Qed.

Lemma Contains_append (s u : string) (sep : ascii) :
  strings.Contains (String.append s u) sep
  = strings.Contains s sep || strings.Contains u sep.
Proof.
  induction s as [|c s IH]; [reflexivity|].
  change (Ascii.eqb c sep || strings.Contains (String.append s u) sep
          = Ascii.eqb c sep || strings.Contains s sep || strings.Contains u sep).
  rewrite IH. now rewrite orb_assoc.
Qed.

Lemma Contains_rev_append (s : string) (sep : ascii) :
  forall acc : string,
  strings.Contains (strings.rev_append s acc) sep
  = strings.Contains s sep || strings.Contains acc sep.
Proof.
  induction s as [|c s IH]; intros acc; cbn [strings.rev_append].
  - reflexivity.
  - rewrite IH, !Contains_cons.
    now destruct (Ascii.eqb c sep), (strings.Contains s sep), (strings.Contains acc sep).
Qed.

Lemma Contains_reverse (s : string) (sep : ascii) :
  strings.Contains (strings.reverse s) sep = strings.Contains s sep.
Proof.
  unfold strings.reverse. rewrite Contains_rev_append.
  change (strings.Contains "" sep) with false. now rewrite orb_false_r.
Qed.

(** Splitting distributes over a separator. *)
Lemma splitFrom_separator (sep : ascii) (a b : string) :
  forall cur : string,
  strings.splitFrom cur (String.append a (String sep b)) sep
  = strings.splitFrom cur a sep ++ strings.splitFrom EmptyString b sep.
Proof.
  induction a as [|c a IH]; intros cur.
  - change (strings.splitFrom cur (String sep b) sep
            = [strings.reverse cur] ++ strings.splitFrom "" b sep).
    cbn [strings.splitFrom]. now rewrite Ascii.eqb_refl.
  - change (strings.splitFrom cur (String c (String.append a (String sep b))) sep
            = strings.splitFrom cur (String c a) sep ++ strings.splitFrom "" b sep).
    cbn [strings.splitFrom]. destruct (Ascii.eqb c sep); rewrite IH; reflexivity.
Qed.

Lemma splitFrom_plain (sep : ascii) (s : string) :
  strings.Contains s sep = false ->
  forall cur : string,
  strings.splitFrom cur s sep = [String.append (strings.reverse cur) s].
Proof.
  intros Hplain cur.
  pose proof (splitFrom_without_separator sep s Hplain cur) as Hone.
  destruct (strings.splitFrom cur s sep) as [|field [|? ?]] eqn:Hsplit; try discriminate.
  now rewrite (splitFrom_one _ _ _ _ Hsplit).
Qed.

Lemma Split_plain (sep : ascii) (s : string) :
  strings.Contains s sep = false -> strings.Split s sep = [s].
Proof. intros Hplain. exact (splitFrom_plain sep s Hplain EmptyString). Qed.

Lemma Split_separator (sep : ascii) (a b : string) :
  strings.Split (String.append a (String sep b)) sep
  = strings.Split a sep ++ strings.Split b sep.
Proof. apply splitFrom_separator. Qed.

Lemma cleanElems_last (rooted : bool) (name : string) (elems : list string) :
  plainName name = true ->
  forall stack : list string,
  exists stack' : list string,
    filepath.cleanElems rooted (elems ++ [name]) stack = name :: stack'.
Proof.
  unfold plainName. rewrite !andb_true_iff, !negb_true_iff.
  intros [[[Hslash Hempty] Hdot] Hdots].
  induction elems as [|e elems IH]; intros stack.
  - exists stack. cbn [app filepath.cleanElems]. now rewrite Hempty, Hdot, Hdots.
  - cbn [app filepath.cleanElems].
    destruct (String.eqb e "" || String.eqb e "."); [apply IH|].
    destruct (String.eqb e ".."); [|apply IH].
    destruct stack as [|top stack]; [destruct rooted; apply IH|].
    destruct (String.eqb top ".."); apply IH.
Qed.

Lemma joinWith_last (elems : list string) (name : string) :
  exists prefix : string,
    filepath.joinWith "/" (elems ++ [name]) = String.append prefix name
    /\ Directory prefix.
Proof.
  induction elems as [|e elems IH].
  - exists EmptyString. split; [reflexivity|now left].
  - destruct IH as (prefix & Hjoin & Hdir).
    exists (String.append e (String.append "/" prefix)). split.
    + change (filepath.joinWith "/" ((e :: elems) ++ [name]))
        with (filepath.joinWith "/" (e :: (elems ++ [name]))).
      cbn [filepath.joinWith].
      destruct (elems ++ [name]) as [|x l] eqn:Hl; [now destruct elems|].
      rewrite Hjoin. now rewrite !append_assoc.
    + right. destruct Hdir as [->|[dir ->]].
      * exists e. reflexivity.
      * exists (String.append e (String.append "/" dir)). now rewrite !append_assoc.
Qed.

Lemma Directory_rooted (prefix : string) :
  Directory prefix -> Directory (String "/" prefix).
Proof.
  intros [->|[dir ->]]; right; [now exists EmptyString|now exists (String "/" dir)].
Qed.

Lemma plainName_nonempty (name : string) :
  plainName name = true ->
  exists (c : ascii) (rest : string), name = String c rest /\ Ascii.eqb c "/" = false.
Proof.
  unfold plainName. rewrite !andb_true_iff, !negb_true_iff.
  intros [[[Hslash Hempty] _] _].
  destruct name as [|c rest]; [discriminate|]. exists c, rest. split; [reflexivity|].
  rewrite Contains_cons in Hslash. now apply orb_false_iff in Hslash.
Qed.

Lemma Split_last (prefix name : string) :
  Directory prefix -> strings.Contains name "/" = false ->
  List.last (strings.Split (String.append prefix name) "/") EmptyString = name.
Proof.
  intros [->|[dir ->]] Hplain.
  - change (String.append "" name) with name. now rewrite Split_plain.
  - rewrite append_assoc. change (String.append "/" name) with (String "/" name).
    rewrite Split_separator, (Split_plain _ _ Hplain). apply last_last.
Qed.

Lemma Base_last (prefix name : string) :
  Directory prefix -> plainName name = true ->
  filepath.Base (String.append prefix name) = name.
Proof.
  intros Hdir Hname.
  destruct (plainName_nonempty _ Hname) as (c & rest & Hcons & Hc).
  assert (Hslash : strings.Contains name "/" = false).
  { unfold plainName in Hname. rewrite !andb_true_iff, negb_true_iff in Hname. tauto. }
  unfold filepath.Base.
  assert (Hnonempty : String.eqb (String.append prefix name) "" = false).
  { rewrite Hcons. now destruct prefix. }
  rewrite Hnonempty.
  assert (Hrev : exists (d : ascii) (r : string),
             strings.reverse (String.append prefix name) = String d r
             /\ Ascii.eqb d "/" = false).
  { rewrite reverse_append.
    pose proof (Contains_reverse name "/") as Hr. rewrite Hslash in Hr.
    destruct (strings.reverse name) as [|d r] eqn:Hrn.
    - apply (f_equal strings.reverse) in Hrn. rewrite reverse_involutive in Hrn.
      now rewrite Hcons in Hrn.
    - exists d, (String.append r (strings.reverse prefix)). split; [reflexivity|].
      rewrite Contains_cons in Hr. now apply orb_false_iff in Hr. }
  destruct Hrev as (d & r & Hrev & Hd). rewrite Hrev.
  assert (Hdrop : filepath.dropSlashes (String d r) = String d r).
  { cbn [filepath.dropSlashes].
    destruct d as [[] [] [] [] [] [] [] []]; try reflexivity; discriminate Hd. }
  rewrite Hdrop, <- Hrev, reverse_involutive, (Split_last _ _ Hdir Hslash).
  replace (String.eqb name "") with false; [reflexivity|].
  rewrite Hcons. reflexivity.
Qed.

Lemma Clean_last (prefix name : string) :
  Directory prefix -> plainName name = true ->
  exists cleaned : string,
    filepath.Clean (String.append prefix name) = String.append cleaned name
    /\ Directory cleaned.
Proof.
  intros Hdir Hname.
  assert (Hslash : strings.Contains name "/" = false).
  { unfold plainName in Hname. rewrite !andb_true_iff, negb_true_iff in Hname. tauto. }
  destruct (plainName_nonempty _ Hname) as (c & rest & Hcons & Hc).
  assert (Hsplit : exists elems : list string,
             strings.Split (String.append prefix name) "/" = elems ++ [name]).
  { destruct Hdir as [->|[dir ->]].
    - exists []. exact (Split_plain _ _ Hslash).
    - exists (strings.Split dir "/").
      rewrite append_assoc. change (String.append "/" name) with (String "/" name).
      now rewrite Split_separator, (Split_plain _ _ Hslash). }
  destruct Hsplit as (elems & Hsplit).
  unfold filepath.Clean. rewrite Hsplit.
  destruct (cleanElems_last (strings.HasPrefix (String.append prefix name) "/")
              name elems Hname []) as (stack & ->).
  cbn [rev].
  destruct (joinWith_last (rev stack) name) as (joined & -> & Hjoined).
  destruct (strings.HasPrefix (String.append prefix name) "/").
  - exists (String "/" joined). split; [|now apply Directory_rooted].
    reflexivity.
  - exists joined. split; [|assumption].
    replace (String.eqb (String.append joined name) "") with false; [reflexivity|].
    rewrite Hcons. now destruct joined.
Qed.

(** The base name of [Join(dir, name)] is [name]. *)
Lemma Base_Join (dir name : string) :
  plainName name = true -> filepath.Base (filepath.Join dir name) = name.
Proof.
  intros Hname.
  destruct (plainName_nonempty _ Hname) as (c & rest & Hcons & Hc).
  assert (Hjoin : exists prefix : string,
             filepath.Join dir name = filepath.Clean (String.append prefix name)
             /\ Directory prefix).
  { unfold filepath.Join. cbn [List.filter].
    replace (String.eqb name "") with false by (now rewrite Hcons).
    destruct dir as [|d dir]; cbn [String.eqb negb].
    - exists EmptyString. split; [reflexivity|now left].
    - exists (String.append (String d dir) "/"). split; [|right; now eexists].
      cbn [filepath.joinWith]. now rewrite append_assoc. }
  destruct Hjoin as (prefix & -> & Hdir).
  destruct (Clean_last _ _ Hdir Hname) as (cleaned & -> & Hcleaned).
  now apply Base_last.
Qed.

(** ** The records and the errors of the parser, the contents of the catalog *)

Lemma scanStats_app (w : World) (filePath : string) (good rest : list string) :
  forallb (decodes w) good = true ->
  forall (lineNum : nat) (dockerStats : list DockerStat.t),
  scanStats w filePath (good ++ rest) lineNum dockerStats
  = scanStats w filePath rest (lineNum + length good) (dockerStats ++ recordsOfLines w good).
Proof.
  induction good as [|text good IH]; intros Hgood lineNum dockerStats.
  - cbn [app length recordsOfLines omap list_omap]. now rewrite Nat.add_0_r, app_nil_r.
  - cbn [forallb] in Hgood. apply andb_true_iff in Hgood. destruct Hgood as [Htext Hgood].
    cbn [app scanStats length]. unfold recordsOfLines. cbn [omap list_omap].
    unfold decodes in Htext. unfold recordOfLine at 1.
    destruct (String.eqb (TrimSpace w text) "") eqn:Hblank.
    + rewrite (IH Hgood). f_equal. lia.
    + cbn [orb] in Htext.
      destruct (Unmarshal w (TrimSpace w text)) as [stat|]; [|discriminate].
      rewrite (IH Hgood). rewrite <- app_assoc. f_equal. lia.
Qed.

Lemma scanStats_good (w : World) (filePath : string) (lines : list string) :
  forallb (decodes w) lines = true ->
  scanStats w filePath lines 0 [] = Ok (recordsOfLines w lines).
Proof.
  intros Hgood. pose proof (scanStats_app w filePath lines [] Hgood 0%nat []) as H.
  rewrite app_nil_r in H. exact H.
Qed.

Lemma recordsOfLines_length (w : World) (lines : list string) :
  forallb (decodes w) lines = true ->
  length (recordsOfLines w lines)
  = length (List.filter (fun text => negb (blank w text)) lines).
Proof.
  induction lines as [|text lines IH]; [reflexivity|].
  cbn [forallb]. rewrite andb_true_iff. intros [Htext Hgood].
  unfold recordsOfLines. cbn [omap list_omap List.filter].
  unfold recordOfLine at 1. unfold blank at 1. unfold decodes in Htext.
  destruct (String.eqb (TrimSpace w text) ""); cbn [negb]; [exact (IH Hgood)|].
  cbn [orb] in Htext. destruct (Unmarshal w (TrimSpace w text)); [|discriminate].
  cbn [length]. f_equal. exact (IH Hgood).
Qed.

Lemma parseStatsFile_contents (w : World) (now : time.Time) (filePath : string)
    (statsFile : StatsFile.t) :
  parseStatsFile w now filePath = Ok statsFile ->
  forallb (decodes w) (linesOf w filePath) = true
  /\ StatsFile.Stats statsFile = recordsOfLines w (linesOf w filePath)
  /\ StatsFile.Name statsFile = filepath.Base filePath.
Proof.
  intros Hparse.
  pose proof (parseStatsFile_wellFormed w now filePath) as Hwell.
  rewrite Hparse in Hwell. destruct Hwell as [Hwell Hname].
  unfold wellFormed in Hwell. unfold linesOf.
  revert Hparse. unfold parseStatsFile.
  destruct (Open w filePath) as [file|]; [|discriminate].
  apply andb_true_iff in Hwell. destruct Hwell as [Hlines Herr].
  rewrite (scanStats_good _ _ _ Hlines).
  destruct (scanErr file); [discriminate|].
  intros [= <-]. cbn [StatsFile.Stats StatsFile.Name]. auto.
Qed.

(** X1. The records of a parsed snapshot are the records its lines decode
    to, in the order of the lines, blank lines left out: one record for each
    line that is not blank. *)
Theorem parseStatsFile_records (w : World) (now : time.Time) (filePath : string)
    (statsFile : StatsFile.t) :
  parseStatsFile w now filePath = Ok statsFile ->
  StatsFile.Stats statsFile = recordsOfLines w (linesOf w filePath)
  /\ length (StatsFile.Stats statsFile)
     = length (List.filter (fun text => negb (blank w text)) (linesOf w filePath)).
Proof.
  intros Hparse. destruct (parseStatsFile_contents _ _ _ _ Hparse) as (Hlines & Hstats & _).
  split; [exact Hstats|]. rewrite Hstats. now apply recordsOfLines_length.
Qed.

(** X2. When a line of the file does not decode, the parser returns the
    error that names the first such line by its number, counted from 1 with
    the blank lines, whatever follows the line and however the scanner
    ends. *)
Theorem parseStatsFile_first_bad_line (w : World) (now : time.Time) (filePath : string)
    (file : Scan) (good : list string) (bad : string) (rest : list string) :
  Open w filePath = Some file ->
  scanLines file = good ++ bad :: rest ->
  forallb (decodes w) good = true -> decodes w bad = false ->
  parseStatsFile w now filePath = Err (errParsingLine (S (length good)) filePath).
Proof.
  intros Hopen Hlines Hgood Hbad. unfold parseStatsFile. rewrite Hopen, Hlines.
  rewrite (scanStats_app _ _ _ _ Hgood). cbn [scanStats].
  unfold decodes in Hbad. apply orb_false_iff in Hbad. destruct Hbad as [-> Hbad].
  destruct (Unmarshal w (TrimSpace w bad)); [discriminate|]. reflexivity.
Qed.

(** X3. When every line the scanner delivered decodes and the scanner ended
    with an error, the parser returns the error of reading the file: no
    snapshot is made of the lines read so far. *)
Theorem parseStatsFile_scanner_error (w : World) (now : time.Time) (filePath : string)
    (file : Scan) :
  Open w filePath = Some file ->
  forallb (decodes w) (scanLines file) = true ->
  scanErr file = true ->
  parseStatsFile w now filePath = Err (errReadingFile filePath).
Proof.
  intros Hopen Hgood Herr. unfold parseStatsFile.
  now rewrite Hopen, (scanStats_good _ _ _ Hgood), Herr.
Qed.

Lemma loadLoop_contents (w : World) (dir : string) (files : list DirEntry) :
  forall st : Loading,
  map nameAndStats (statsFiles (loadLoop w dir files st))
  = map nameAndStats (statsFiles st)
    ++ map (fileContents w) (List.filter (wellFormed w) (candidates dir files)).
Proof.
  unfold loadLoop, candidates.
  induction files as [|file files IH]; intros st; simpl.
  - now rewrite app_nil_r.
  - rewrite IH. clear IH. unfold loadFile, candidate.
    destruct (IsDir file); simpl; [reflexivity|].
    destruct (strings.HasSuffix (entryName file) ".json"); simpl; [|reflexivity].
    pose proof (parseStatsFile_wellFormed w (Now w (clockReads st))
                  (filepath.Join dir (entryName file))) as Hwell.
    pose proof (parseStatsFile_contents w (Now w (clockReads st))
                  (filepath.Join dir (entryName file))) as Hrecords.
    destruct (parseStatsFile w (Now w (clockReads st)) (filepath.Join dir (entryName file)))
      as [statsFile|e]; simpl.
    + destruct Hwell as [-> _]. destruct (Hrecords _ eq_refl) as (_ & Hstats & Hname).
      simpl. rewrite map_app, <- app_assoc. simpl.
      unfold fileContents at 2. rewrite <- Hstats, <- Hname. reflexivity.
    + rewrite Hwell. reflexivity.
Qed.

(** X6. The catalog holds, up to its order, one snapshot for each
    well-formed snapshot file of the directory, under the base name of the
    file and with the records of the lines of the file. *)
Theorem loadAllStatsFiles_contents {sorter : sort.Sorter}
    (w : World) (reads : nat) (dir : string) (files : list DirEntry)
    (catalog : list StatsFile.t) (warned : list string) :
  ReadDir w dir = Some files ->
  loadAllStatsFiles w reads dir = (Ok catalog, warned) ->
  Permutation (map nameAndStats catalog)
    (map (fileContents w) (List.filter (wellFormed w) (candidates dir files))).
Proof.
  intros Hdir. unfold loadAllStatsFiles. rewrite Hdir. intros [= <- _].
  pose proof (loadLoop_contents w dir files (mkLoading [] [] reads)) as Hcontents.
  cbn [statsFiles map app] in Hcontents. rewrite <- Hcontents.
  apply Permutation_map, Permutation_sym, sort.Slice_Permutation.
Qed.

Lemma json_name_plain (name : string) :
  strings.Contains name "/" = false -> strings.HasSuffix name ".json" = true ->
  plainName name = true.
Proof.
  intros Hslash Hjson. unfold plainName. rewrite Hslash. cbn [negb andb].
  destruct (String.eqb_spec name ""); [subst; discriminate Hjson|].
  destruct (String.eqb_spec name "."); [subst; discriminate Hjson|].
  destruct (String.eqb_spec name ".."); [subst; discriminate Hjson|].
  reflexivity.
Qed.

Lemma kept_names (w : World) (dir : string) (files : list DirEntry) :
  (forall file, In file files -> strings.Contains (entryName file) "/" = false) ->
  map filepath.Base (List.filter (wellFormed w) (candidates dir files))
  = map entryName (List.filter (kept w dir) files).
Proof.
  unfold candidates, kept. induction files as [|file files IH]; intros Hplain; [reflexivity|].
  cbn [List.filter].
  assert (IH' := IH (fun f Hf => Hplain f (or_intror Hf))).
  destruct (candidate file) eqn:Hcandidate; cbn [andb map List.filter]; [|exact IH'].
  destruct (wellFormed w (filepath.Join dir (entryName file))); cbn [map]; [|exact IH'].
  rewrite IH'. f_equal. apply Base_Join, json_name_plain.
  - apply Hplain. now left.
  - unfold candidate in Hcandidate. now apply andb_true_iff in Hcandidate.
Qed.

(** X7. When no name of the listing holds a slash, as is the case of the
    names [os.ReadDir] returns, the names of the snapshots of the catalog are
    the names of the directory entries kept: those of the files that end in
    .json and are well-formed. *)
Theorem loadAllStatsFiles_names {sorter : sort.Sorter}
    (w : World) (reads : nat) (dir : string) (files : list DirEntry)
    (catalog : list StatsFile.t) (warned : list string) :
  ReadDir w dir = Some files ->
  (forall file, In file files -> strings.Contains (entryName file) "/" = false) ->
  loadAllStatsFiles w reads dir = (Ok catalog, warned) ->
  Permutation (map StatsFile.Name catalog) (map entryName (List.filter (kept w dir) files)).
Proof.
  intros Hdir Hplain. unfold loadAllStatsFiles. rewrite Hdir. intros [= <- _].
  destruct (loadLoop_candidates w dir files (mkLoading [] [] reads)) as [Hnames _].
  cbn [statsFiles map app] in Hnames.
  rewrite <- (kept_names w dir files Hplain), <- Hnames.
  apply Permutation_map, Permutation_sym, sort.Slice_Permutation.
Qed.

(** ** The names the collector script writes *)

Lemma Format_fileLayout (t : time.Time) :
  time.Format t time.fileLayout
  = String.append (time.appendInt (time.Year t) 4) (String "-"
      (String.append (time.appendInt (time.Month t) 2) (String "-"
        (String.append (time.appendInt (time.Day t) 2) (String "_"
          (String.append (time.appendInt (time.Hour t) 2) (String "-"
            (String.append (time.appendInt (time.Minute t) 2) (String "-"
              (String.append (time.appendInt (time.Second t) 2) EmptyString)))))))))).
Proof. reflexivity. Qed.

Lemma Format_Parse_fileLayout (t : time.Time) :
  validStamp t ->
  time.Parse time.fileLayout (time.Format t time.fileLayout) = Some (wallClock t).
Proof.
  intros (Hy & Hm & Hd & Hh & Hmi & Hs).
  pose proof (daysIn_upper (time.Month t) (time.Year t)) as Hd31.
  unfold time.Parse. rewrite Format_fileLayout. unfold time.fileLayout.
  cbn [time.parseChunks].
  rewrite getyear_appendInt by lia.
  cbn [time.skip Ascii.eqb Bool.eqb andb].
  rewrite getnum_appendInt by lia.
  replace ((time.Month t <=? 0) || (12 <? time.Month t)) with false
    by (symmetry; apply orb_false_iff; split; [apply Z.leb_gt|apply Z.ltb_ge]; lia).
  cbn [time.skip Ascii.eqb Bool.eqb andb].
  rewrite getnum_appendInt by lia.
  cbn [time.skip Ascii.eqb Bool.eqb andb].
  rewrite getnum_appendInt by lia.
  replace ((time.Hour t <? 0) || (24 <=? time.Hour t)) with false
    by (symmetry; apply orb_false_iff; split; [apply Z.ltb_ge|apply Z.leb_gt]; lia).
  cbn [time.skip Ascii.eqb Bool.eqb andb].
  rewrite getnum_appendInt by lia.
  replace ((time.Minute t <? 0) || (60 <=? time.Minute t)) with false
    by (symmetry; apply orb_false_iff; split; [apply Z.ltb_ge|apply Z.leb_gt]; lia).
  cbn [time.skip Ascii.eqb Bool.eqb andb].
  rewrite getnum_appendInt by lia.
  replace ((time.Second t <? 0) || (60 <=? time.Second t)) with false
    by (symmetry; apply orb_false_iff; split; [apply Z.ltb_ge|apply Z.leb_gt]; lia).
  cbn [time.fractionalSecond time.Year time.Month time.Day time.Hour time.Minute
       time.Second time.Nanosecond].
  replace (time.Month t <? 0) with false by (symmetry; apply Z.ltb_ge; lia).
  replace (time.Day t <? 0) with false by (symmetry; apply Z.ltb_ge; lia).
  replace ((time.Day t <? 1) || (time.daysIn (time.Month t) (time.Year t) <? time.Day t))
    with false
    by (symmetry; apply orb_false_iff; split; apply Z.ltb_ge; lia).
  reflexivity.
Qed.

(** No digit is a separator. *)
Lemma digit_differs (c sep : ascii) :
  time.isDigit c = true -> time.isDigit sep = false -> Ascii.eqb c sep = false.
Proof.
  intros Hc Hsep. destruct (Ascii.eqb_spec c sep) as [->|]; [congruence|reflexivity].
Qed.

Lemma appendInt2_plain (n : Z) (sep : ascii) :
  0 <= n < 100 -> time.isDigit sep = false ->
  strings.Contains (time.appendInt n 2) sep = false.
Proof.
  intros Hn Hsep. pose proof (twoDigits_below_100 n Hn) as H. unfold twoDigits in H.
  destruct (time.appendInt n 2) as [|a [|b [|c s]]]; try discriminate.
  apply andb_true_iff in H. destruct H as [H _].
  apply andb_true_iff in H. destruct H as [Ha Hb].
  rewrite !Contains_cons, (digit_differs _ _ Ha Hsep), (digit_differs _ _ Hb Hsep).
  reflexivity.
Qed.

Lemma appendInt4_plain (n : Z) (sep : ascii) :
  0 <= n < 10000 -> time.isDigit sep = false ->
  strings.Contains (time.appendInt n 4) sep = false.
Proof.
  intros Hn Hsep. pose proof (fourDigits_below_10000 n Hn) as H. unfold fourDigits in H.
  destruct (time.appendInt n 4) as [|a [|b [|c [|d [|e s]]]]]; try discriminate.
  apply andb_true_iff in H. destruct H as [H _].
  apply andb_true_iff in H. destruct H as [H Hd].
  apply andb_true_iff in H. destruct H as [H Hc].
  apply andb_true_iff in H. destruct H as [Ha Hb].
  rewrite !Contains_cons, (digit_differs _ _ Ha Hsep), (digit_differs _ _ Hb Hsep),
    (digit_differs _ _ Hc Hsep), (digit_differs _ _ Hd Hsep).
  reflexivity.
Qed.

Lemma append_cons (c : ascii) (s u : string) :
  String.append (String c s) u = String c (String.append s u).
Proof. reflexivity. Qed.

Lemma DATE_parts (t : time.Time) :
  run_sh.DATE t = String.append (datePart t) (String "_" (clockPart t)).
Proof.
  unfold run_sh.DATE, datePart, clockPart. rewrite Format_fileLayout.
  rewrite !append_nil_r. repeat rewrite ?append_assoc, ?append_cons. reflexivity.
Qed.

Lemma datePart_plain (t : time.Time) (sep : ascii) :
  validStamp t -> time.isDigit sep = false -> Ascii.eqb "-" sep = false ->
  strings.Contains (datePart t) sep = false.
Proof.
  intros (Hy & Hm & Hd & _) Hsep Hdash.
  pose proof (daysIn_upper (time.Month t) (time.Year t)) as Hd31.
  unfold datePart.
  rewrite !Contains_append, !Contains_cons, !Contains_append, !Contains_cons, Hdash.
  rewrite appendInt4_plain, !appendInt2_plain by (assumption || lia). reflexivity.
Qed.

Lemma clockPart_plain (t : time.Time) (sep : ascii) :
  validStamp t -> time.isDigit sep = false -> Ascii.eqb "-" sep = false ->
  strings.Contains (clockPart t) sep = false.
Proof.
  intros (_ & _ & _ & Hh & Hmi & Hs) Hsep Hdash.
  unfold clockPart.
  rewrite !Contains_append, !Contains_cons, !Contains_append, !Contains_cons, Hdash.
  rewrite !appendInt2_plain by (assumption || lia). reflexivity.
Qed.

Lemma OUTPUT_FILE_parts (t : time.Time) :
  run_sh.OUTPUT_FILE t
  = String.append (datePart t) (String "_"
      (String.append (clockPart t) (String "_"
        (String.append "docker" (String "_" "stats.json"))))).
Proof.
  unfold run_sh.OUTPUT_FILE. rewrite DATE_parts.
  repeat rewrite ?append_assoc, ?append_cons. reflexivity.
Qed.

Lemma OUTPUT_FILE_Split (t : time.Time) :
  validStamp t ->
  strings.Split (run_sh.OUTPUT_FILE t) "_"
  = [datePart t; clockPart t; "docker"; "stats.json"].
Proof.
  intros Hvalid. rewrite OUTPUT_FILE_parts, !Split_separator.
  rewrite (Split_plain _ _ (datePart_plain t "_" Hvalid eq_refl eq_refl)).
  rewrite (Split_plain _ _ (clockPart_plain t "_" Hvalid eq_refl eq_refl)).
  reflexivity.
Qed.

Lemma OUTPUT_FILE_plain (t : time.Time) :
  validStamp t -> plainName (run_sh.OUTPUT_FILE t) = true.
Proof.
  intros Hvalid. apply json_name_plain.
  - rewrite OUTPUT_FILE_parts.
    rewrite !Contains_append, !Contains_cons, !Contains_append, !Contains_cons.
    rewrite (datePart_plain t "/" Hvalid eq_refl eq_refl).
    rewrite (clockPart_plain t "/" Hvalid eq_refl eq_refl). reflexivity.
  - unfold run_sh.OUTPUT_FILE, strings.HasSuffix. rewrite reverse_append.
    reflexivity.
Qed.

(** X5. A well-formed file that the collector script wrote at the local
    time [date], a valid date of a year of four digits, parses to a snapshot
    under the name the script gave it, stamped with the clock reading of
    [date] taken as UTC and without its fraction of a second. *)
Theorem collected_file_timestamp (w : World) (now date : time.Time) :
  validStamp date -> 1000 <= time.Year date ->
  let filePath := filepath.Join "stats/" (run_sh.OUTPUT_FILE date) in
  wellFormed w filePath = true ->
  parseStatsFile w now filePath
  = Ok (StatsFile.mk (run_sh.OUTPUT_FILE date) (wallClock date)
          (recordsOfLines w (linesOf w filePath))).
Proof.
  intros Hvalid _ filePath Hwell.
  assert (Hbase : filepath.Base filePath = run_sh.OUTPUT_FILE date)
    by (apply Base_Join, OUTPUT_FILE_plain, Hvalid).
  unfold wellFormed in Hwell. unfold parseStatsFile, linesOf.
  destruct (Open w filePath) as [file|]; [|discriminate].
  apply andb_true_iff in Hwell. destruct Hwell as [Hlines Herr].
  rewrite (scanStats_good _ _ _ Hlines).
  destruct (scanErr file); [discriminate|].
  cbv zeta. rewrite Hbase, (OUTPUT_FILE_Split _ Hvalid).
  replace (strings.Contains (run_sh.OUTPUT_FILE date) "_") with true.
  - cbn [length Nat.leb nth].
    rewrite <- DATE_parts. unfold run_sh.DATE.
    now rewrite (Format_Parse_fileLayout _ Hvalid).
  - symmetry. rewrite OUTPUT_FILE_parts, Contains_append, !Contains_cons.
    cbn [Ascii.eqb Bool.eqb andb orb]. now rewrite orb_true_r.
Qed.

(** ** The series of a container *)

Section Series.
Context {sorter : sort.Sorter}.

Lemma recordsOfContainer_nil (statsFiles : list StatsFile.t) (containerID : string) :
  recordsOfContainer statsFiles containerID = [] <->
  forall (statsFile : StatsFile.t) (stat : DockerStat.t),
    In statsFile statsFiles -> In stat (StatsFile.Stats statsFile) ->
    DockerStat.ID stat <> containerID.
Proof.
  split.
  - intros Hnil statsFile stat Hfile Hstat Hid.
    assert (Hin : In (statsFile, stat) (recordsOfContainer statsFiles containerID))
      by (apply In_recordsOfContainer; auto).
    now rewrite Hnil in Hin.
  - intros Hnone. destruct (recordsOfContainer statsFiles containerID) as [|r l] eqn:Hr;
      [reflexivity|].
    assert (Hin : In r (recordsOfContainer statsFiles containerID))
      by (rewrite Hr; now left).
    apply In_recordsOfContainer in Hin. destruct Hin as (Hfile & Hstat & Hid).
    now destruct (Hnone _ _ Hfile Hstat).
Qed.

(** X8. The series of a container carries the ID asked for and holds one
    data point for each record of the container in the catalog: its points
    are the converted records, up to their order. It is the series without a
    name and without a point exactly when no record of the catalog has the
    ID. *)
Theorem getContainerComparison_complete
    (statsFiles : list StatsFile.t) (containerID : string) :
  let comparison := getContainerComparison statsFiles containerID in
  ContainerComparison.ContainerID comparison = containerID
  /\ Permutation (ContainerComparison.Data comparison) (pointsOf statsFiles containerID)
  /\ length (ContainerComparison.Data comparison)
     = length (recordsOfContainer statsFiles containerID)
  /\ ((forall (statsFile : StatsFile.t) (stat : DockerStat.t),
         In statsFile statsFiles -> In stat (StatsFile.Stats statsFile) ->
         DockerStat.ID stat <> containerID) <->
      comparison = ContainerComparison.mk containerID EmptyString []).
Proof.
  intros comparison. unfold comparison. rewrite getContainerComparison_spec.
  cbn [ContainerComparison.ContainerID ContainerComparison.Data].
  pose proof (sort.Slice_Permutation _ olderFirst (pointsOf statsFiles containerID)) as Hperm.
  split; [reflexivity|]. split; [now apply Permutation_sym|]. split.
  - rewrite <- (Permutation_length Hperm). unfold pointsOf. apply length_map.
  - rewrite <- recordsOfContainer_nil. split.
    + intros Hnil. unfold firstNonEmptyName, pointsOf in *. rewrite Hnil in *.
      cbn [map firstNonEmpty] in *.
      now rewrite (Permutation_nil Hperm).
    + intros [= _ Hdata]. rewrite Hdata in Hperm.
      apply Permutation_sym, Permutation_nil in Hperm. unfold pointsOf in Hperm.
      now apply map_eq_nil in Hperm.
Qed.

(** X10. The timestamp of a data point made of a snapshot with a valid date
    parses back to the clock reading of the snapshot taken as UTC, without
    its fraction of a second; so the comparison that sorts the points
    compares the clock readings of their snapshots, whatever their zones. *)
Theorem data_points_ordered_by_wall_clock
    (file1 file2 : StatsFile.t) (stat1 stat2 : DockerStat.t) :
  validStamp (StatsFile.Timestamp file1) -> validStamp (StatsFile.Timestamp file2) ->
  time.Parse time.pointLayout (ContainerDataPoint.Timestamp (dataPointOf file1 stat1))
  = Some (wallClock (StatsFile.Timestamp file1))
  /\ olderFirst (dataPointOf file1 stat1) (dataPointOf file2 stat2)
     = time.Before (wallClock (StatsFile.Timestamp file1))
                   (wallClock (StatsFile.Timestamp file2)).
Proof.
  intros Hvalid1 Hvalid2.
  assert (Hparse : forall (file : StatsFile.t) (stat : DockerStat.t),
             validStamp (StatsFile.Timestamp file) ->
             time.Parse time.pointLayout (ContainerDataPoint.Timestamp (dataPointOf file stat))
             = Some (wallClock (StatsFile.Timestamp file))).
  { intros file stat Hvalid. unfold dataPointOf. cbn [ContainerDataPoint.Timestamp].
    now apply Format_Parse. }
  split; [now apply Hparse|].
  rewrite olderFirst_unfold.
  now rewrite (parseOrZero_Some _ _ _ (Hparse file1 stat1 Hvalid1)),
    (parseOrZero_Some _ _ _ (Hparse file2 stat2 Hvalid2)).
Qed.

Lemma Permutation_List_filter {A : Type} (f : A -> bool) (l1 l2 : list A) :
  Permutation l1 l2 -> Permutation (List.filter f l1) (List.filter f l2).
Proof.
  induction 1 as [|x l1 l2 _ IH|x y l|l1 l2 l3 _ IH1 _ IH2]; cbn [List.filter].
  - constructor.
  - destruct (f x); [now constructor|assumption].
  - destruct (f x), (f y); try reflexivity. constructor.
  - now transitivity (List.filter f l2).
Qed.

Lemma pointsOf_Permutation (statsFiles1 statsFiles2 : list StatsFile.t)
    (containerID : string) :
  Permutation statsFiles1 statsFiles2 ->
  Permutation (pointsOf statsFiles1 containerID) (pointsOf statsFiles2 containerID).
Proof.
  intros Hperm. unfold pointsOf, recordsOfContainer, recordsOf.
  apply Permutation_map, Permutation_List_filter, Permutation_flat_map, Hperm.
Qed.

(** X12. The points of the series of a container do not depend on the order
    of the snapshots in the catalog, provided that of any two different
    points of the container one has the older timestamp. *)
Theorem getContainerComparison_any_order
    (statsFiles1 statsFiles2 : list StatsFile.t) (containerID : string) :
  Permutation statsFiles1 statsFiles2 ->
  DistinctTimes (pointsOf statsFiles1 containerID) ->
  ContainerComparison.Data (getContainerComparison statsFiles1 containerID)
  = ContainerComparison.Data (getContainerComparison statsFiles2 containerID).
Proof.
  intros Hperm Hdistinct. rewrite !getContainerComparison_Data.
  pose proof (sort.Slice_Permutation _ olderFirst (pointsOf statsFiles1 containerID)) as H1.
  pose proof (sort.Slice_Permutation _ olderFirst (pointsOf statsFiles2 containerID)) as H2.
  apply (Ascending_unique olderFirst).
  - intros a b Ha Hb. apply Hdistinct; eapply Permutation_in;
      try (apply Permutation_sym; exact H1); assumption.
  - apply sort.Slice_Ascending, olderFirst_ordering.
  - apply sort.Slice_Ascending, olderFirst_ordering.
  - rewrite <- H1, <- H2. now apply pointsOf_Permutation.
Qed.

(** X13. In the statistics of a series whose CPU readings hold no NaN, every
    CPU reading of the series lies between the minimum and the maximum; and
    the same holds of the memory readings. *)
Theorem getContainerComparisonWithStats_bounds
    (statsFiles : list StatsFile.t) (containerID : string) (point : ContainerDataPoint.t) :
  let r := getContainerComparisonWithStats statsFiles containerID in
  let data := ContainerComparison.Data (ContainerComparisonWithStats.Comparison r) in
  In point data ->
  (NoNaN (map ContainerDataPoint.CPUPerc data) ->
   (ContainerComparisonWithStats.MinCPU r <=? ContainerDataPoint.CPUPerc point)%float = true
   /\ (ContainerDataPoint.CPUPerc point <=? ContainerComparisonWithStats.MaxCPU r)%float
      = true)
  /\ (NoNaN (map ContainerDataPoint.MemPerc data) ->
      (ContainerComparisonWithStats.MinMem r <=? ContainerDataPoint.MemPerc point)%float
      = true
      /\ (ContainerDataPoint.MemPerc point <=? ContainerComparisonWithStats.MaxMem r)%float
         = true).
Proof.
  intros r data. subst data r. unfold getContainerComparisonWithStats.
  destruct (ContainerComparison.Data (getContainerComparison statsFiles containerID))
    as [|point0 points] eqn:Hdata.
  - cbn [ContainerComparisonWithStats.Comparison]. rewrite Hdata. intros [].
  - destruct (statsLoop_spec (ContainerDataPoint.CPUPerc point0)
                (map ContainerDataPoint.CPUPerc (point0 :: points)))
      as (maxCPU & minCPU & Hcpu & HmaxCPU & HminCPU); [now left|].
    destruct (statsLoop_spec (ContainerDataPoint.MemPerc point0)
                (map ContainerDataPoint.MemPerc (point0 :: points)))
      as (maxMem & minMem & Hmem & HmaxMem & HminMem); [now left|].
    rewrite Hcpu, Hmem.
    cbn [ContainerComparisonWithStats.Comparison ContainerComparisonWithStats.MaxCPU
         ContainerComparisonWithStats.MinCPU ContainerComparisonWithStats.MaxMem
         ContainerComparisonWithStats.MinMem].
    rewrite Hdata. intros Hin.
    split; intros Hnan; split.
    + exact (Minimum_lower_bound _ _ HminCPU Hnan _ (in_map _ _ _ Hin)).
    + exact (Maximum_upper_bound _ _ HmaxCPU Hnan _ (in_map _ _ _ Hin)).
    + exact (Minimum_lower_bound _ _ HminMem Hnan _ (in_map _ _ _ Hin)).
    + exact (Maximum_upper_bound _ _ HmaxMem Hnan _ (in_map _ _ _ Hin)).
Qed.

End Series.

(** ** The summaries of the containers *)

Section Summaries.
Context {sorter : sort.Sorter}.

Lemma summarize_is_Some (containerNames : gmap string string) (containerID : string)
    (dataPoints : list ContainerDataPoint.t) :
  dataPoints <> [] ->
  exists summary : ContainerSummary.t,
    summarize containerNames containerID dataPoints = Some summary.
Proof.
  intros Hnonempty. unfold summarize.
  destruct dataPoints as [|point dataPoints]; [congruence|].
  pose proof (sort.Slice_Permutation _ olderFirst (point :: dataPoints)) as Hperm.
  destruct (sort.Slice olderFirst (point :: dataPoints)) as [|point0 sorted].
  - now apply Permutation_sym, Permutation_nil in Hperm.
  - destruct (statsLoop _ _) as [[cpuSum maxCPU] minCPU].
    destruct (statsLoop _ _) as [[memSum maxMem] minMem]. eauto.
Qed.

Lemma summaryOf_key (statsFiles : list StatsFile.t) (containerID : string) :
  match summaryOf statsFiles containerID with
  | Some summary =>
      ContainerSummary.ContainerID summary = containerID
      /\ ContainerSummary.DataPoints summary = length (pointsOf statsFiles containerID)
      /\ is_Some (fst (collectAll statsFiles) !! containerID)
  | None => fst (collectAll statsFiles) !! containerID = None
  end.
Proof.
  unfold summaryOf.
  destruct (collectAll_lookup statsFiles containerID) as [Hdata _].
  destruct (pointsOf statsFiles containerID) as [|point points] eqn:Hpoints;
    rewrite Hdata; [reflexivity|].
  destruct (summarize_is_Some (snd (collectAll statsFiles)) containerID (point :: points))
    as (summary & Hsummary); [discriminate|].
  rewrite Hsummary. apply summarize_spec in Hsummary.
  destruct Hsummary as (sorted & Hperm & _ & Hid & _ & Hlen & _).
  split; [assumption|]. split; [|eauto].
  rewrite Hlen. exact (Permutation_length Hperm).
Qed.

Lemma summaries_of_keys (statsFiles : list StatsFile.t) (keys : list string) :
  (forall k, In k keys -> is_Some (fst (collectAll statsFiles) !! k)) ->
  map ContainerSummary.ContainerID (omap (summaryOf statsFiles) keys) = keys
  /\ map ContainerSummary.DataPoints (omap (summaryOf statsFiles) keys)
     = map (fun k => length (pointsOf statsFiles k)) keys.
Proof.
  induction keys as [|k keys IH]; intros Hkeys; [split; reflexivity|].
  cbn [omap list_omap].
  pose proof (summaryOf_key statsFiles k) as Hk.
  destruct (summaryOf statsFiles k) as [summary|].
  - destruct Hk as (Hid & Hlen & _).
    destruct IH as [IHid IHlen]; [intros k' Hk'; apply Hkeys; now right|].
    cbn [map]. fold (omap (summaryOf statsFiles) keys).
    rewrite Hid, Hlen, IHid, IHlen. split; reflexivity.
  - destruct (Hkeys k (or_introl eq_refl)) as [x Hx]. congruence.
Qed.

Lemma key_has_records (statsFiles : list StatsFile.t) (containerID : string) :
  is_Some (fst (collectAll statsFiles) !! containerID) <->
  exists (statsFile : StatsFile.t) (stat : DockerStat.t),
    In statsFile statsFiles /\ In stat (StatsFile.Stats statsFile)
    /\ DockerStat.ID stat = containerID.
Proof.
  destruct (collectAll_lookup statsFiles containerID) as [-> _].
  unfold pointsOf.
  destruct (recordsOfContainer statsFiles containerID) as [|r records] eqn:Hrecords.
  - split; [intros [x Hx]; discriminate|].
    intros (statsFile & stat & Hfile & Hstat & Hid).
    exfalso. exact (proj1 (recordsOfContainer_nil _ _) Hrecords _ _ Hfile Hstat Hid).
  - split; [intros _|cbn [map]; eauto].
    assert (Hin : In r (recordsOfContainer statsFiles containerID))
      by (rewrite Hrecords; now left).
    apply In_recordsOfContainer in Hin. exists (fst r), (snd r). exact Hin.
Qed.

(** X14. The all-containers aggregator returns one summary for each
    container of the catalog: the IDs of the summaries are those the range
    visited, no ID occurs twice, and an ID occurs exactly when a record of
    the catalog has it. *)
Theorem getAllContainerSummaries_containers
    (keys : list string) (statsFiles : list StatsFile.t) :
  RangeOrder (fst (collectAll statsFiles)) keys ->
  Permutation (map ContainerSummary.ContainerID (getAllContainerSummaries keys statsFiles))
    keys
  /\ NoDup (map ContainerSummary.ContainerID (getAllContainerSummaries keys statsFiles))
  /\ forall containerID : string,
       In containerID
          (map ContainerSummary.ContainerID (getAllContainerSummaries keys statsFiles)) <->
       exists (statsFile : StatsFile.t) (stat : DockerStat.t),
         In statsFile statsFiles /\ In stat (StatsFile.Stats statsFile)
         /\ DockerStat.ID stat = containerID.
Proof.
  intros [Hnodup Hkeys]. rewrite getAllContainerSummaries_spec.
  assert (Hperm : Permutation
            (map ContainerSummary.ContainerID
               (sort.Slice busierFirst (omap (summaryOf statsFiles) keys))) keys).
  { rewrite <- (sort.Slice_Permutation _ busierFirst (omap (summaryOf statsFiles) keys)).
    destruct (summaries_of_keys statsFiles keys) as [-> _]; [|reflexivity].
    intros k Hk. now apply Hkeys. }
  split; [exact Hperm|]. split.
  - rewrite Hperm. exact Hnodup.
  - intros containerID. rewrite <- key_has_records, <- Hkeys.
    split; apply Permutation_in; [|apply Permutation_sym]; exact Hperm.
Qed.

Lemma list_sum_Permutation (l1 l2 : list nat) :
  Permutation l1 l2 -> list_sum l1 = list_sum l2.
Proof.
  induction 1 as [|x l1 l2 _ IH|x y l|l1 l2 l3 _ IH1 _ IH2]; simpl; lia.
Qed.

Lemma list_sum_pointwise_add {A : Type} (f g : A -> nat) (l : list A) :
  list_sum (map (fun a => (f a + g a)%nat) l)
  = (list_sum (map f l) + list_sum (map g l))%nat.
Proof. induction l as [|a l IH]; simpl; lia. Qed.

Lemma list_sum_cons (n : nat) (l : list nat) : list_sum (n :: l) = (n + list_sum l)%nat.
Proof. reflexivity. Qed.

Lemma count_absent_key (k0 : string) (keys : list string) :
  ~ In k0 keys ->
  list_sum (map (fun k => if String.eqb k0 k then 1%nat else 0%nat) keys) = 0%nat.
Proof.
  induction keys as [|k keys IH]; intros Hnotin; [reflexivity|].
  cbn [map]. rewrite list_sum_cons, IH by (intros Hk; apply Hnotin; now right).
  destruct (String.eqb_spec k0 k) as [->|_]; [|reflexivity].
  destruct Hnotin. now left.
Qed.

(** A key occurs once among keys without repetition. *)
Lemma count_key (k0 : string) (keys : list string) :
  NoDup keys -> In k0 keys ->
  list_sum (map (fun k => if String.eqb k0 k then 1%nat else 0%nat) keys) = 1%nat.
Proof.
  induction 1 as [|k keys Hnotin Hnodup IH]; [intros []|].
  rewrite list_elem_of_In in Hnotin. cbn [map]. rewrite list_sum_cons.
  destruct (String.eqb_spec k0 k) as [->|Hne]; intros [Heq|Hin].
  - now rewrite count_absent_key.
  - now destruct Hnotin.
  - now destruct Hne.
  - now rewrite IH.
Qed.

(** The elements of a list, counted key by key. *)
Lemma count_by_key {A : Type} (key : A -> string) (keys : list string) (l : list A) :
  NoDup keys -> (forall a, In a l -> In (key a) keys) ->
  list_sum (map (fun k => length (List.filter (fun a => String.eqb (key a) k) l)) keys)
  = length l.
Proof.
  intros Hnodup. induction l as [|a l IH]; intros Hkeys.
  - cbn [List.filter length]. clear. induction keys as [|k keys IHk]; [reflexivity|].
    cbn [map]. now rewrite list_sum_cons, IHk.
  - cbn [length]. rewrite <- IH by (intros b Hb; apply Hkeys; now right).
    transitivity
      (list_sum (map (fun k => ((if String.eqb (key a) k then 1 else 0)
                                + length (List.filter (fun b => String.eqb (key b) k) l))%nat)
                   keys)).
    + f_equal. apply map_ext. intros k. cbn [List.filter].
      now destruct (String.eqb (key a) k).
    + rewrite list_sum_pointwise_add.
      now rewrite (count_key (key a) keys Hnodup (Hkeys a (or_introl eq_refl))).
Qed.

(** X15. The data point counts of the summaries add up to the number of
    records of the catalog: every record is counted in one summary. *)
Theorem getAllContainerSummaries_counts_every_record
    (keys : list string) (statsFiles : list StatsFile.t) :
  RangeOrder (fst (collectAll statsFiles)) keys ->
  list_sum (map ContainerSummary.DataPoints (getAllContainerSummaries keys statsFiles))
  = length (recordsOf statsFiles).
Proof.
  intros [Hnodup Hkeys]. rewrite getAllContainerSummaries_spec.
  rewrite <- (list_sum_Permutation _ _
                (Permutation_map ContainerSummary.DataPoints
                   (sort.Slice_Permutation _ busierFirst (omap (summaryOf statsFiles) keys)))).
  destruct (summaries_of_keys statsFiles keys) as [_ ->];
    [intros k Hk; now apply Hkeys|].
  rewrite <- (count_by_key (fun r => DockerStat.ID (snd r)) keys (recordsOf statsFiles) Hnodup).
  - f_equal. apply map_ext. intros k. unfold pointsOf, recordsOfContainer. apply length_map.
  - intros r Hr. apply Hkeys, key_has_records.
    unfold recordsOf in Hr. apply in_flat_map in Hr.
    destruct Hr as (statsFile & Hfile & Hr). apply in_map_iff in Hr.
    destruct Hr as (stat & <- & Hstat). exists statsFile, stat. auto.
Qed.

Lemma SFcompare_not_Lt_trans (x y z : spec_float) :
  SFcompare x y = Some Eq \/ SFcompare x y = Some Gt ->
  SFcompare y z = Some Eq \/ SFcompare y z = Some Gt ->
  SFcompare x z = Some Eq \/ SFcompare x z = Some Gt.
Proof.
  destruct x as [sx|sx| |sx mx ex], y as [sy|sy| |sy my ey], z as [sz|sz| |sz mz ez];
    try destruct sx; try destruct sy; try destruct sz; simpl;
    intros [Hxy|Hxy] [Hyz|Hyz]; try discriminate; auto.
  all: revert Hxy Hyz.
  all: fold (Pos.compare mx my); fold (Pos.compare my mz); fold (Pos.compare mx mz).
  all: destruct (Z.compare_spec ex ey), (Z.compare_spec ey ez), (Z.compare_spec ex ez);
    try discriminate; auto; try lia.
  all: destruct (Pos.compare_spec mx my), (Pos.compare_spec my mz), (Pos.compare_spec mx mz);
    simpl; try discriminate; auto; try lia.
Qed.

(** Among values that are no NaN, not being less is transitive. *)
Lemma float_ltb_negtrans (x y z : float) :
  (x =? x)%float = true -> (y =? y)%float = true -> (z =? z)%float = true ->
  (x <? y)%float = false -> (y <? z)%float = false -> (x <? z)%float = false.
Proof.
  rewrite !FloatAxioms.eqb_spec, !FloatAxioms.ltb_spec. unfold SFeqb, SFltb.
  intros Hx Hy Hz Hxy Hyz.
  pose proof (SFcompare_defined _ _ Hx Hy) as Dxy.
  pose proof (SFcompare_defined _ _ Hy Hz) as Dyz.
  pose proof (SFcompare_not_Lt_trans (Prim2SF x) (Prim2SF y) (Prim2SF z)) as Htrans.
  destruct (SFcompare (Prim2SF x) (Prim2SF y)) as [[]|]; try congruence;
    destruct (SFcompare (Prim2SF y) (Prim2SF z)) as [[]|]; try congruence;
    (destruct Htrans as [->| ->]; [auto..|reflexivity|reflexivity]).
Qed.

Lemma busierFirst_ordering_without_NaN (x : list ContainerSummary.t) :
  (forall a, In a x ->
     (ContainerSummary.AvgCPU a =? ContainerSummary.AvgCPU a)%float = true) ->
  sort.TransitiveOrdering busierFirst x.
Proof.
  intros Hnan. constructor.
  - intros a _. rewrite busierFirst_unfold. apply float_ltb_irrefl.
  - intros a b c _ _ _. rewrite !busierFirst_unfold. intros Hab Hbc.
    exact (float_ltb_trans _ _ _ Hbc Hab).
  - intros a b c Ha Hb Hc. rewrite !busierFirst_unfold. intros Hab Hbc.
    exact (float_ltb_negtrans _ _ _ (Hnan c Hc) (Hnan b Hb) (Hnan a Ha) Hbc Hab).
Qed.

(** X17. When no average CPU of the summaries is NaN, the summaries are
    listed by descending average CPU: the average of a summary is greater
    than or equal to that of every summary listed after it. *)
Theorem getAllContainerSummaries_busiest_first
    (keys : list string) (statsFiles : list StatsFile.t)
    (i j : nat) (a b : ContainerSummary.t) :
  (forall summary, In summary (getAllContainerSummaries keys statsFiles) ->
     (ContainerSummary.AvgCPU summary =? ContainerSummary.AvgCPU summary)%float = true) ->
  (i < j)%nat ->
  getAllContainerSummaries keys statsFiles !! i = Some a ->
  getAllContainerSummaries keys statsFiles !! j = Some b ->
  (ContainerSummary.AvgCPU b <=? ContainerSummary.AvgCPU a)%float = true.
Proof.
  rewrite getAllContainerSummaries_spec. intros Hnan Hij Hi Hj.
  pose proof (sort.Slice_Permutation _ busierFirst (omap (summaryOf statsFiles) keys))
    as Hperm.
  assert (Hasc : sort.Ascending busierFirst
                   (sort.Slice busierFirst (omap (summaryOf statsFiles) keys))).
  { apply sort.Slice_Ascending, busierFirst_ordering_without_NaN.
    intros s Hs. apply Hnan. now apply (Permutation_in _ Hperm). }
  pose proof (StronglySorted_lookup _ _ Hasc i j a b Hij Hi Hj) as Hba.
  cbv beta in Hba. rewrite busierFirst_unfold in Hba.
  apply float_not_less; [| |exact Hba]; apply Hnan, list_elem_of_In;
    eapply list_elem_of_lookup_2; eassumption.
Qed.

Lemma last_List_last {A : Type} (l : list A) (d : A) :
  l <> [] -> last l = Some (List.last l d).
Proof.
  induction l as [|a l IH]; [congruence|]. intros _.
  destruct l as [|b l]; [reflexivity|].
  change (last (a :: b :: l)) with (last (b :: l)).
  change (List.last (a :: b :: l) d) with (List.last (b :: l) d).
  apply IH. discriminate.
Qed.

Lemma List_last_map {A B : Type} (f : A -> B) (l : list A) (d : A) :
  List.last (map f l) (f d) = f (List.last l d).
Proof.
  induction l as [|a l IH]; [reflexivity|].
  destruct l as [|b l]; [reflexivity|]. exact IH.
Qed.

(** X18. The summary of a container and the statistics of its series agree:
    the number of data points, the six statistics, and the first and the
    last timestamp of the series are those of the summary. *)
Theorem summary_agrees_with_series
    (keys : list string) (statsFiles : list StatsFile.t) (summary : ContainerSummary.t) :
  In summary (getAllContainerSummaries keys statsFiles) ->
  let r := getContainerComparisonWithStats statsFiles (ContainerSummary.ContainerID summary) in
  let data := ContainerComparison.Data (ContainerComparisonWithStats.Comparison r) in
  ContainerSummary.DataPoints summary = length data
  /\ ContainerSummary.AvgCPU summary = ContainerComparisonWithStats.AvgCPU r
  /\ ContainerSummary.MaxCPU summary = ContainerComparisonWithStats.MaxCPU r
  /\ ContainerSummary.MinCPU summary = ContainerComparisonWithStats.MinCPU r
  /\ ContainerSummary.AvgMem summary = ContainerComparisonWithStats.AvgMem r
  /\ ContainerSummary.MaxMem summary = ContainerComparisonWithStats.MaxMem r
  /\ ContainerSummary.MinMem summary = ContainerComparisonWithStats.MinMem r
  /\ head (map ContainerDataPoint.Timestamp data) = Some (ContainerSummary.FirstSeen summary)
  /\ last (map ContainerDataPoint.Timestamp data) = Some (ContainerSummary.LastSeen summary).
Proof.
  rewrite getAllContainerSummaries_spec. intros Hin.
  apply (Permutation_in _ (Permutation_sym (sort.Slice_Permutation _ busierFirst _))) in Hin.
  apply list_elem_of_In, list_elem_of_omap in Hin.
  destruct Hin as (containerID & _ & Hsummary).
  pose proof (summaryOf_key statsFiles containerID) as Hkey.
  rewrite Hsummary in Hkey. destruct Hkey as (Hid & _ & _). rewrite Hid. clear Hid.
  unfold summaryOf in Hsummary.
  rewrite (proj1 (collectAll_lookup statsFiles containerID)) in Hsummary.
  cbv zeta. unfold getContainerComparisonWithStats.
  rewrite getContainerComparison_Data.
  destruct (pointsOf statsFiles containerID) as [|point points] eqn:Hpoints;
    [discriminate|].
  unfold summarize in Hsummary.
  destruct (sort.Slice olderFirst (point :: points)) as [|point0 sorted] eqn:Hsorted;
    [discriminate|].
  rewrite !length_map.
  destruct (statsLoop (ContainerDataPoint.CPUPerc point0)
              (map ContainerDataPoint.CPUPerc (point0 :: sorted)))
    as [[cpuSum maxCPU] minCPU].
  destruct (statsLoop (ContainerDataPoint.MemPerc point0)
              (map ContainerDataPoint.MemPerc (point0 :: sorted)))
    as [[memSum maxMem] minMem].
  injection Hsummary as <-.
  cbn [ContainerComparisonWithStats.Comparison ContainerComparisonWithStats.AvgCPU
       ContainerComparisonWithStats.MaxCPU ContainerComparisonWithStats.MinCPU
       ContainerComparisonWithStats.AvgMem ContainerComparisonWithStats.MaxMem
       ContainerComparisonWithStats.MinMem
       ContainerSummary.DataPoints ContainerSummary.AvgCPU ContainerSummary.MaxCPU
       ContainerSummary.MinCPU ContainerSummary.AvgMem ContainerSummary.MaxMem
       ContainerSummary.MinMem ContainerSummary.FirstSeen ContainerSummary.LastSeen].
  rewrite getContainerComparison_Data, Hpoints, Hsorted.
  do 8 (split; [reflexivity|]).
  rewrite (last_List_last _ (ContainerDataPoint.Timestamp point0)) by discriminate.
  f_equal. exact (List_last_map ContainerDataPoint.Timestamp (point0 :: sorted) point0).
Qed.

End Summaries.

(** ** The parameter of the main page *)

Lemma of_uint_acc_ge (d : Decimal.uint) :
  forall a : nat, (a <= Nat.of_uint_acc d a)%nat.
Proof.
  induction d as [|d IH|d IH|d IH|d IH|d IH|d IH|d IH|d IH|d IH|d IH]; intros a;
    cbn [Nat.of_uint_acc]; [lia|..];
    (etransitivity; [|apply IH]); rewrite Nat.tail_mul_spec; lia.
Qed.

Ltac next_digit IH a :=
  match goal with
  | |- context [Nat.of_uint_acc _ ?a'] =>
      match goal with
      | |- context [Z.of_nat a * 10 + ?k] =>
          replace (Z.of_nat a * 10 + k) with (Z.of_nat a')
            by (rewrite Nat.tail_mul_spec; lia)
      end
  end.

Lemma atoiDigits_numeral (d : Decimal.uint) :
  forall a : nat,
  strconv.atoiDigits (NilEmpty.string_of_uint d) (Z.of_nat a)
  = Some (Z.of_nat (Nat.of_uint_acc d a)).
Proof.
  induction d as [|d IH|d IH|d IH|d IH|d IH|d IH|d IH|d IH|d IH|d IH]; intros a;
    cbn [NilEmpty.string_of_uint strconv.atoiDigits Nat.of_uint_acc]; [reflexivity|..].
  all: match goal with
       | |- context [strconv.isDigit ?c] =>
           change (strconv.isDigit c) with true; cbv iota;
           let v := eval vm_compute in (time.digitVal c) in
           change (time.digitVal c) with v
       end.
  all: next_digit IH a; apply IH.
Qed.

Lemma parseUintLoop_numeral (d : Decimal.uint) :
  forall a : nat,
  Z.of_nat (Nat.of_uint_acc d a) < 2 ^ 63 ->
  strconv.parseUintLoop (NilEmpty.string_of_uint d) (Z.of_nat a)
  = (Z.of_nat (Nat.of_uint_acc d a), None).
Proof.
  change (2 ^ 63) with 9223372036854775808.
  induction d as [|d IH|d IH|d IH|d IH|d IH|d IH|d IH|d IH|d IH|d IH]; intros a;
    cbn [NilEmpty.string_of_uint strconv.parseUintLoop Nat.of_uint_acc]; [reflexivity|..].
  all: intros Hbound.
  all: match goal with
       | H : Z.of_nat (Nat.of_uint_acc ?d0 ?a') < _ |- _ =>
           pose proof (of_uint_acc_ge d0 a') as Hge;
           pose proof (Nat.tail_mul_spec 10 a) as Hmul
       end.
  all: match goal with
       | |- context [strconv.isDigit ?c] =>
           change (strconv.isDigit c) with true; cbv iota;
           let v := eval vm_compute in (time.digitVal c) in
           change (time.digitVal c) with v
       end.
  all: change (strconv.maxUint64 / 10 + 1) with 1844674407370955162;
    change strconv.maxUint64 with 18446744073709551615.
  all: replace (1844674407370955162 <=? Z.of_nat a) with false
         by (symmetry; apply Z.leb_gt; lia).
  all: cbv zeta;
    match goal with
    | |- context [18446744073709551615 <? ?x] =>
        replace (18446744073709551615 <? x) with false by (symmetry; apply Z.ltb_ge; lia)
    end.
  all: next_digit IH a; apply IH; exact Hbound.
Qed.

Lemma to_uint_digits (n : nat) :
  exists (c : ascii) (rest : string),
    decimal n = String c rest /\ time.isDigit c = true.
Proof.
  unfold decimal.
  assert (Hnonnil : Nat.to_uint n <> Decimal.Nil).
  { rewrite <- (Unsigned.of_to n) at 1. rewrite Unsigned.to_of.
    unfold Decimal.unorm. now destruct (Decimal.nzhead (Nat.to_uint n)). }
  destruct (Nat.to_uint n); [congruence|..]; cbn [NilEmpty.string_of_uint]; eauto.
Qed.

(** [Atoi] reads back the decimal numeral of a number that fits an [int]. *)
Lemma Atoi_decimal (n : nat) :
  Z.of_nat n < 2 ^ 63 -> strconv.Atoi (decimal n) = (Z.of_nat n, None).
Proof.
  intros Hbound.
  destruct (to_uint_digits n) as (c & rest & Hs & Hc).
  assert (Hminus : Ascii.eqb c "-" = false) by now apply digit_differs.
  assert (Hplus : Ascii.eqb c "+" = false) by now apply digit_differs.
  assert (Hvalue : Nat.of_uint_acc (Nat.to_uint n) 0 = n) by apply Unsigned.of_to.
  pose proof (atoiDigits_numeral (Nat.to_uint n) 0) as Hfast.
  pose proof (parseUintLoop_numeral (Nat.to_uint n) 0) as Hslow.
  rewrite Hvalue in Hfast, Hslow. specialize (Hslow Hbound).
  change (Z.of_nat 0) with 0 in Hfast, Hslow. fold (decimal n) in Hfast, Hslow.
  unfold strconv.Atoi. cbv zeta.
  destruct ((0 <? String.length (decimal n))%nat && (String.length (decimal n) <? 19)%nat).
  - rewrite Hs in *. rewrite Hminus, Hplus. cbn [orb andb]. now rewrite Hfast.
  - unfold strconv.ParseInt, strconv.ParseUint. rewrite Hs in *. rewrite Hplus, Hminus.
    rewrite Hslow. cbn [negb andb].
    replace (2 ^ 63 <=? Z.of_nat n) with false by (symmetry; apply Z.leb_gt; lia).
    reflexivity.
Qed.

(** ** The server *)

Section Server.
Context {sorter : sort.Sorter}.

Lemma loadAllStatsFiles_NewestFirst (w : World) (reads : nat) (dir : string)
    (catalog : list StatsFile.t) :
  fst (loadAllStatsFiles w reads dir) = Ok catalog -> NewestFirst catalog.
Proof.
  unfold loadAllStatsFiles. destruct (ReadDir w dir) as [files|]; [|discriminate].
  cbn [fst]. intros [= <-] i j a b Hij Hi Hj.
  pose proof (sort.Slice_Ascending _ newerFirst _
                (newerFirst_ordering
                   (statsFiles (loadLoop w dir files (mkLoading [] [] reads))))) as Hasc.
  pose proof (StronglySorted_lookup _ _ Hasc i j a b Hij Hi Hj) as Hba.
  cbv beta in Hba. now rewrite newerFirst_unfold in Hba.
Qed.

Lemma length_eqb_0 {A : Type} (l : list A) : (length l =? 0)%nat = true <-> l = [].
Proof. destruct l; [split; reflexivity|split; discriminate]. Qed.

Lemma startup_Coherent (w : World) (reads : nat) (store : Store) :
  startup w reads = Serving store -> Coherent store.
Proof.
  unfold startup.
  pose proof (loadAllStatsFiles_NewestFirst w reads "stats/") as Hnewest.
  destruct (fst (loadAllStatsFiles w reads "stats/")) as [[|statsFile catalog]|e];
    try discriminate.
  cbn [length Nat.eqb]. intros [= <-].
  split; [reflexivity|]. split; [discriminate|]. now apply Hnewest.
Qed.

(** X19. The program serves only when the directory "stats/" could be
    listed and holds a well-formed snapshot file; both variables of the store
    then hold the loaded catalog, which is not empty and has its newest
    snapshot first. It ends with the error of the loader when the directory
    cannot be listed, and with the message that no file was found when no
    snapshot file is well-formed. *)
Theorem startup_serves_a_catalog (w : World) (reads : nat) :
  match startup w reads with
  | Serving store =>
      fst (loadAllStatsFiles w reads "stats/") = Ok (serverDataFiles store)
      /\ Coherent store
      /\ exists files : list DirEntry,
           ReadDir w "stats/" = Some files
           /\ List.filter (wellFormed w) (candidates "stats/" files) <> []
  | FatalNoFiles =>
      exists files : list DirEntry,
        ReadDir w "stats/" = Some files
        /\ List.filter (wellFormed w) (candidates "stats/" files) = []
  | FatalLoading e =>
      ReadDir w "stats/" = None /\ e = errReadingDirectory "stats/"
  end.
Proof.
  unfold startup.
  pose proof (loadAllStatsFiles_NewestFirst w reads "stats/") as Hnewest.
  unfold loadAllStatsFiles in *.
  destruct (ReadDir w "stats/") as [files|]; cbn [fst] in *; [|split; reflexivity].
  destruct (loadLoop_candidates w "stats/" files (mkLoading [] [] reads)) as [Hnames _].
  cbn [statsFiles map app] in Hnames.
  pose proof (sort.Slice_Permutation _ newerFirst
                (statsFiles (loadLoop w "stats/" files (mkLoading [] [] reads)))) as Hperm.
  destruct (sort.Slice newerFirst
              (statsFiles (loadLoop w "stats/" files (mkLoading [] [] reads))))
    as [|statsFile catalog] eqn:Hcatalog; cbn [length Nat.eqb].
  - exists files. split; [reflexivity|].
    apply Permutation_sym, Permutation_nil in Hperm. rewrite Hperm in Hnames.
    symmetry in Hnames. now apply map_eq_nil in Hnames.
  - split; [reflexivity|]. split.
    + split; [reflexivity|]. split; [discriminate|]. now apply Hnewest.
    + exists files. split; [reflexivity|]. intros Hnil. rewrite Hnil in Hnames.
      apply map_eq_nil in Hnames. rewrite Hnames in Hperm.
      now apply Permutation_nil in Hperm.
Qed.

Lemma refresh_Coherent (w : World) (reads : nat) (cmdErr : bool) (store : Store) :
  Coherent store -> Coherent (refresh w reads cmdErr store).
Proof.
  intros Hstore. unfold refresh. destruct cmdErr; [assumption|].
  pose proof (loadAllStatsFiles_NewestFirst w reads "stats/") as Hnewest.
  destruct (fst (loadAllStatsFiles w reads "stats/")) as [newStatsFiles|e]; [|assumption].
  destruct newStatsFiles as [|statsFile newStatsFiles]; [assumption|].
  cbn [length Nat.eqb mainStatsFiles]. split; [reflexivity|]. split; [discriminate|].
  now apply Hnewest.
Qed.

(** X20. However many turns the refresh loop runs, and whatever the script
    and the loader do in each, the store the program started with stays
    coherent: both variables hold the same catalog, which is not empty and
    has its newest snapshot first. *)
Theorem refreshLoop_keeps_the_store_coherent
    (w : World) (reads : nat) (store : Store) (ticks : list Tick) :
  startup w reads = Serving store ->
  Coherent (refreshLoop ticks store).
Proof.
  intros Hstart.
  assert (Hstore : Coherent store).
  { exact (startup_Coherent w reads store Hstart). }
  clear Hstart. unfold refreshLoop. revert store Hstore.
  induction ticks as [|tick ticks IH]; intros store Hstore; [assumption|].
  cbn [fold_left]. apply IH. now apply refresh_Coherent.
Qed.

Lemma selectedIndexOf_bounds (store : Store) (fileParam : string) :
  selectedIndexOf store fileParam = 0
  \/ 0 <= selectedIndexOf store fileParam < Z.of_nat (length (mainStatsFiles store)).
Proof.
  unfold selectedIndexOf. destruct (String.eqb fileParam ""); [now left|].
  destruct (strconv.Atoi fileParam) as [idx [e|]]; [now left|].
  destruct ((0 <=? idx) && (idx <? Z.of_nat (length (mainStatsFiles store)))) eqn:Hin;
    [|now left].
  right. apply andb_true_iff in Hin. lia.
Qed.

(** X21. On a coherent store the main page is rendered for every value of
    the parameter [file]: the index selected is within the catalog, and the
    page shows the catalog and the snapshot at that index. *)
Theorem mainPageHandler_serves (store : Store) (fileParam : string) :
  Coherent store ->
  let selectedIndex := selectedIndexOf store fileParam in
  0 <= selectedIndex < Z.of_nat (length (serverDataFiles store))
  /\ exists selectedFile : StatsFile.t,
       serverDataFiles store !! Z.to_nat selectedIndex = Some selectedFile
       /\ mainPageHandler store fileParam
          = ExecuteStats (PageData.mk (serverDataFiles store) selectedFile selectedIndex).
Proof.
  intros (Hsame & Hnonempty & _) selectedIndex.
  assert (Hbounds : 0 <= selectedIndex < Z.of_nat (length (serverDataFiles store))).
  { destruct (selectedIndexOf_bounds store fileParam) as [H|H];
      fold selectedIndex in H; [|now rewrite <- Hsame].
    rewrite H. destruct (serverDataFiles store); [congruence|cbn [length]; lia]. }
  split; [exact Hbounds|].
  destruct (lookup_lt_is_Some_2 (serverDataFiles store) (Z.to_nat selectedIndex))
    as [selectedFile Hfile]; [lia|].
  exists selectedFile. split; [exact Hfile|].
  unfold mainPageHandler. fold selectedIndex. now rewrite Hfile.
Qed.

(** X22. The decimal numeral of the index of a snapshot, which the form of
    the main page submits as the parameter [file], selects that snapshot. *)
Theorem file_parameter_selects (store : Store) (i : nat) (statsFile : StatsFile.t) :
  mainStatsFiles store = serverDataFiles store ->
  Z.of_nat i < 2 ^ 63 ->
  serverDataFiles store !! i = Some statsFile ->
  mainPageHandler store (decimal i)
  = ExecuteStats (PageData.mk (serverDataFiles store) statsFile (Z.of_nat i)).
Proof.
  intros Hsame Hint Hfile.
  assert (Hindex : selectedIndexOf store (decimal i) = Z.of_nat i).
  { unfold selectedIndexOf. destruct (to_uint_digits i) as (c & rest & Hs & _).
    replace (String.eqb (decimal i) "") with false by now rewrite Hs.
    rewrite (Atoi_decimal i Hint), Hsame.
    pose proof (lookup_lt_Some _ _ _ Hfile) as Hlt.
    replace ((0 <=? Z.of_nat i) && (Z.of_nat i <? Z.of_nat (length (serverDataFiles store))))
      with true; [reflexivity|].
    symmetry. apply andb_true_iff. split; [apply Z.leb_le|apply Z.ltb_lt]; lia. }
  unfold mainPageHandler. rewrite Hindex, Nat2Z.id, Hfile. reflexivity.
Qed.

(** X29. The index asked for is checked against [statsFiles] and used on
    [serverData.Files]: in the state between the two assignments of a refresh
    turn, the main page, asked for an index that the new catalog has and the
    old one has not, panics with an index out of range. *)
Theorem mainPageHandler_between_assignments
    (store : Store) (newStatsFiles : list StatsFile.t) (i : nat) :
  (length (serverDataFiles store) <= i < length newStatsFiles)%nat ->
  Z.of_nat i < 2 ^ 63 ->
  mainPageHandler (mkStore newStatsFiles (serverDataFiles store)) (decimal i)
  = IndexOutOfRange.
Proof.
  intros [Hold Hnew] Hint.
  assert (Hindex : selectedIndexOf (mkStore newStatsFiles (serverDataFiles store))
                     (decimal i) = Z.of_nat i).
  { unfold selectedIndexOf. destruct (to_uint_digits i) as (c & rest & Hs & _).
    replace (String.eqb (decimal i) "") with false by now rewrite Hs.
    rewrite (Atoi_decimal i Hint). cbn [mainStatsFiles].
    replace ((0 <=? Z.of_nat i) && (Z.of_nat i <? Z.of_nat (length newStatsFiles)))
      with true; [reflexivity|].
    symmetry. apply andb_true_iff. split; [apply Z.leb_le|apply Z.ltb_lt]; lia. }
  unfold mainPageHandler. rewrite Hindex, Nat2Z.id. cbn [serverDataFiles].
  now rewrite (lookup_ge_None_2 (serverDataFiles store) i Hold).
Qed.

(** X23. Without the parameter [file] the main page of a coherent store
    shows the snapshot at index 0, and no snapshot of the catalog is newer
    than it. *)
Theorem mainPageHandler_default_is_newest (store : Store) :
  Coherent store ->
  exists newest : StatsFile.t,
    mainPageHandler store EmptyString
    = ExecuteStats (PageData.mk (serverDataFiles store) newest 0)
    /\ In newest (serverDataFiles store)
    /\ forall statsFile : StatsFile.t,
         In statsFile (serverDataFiles store) ->
         time.Before (StatsFile.Timestamp newest) (StatsFile.Timestamp statsFile) = false.
Proof.
  intros (_ & Hnonempty & Hnewest). unfold mainPageHandler, selectedIndexOf.
  cbn [String.eqb Z.to_nat].
  destruct (serverDataFiles store) as [|newest files]; [congruence|].
  exists newest. split; [reflexivity|]. split; [now left|].
  intros statsFile [<-|Hin]; [apply Before_irrefl|].
  apply list_elem_of_In, list_elem_of_lookup_1 in Hin. destruct Hin as [j Hj].
  apply (Hnewest 0%nat (S j)); [lia|reflexivity|exact Hj].
Qed.

Lemma HasPrefix_append (prefix s : string) :
  strings.HasPrefix (String.append prefix s) prefix = true.
Proof.
  induction prefix as [|c prefix IH]; [now destruct s|].
  change (strings.HasPrefix (String c (String.append prefix s)) (String c prefix) = true).
  cbn [strings.HasPrefix]. now rewrite Ascii.eqb_refl, IH.
Qed.

Lemma substring_all (s : string) : String.substring 0 (String.length s) s = s.
Proof.
  induction s as [|c s IH]; [reflexivity|]. cbn [String.length String.substring].
  now rewrite IH.
Qed.

Lemma substring_skip (prefix s : string) (n : nat) :
  String.substring (String.length prefix) n (String.append prefix s)
  = String.substring 0 n s.
Proof.
  induction prefix as [|c prefix IH]; [reflexivity|].
  change (String.substring (S (String.length prefix)) n
            (String c (String.append prefix s)) = String.substring 0 n s).
  cbn [String.substring]. exact IH.
Qed.

(** [TrimPrefix] takes a prefix off. *)
Lemma TrimPrefix_append (prefix s : string) :
  strings.TrimPrefix (String.append prefix s) prefix = s.
Proof.
  unfold strings.TrimPrefix. rewrite HasPrefix_append, substring_skip, length_append.
  replace (String.length prefix + String.length s - String.length prefix)%nat
    with (String.length s) by lia.
  apply substring_all.
Qed.

(** X26. The page of a container, asked for the path of a container ID,
    answers 400 when the ID is empty, 404 when no record of the catalog has
    the ID, and otherwise renders the statistics of the series of the
    container. *)
Theorem containerPageHandler_response (store : Store) (containerID : string) :
  containerPageHandler store (String.append "/container/" containerID)
  = if String.eqb containerID "" then HttpError "Container ID required" 400
    else
      match recordsOfContainer (serverDataFiles store) containerID with
      | [] => HttpError "No historical data found for container" 404
      | _ :: _ =>
          ExecuteContainer
            (getContainerComparisonWithStats (serverDataFiles store) containerID)
      end.
Proof.
  unfold containerPageHandler. cbv zeta. rewrite TrimPrefix_append.
  destruct (String.eqb containerID ""); [reflexivity|].
  assert (Hlen : length (ContainerComparison.Data
                           (ContainerComparisonWithStats.Comparison
                              (getContainerComparisonWithStats
                                 (serverDataFiles store) containerID)))
                 = length (recordsOfContainer (serverDataFiles store) containerID)).
  { unfold getContainerComparisonWithStats.
    pose proof (sort.Slice_Permutation _ olderFirst
                  (pointsOf (serverDataFiles store) containerID)) as Hperm.
    apply Permutation_length in Hperm. unfold pointsOf in Hperm at 1.
    rewrite length_map in Hperm. rewrite Hperm, <- getContainerComparison_Data.
    destruct (ContainerComparison.Data
                (getContainerComparison (serverDataFiles store) containerID))
      as [|point0 points] eqn:Hdata.
    - cbn [ContainerComparisonWithStats.Comparison]. now rewrite Hdata.
    - destruct (statsLoop _ _) as [[cpuSum maxCPU] minCPU].
      destruct (statsLoop _ _) as [[memSum maxMem] minMem].
      cbn [ContainerComparisonWithStats.Comparison]. now rewrite Hdata. }
  rewrite Hlen.
  now destruct (recordsOfContainer (serverDataFiles store) containerID).
Qed.

Lemma forallb_Permutation {A : Type} (f : A -> bool) (l1 l2 : list A) :
  Permutation l1 l2 -> forallb f l1 = forallb f l2.
Proof.
  induction 1 as [|x l1 l2 _ IH|x y l|l1 l2 l3 _ IH1 _ IH2]; cbn [forallb].
  - reflexivity.
  - now rewrite IH.
  - now destruct (f x), (f y).
  - congruence.
Qed.

Lemma unsupportedValue_is_finite (f : float) :
  negb (json.unsupportedValue f) = PrimFloat.is_finite f.
Proof.
  unfold json.unsupportedValue, PrimFloat.is_finite.
  now destruct (PrimFloat.is_infinity f), (PrimFloat.is_nan f).
Qed.

(** The series of a container encodes when the two numbers of the data
    point of each record of the container are finite. *)
Lemma encodes_series (statsFiles : list StatsFile.t) (containerID : string) :
  encodes (getContainerComparison statsFiles containerID)
  = forallb finitePoint (pointsOf statsFiles containerID).
Proof.
  unfold encodes. rewrite getContainerComparison_Data.
  rewrite <- (forallb_Permutation _ _ _
                (sort.Slice_Permutation _ olderFirst (pointsOf statsFiles containerID))).
  induction (pointsOf statsFiles containerID) as [|point points IH]; [reflexivity|].
  cbn [forallb]. rewrite IH. unfold finitePoint at 1.
  now rewrite !unsupportedValue_is_finite.
Qed.

(** X25. The API of a container, asked for the path of a container ID,
    answers 400 when the ID is empty. Otherwise it writes the series of the
    container, which is the series without a name and without a point when
    no record of the catalog has the ID, provided that the CPU and the
    memory percentage of every record of the container convert to finite
    numbers; when one of them converts to NaN or to an infinity, the encoder
    fails and the API answers 500. It never answers 404. *)
Theorem apiContainerHandler_response (store : Store) (containerID : string) :
  apiContainerHandler store (String.append "/api/container/" containerID)
  = if String.eqb containerID "" then HttpError "Container ID required" 400
    else
      match recordsOfContainer (serverDataFiles store) containerID with
      | [] => EncodeJSON (ContainerComparison.mk containerID EmptyString [])
      | _ :: _ =>
          if forallb finitePoint (pointsOf (serverDataFiles store) containerID)
          then
            EncodeJSON
              (ContainerComparison.mk containerID
                 (firstNonEmptyName (serverDataFiles store) containerID)
                 (sort.Slice olderFirst (pointsOf (serverDataFiles store) containerID)))
          else HttpError "Error encoding response" 500
      end.
Proof.
  unfold apiContainerHandler. cbv zeta. rewrite TrimPrefix_append.
  destruct (String.eqb containerID ""); [reflexivity|].
  rewrite encodes_series, getContainerComparison_spec.
  destruct (recordsOfContainer (serverDataFiles store) containerID) as [|r records] eqn:Hr;
    [|reflexivity].
  unfold firstNonEmptyName, pointsOf. rewrite Hr. cbn [map firstNonEmpty forallb].
  pose proof (sort.Slice_Permutation _ olderFirst (@nil ContainerDataPoint.t)) as Hperm.
  apply Permutation_nil in Hperm. now rewrite Hperm.
Qed.

(** X24. The template function [parseFloat] reads a percentage as the
    conversion of the records does: the number before the trailing "%", 0 for
    a missing or malformed text; the numbers it gives for the two percentages
    of a record are those of the record's data point. *)
Theorem parseFloat_normalizes (text : string) :
  Normalized text (parseFloat text)
  /\ forall (statsFile : StatsFile.t) (stat : DockerStat.t),
       parseFloat (DockerStat.CPUPerc stat)
       = ContainerDataPoint.CPUPerc (dataPointOf statsFile stat)
       /\ parseFloat (DockerStat.MemPerc stat)
          = ContainerDataPoint.MemPerc (dataPointOf statsFile stat).
Proof.
  split; [|split; reflexivity].
  exact (proj1 (dataPointOf_Converted
                  (StatsFile.mk EmptyString time.zero [])
                  (DockerStat.mk EmptyString text EmptyString EmptyString EmptyString
                     EmptyString EmptyString EmptyString EmptyString))).
Qed.

Lemma earlierFirst_unfold (a b : StatsFile.t) :
  earlierFirst a b = time.Before (StatsFile.Timestamp a) (StatsFile.Timestamp b).
Proof. reflexivity. Qed.

Lemma earlierFirst_ordering (x : list StatsFile.t) :
  sort.TransitiveOrdering earlierFirst x.
Proof.
  constructor.
  - intros a _. rewrite earlierFirst_unfold. apply Before_irrefl.
  - intros a b c _ _ _. rewrite !earlierFirst_unfold. apply Before_trans.
  - intros a b c _ _ _. rewrite !earlierFirst_unfold. apply Before_negtrans.
Qed.

Lemma pickStep_Picked (summaries : list ContainerSummary.t) (k : nat)
    (acc : option nat * option nat) :
  (k < length summaries)%nat ->
  Picked summaries k acc -> Picked summaries (S k) (pickStep summaries acc k).
Proof.
  intros Hk. destruct (lookup_lt_is_Some_2 summaries k Hk) as [summary Hsummary].
  unfold pickStep. destruct acc as [[h|] [m|]]; cbn [Picked]; try contradiction.
  - intros (peak & most & Hpeak & Hmost & Hmax & Hcount & Hfirst).
    rewrite Hsummary. cbn [mbind option_bind]. rewrite Hpeak, Hmost.
    assert (Hmax' : exists (h' : nat) (peak' : ContainerSummary.t),
               (if (ContainerSummary.MaxCPU peak <? ContainerSummary.MaxCPU summary)%float
                then Some k else Some h) = Some h'
               /\ summaries !! h' = Some peak'
               /\ forall (j : nat) (t : ContainerSummary.t),
                    (j < S k)%nat -> summaries !! j = Some t ->
                    (ContainerSummary.MaxCPU peak' <? ContainerSummary.MaxCPU t)%float = false).
    { destruct (ContainerSummary.MaxCPU peak <? ContainerSummary.MaxCPU summary)%float
        eqn:Hless.
      - exists k, summary. split; [reflexivity|]. split; [assumption|].
        intros j t Hj Ht. destruct (decide (j = k)) as [->|Hne].
        + assert (t = summary) by congruence. subst t. apply float_ltb_irrefl.
        + apply (float_raise _ _ _ Hless). apply (Hmax j); [lia|assumption].
      - exists h, peak. split; [reflexivity|]. split; [assumption|].
        intros j t Hj Ht. destruct (decide (j = k)) as [->|Hne].
        + assert (t = summary) by congruence. now subst t.
        + apply (Hmax j); [lia|assumption]. }
    destruct Hmax' as (h' & peak' & -> & Hpeak' & Hmax').
    destruct (Nat.ltb_spec (ContainerSummary.DataPoints most)
                (ContainerSummary.DataPoints summary)) as [Hless|Hge].
    + exists peak', summary. repeat split; try assumption.
      * intros j t Hj Ht. destruct (decide (j = k)) as [->|Hne].
        -- assert (t = summary) by congruence. subst t. lia.
        -- specialize (Hcount j t ltac:(lia) Ht). lia.
      * intros j t Hj Ht. specialize (Hcount j t Hj Ht). lia.
    + exists peak', most. repeat split; try assumption.
      intros j t Hj Ht. destruct (decide (j = k)) as [->|Hne].
      * assert (t = summary) by congruence. now subst t.
      * apply (Hcount j); [lia|assumption].
  - intros ->. rewrite Hsummary. cbn [mbind option_bind].
    exists summary, summary. repeat split; try assumption.
    + intros j t Hj Ht. assert (j = 0%nat) by lia. subst j.
      assert (t = summary) by congruence. subst t. apply float_ltb_irrefl.
    + intros j t Hj Ht. assert (j = 0%nat) by lia. subst j.
      assert (t = summary) by congruence. now subst t.
    + intros j t Hj. lia.
Qed.

Lemma pickLoop_Picked (summaries : list ContainerSummary.t) :
  Picked summaries (length summaries) (pickLoop summaries).
Proof.
  unfold pickLoop.
  assert (H : forall k, (k <= length summaries)%nat ->
            Picked summaries k (fold_left (pickStep summaries) (seq 0 k) (None, None))).
  { induction k as [|k IH]; intros Hk; [reflexivity|].
    rewrite seq_S, fold_left_app. cbn [fold_left Nat.add].
    apply pickStep_Picked; [lia|]. apply IH. lia. }
  apply H. lia.
Qed.

(** X28. Of the summaries it is given, the loop of the summary page picks
    one whose maximum CPU none exceeds, and the first of those with the
    greatest number of data points; it picks none only when there is no
    summary. *)
Theorem pickLoop_picks_the_greatest (summaries : list ContainerSummary.t) :
  match pickLoop summaries with
  | (Some h, Some m) =>
      exists peak most : ContainerSummary.t,
        summaries !! h = Some peak /\ summaries !! m = Some most
        /\ (forall t : ContainerSummary.t, In t summaries ->
              (ContainerSummary.MaxCPU peak <? ContainerSummary.MaxCPU t)%float = false)
        /\ (forall t : ContainerSummary.t, In t summaries ->
              (ContainerSummary.DataPoints t <= ContainerSummary.DataPoints most)%nat)
        /\ (forall (j : nat) (t : ContainerSummary.t),
              (j < m)%nat -> summaries !! j = Some t ->
              (ContainerSummary.DataPoints t < ContainerSummary.DataPoints most)%nat)
  | (None, None) => summaries = []
  | _ => False
  end.
Proof.
  pose proof (pickLoop_Picked summaries) as H. unfold Picked in H.
  destruct (pickLoop summaries) as [[h|] [m|]]; try contradiction.
  - destruct H as (peak & most & Hpeak & Hmost & Hmax & Hcount & Hfirst).
    exists peak, most. repeat split; try assumption.
    + intros t Ht. apply list_elem_of_In, list_elem_of_lookup_1 in Ht.
      destruct Ht as [j Hj]. apply (Hmax j); [|assumption].
      now apply lookup_lt_Some in Hj.
    + intros t Ht. apply list_elem_of_In, list_elem_of_lookup_1 in Ht.
      destruct Ht as [j Hj]. apply (Hcount j); [|assumption].
      now apply lookup_lt_Some in Hj.
  - now apply length_zero_iff_nil.
Qed.

(** X27. The summary page is rendered for every store: with the summaries
    of the catalog, the number of its snapshots, and as the analysis period
    the timestamps of a snapshot that none is older than and of a snapshot
    that none is newer than; the period is empty when the catalog is. *)
Theorem summaryHandler_period (keys : list string) (store : Store) :
  exists pageData : SummaryPageData.t,
    summaryHandler keys store = ExecuteSummary pageData
    /\ SummaryPageData.Summaries pageData
       = getAllContainerSummaries keys (serverDataFiles store)
    /\ SummaryPageData.TotalFiles pageData = length (serverDataFiles store)
    /\ match serverDataFiles store with
       | [] =>
           SummaryPageData.FirstTimestamp pageData = EmptyString
           /\ SummaryPageData.LastTimestamp pageData = EmptyString
       | _ :: _ =>
           exists first last : StatsFile.t,
             In first (serverDataFiles store) /\ In last (serverDataFiles store)
             /\ SummaryPageData.FirstTimestamp pageData
                = time.Format (StatsFile.Timestamp first) time.pointLayout
             /\ SummaryPageData.LastTimestamp pageData
                = time.Format (StatsFile.Timestamp last) time.pointLayout
             /\ forall statsFile : StatsFile.t,
                  In statsFile (serverDataFiles store) ->
                  time.Before (StatsFile.Timestamp statsFile) (StatsFile.Timestamp first)
                  = false
                  /\ time.Before (StatsFile.Timestamp last) (StatsFile.Timestamp statsFile)
                     = false
       end.
Proof.
  unfold summaryHandler. cbv zeta.
  destruct (pickLoop (getAllContainerSummaries keys (serverDataFiles store)))
    as [highestPeakCPU mostDataPoints].
  destruct (serverDataFiles store) as [|statsFile files] eqn:Hfiles.
  - cbn [length Nat.ltb Nat.leb]. eexists. split; [reflexivity|].
    cbn [SummaryPageData.Summaries SummaryPageData.TotalFiles
         SummaryPageData.FirstTimestamp SummaryPageData.LastTimestamp]. auto.
  - cbn [length Nat.ltb Nat.leb].
    pose proof (sort.Slice_Permutation _ earlierFirst (statsFile :: files)) as Hperm.
    pose proof (sort.Slice_Ascending _ earlierFirst _
                  (earlierFirst_ordering (statsFile :: files))) as Hasc.
    destruct (sort.Slice earlierFirst (statsFile :: files)) as [|first sorted] eqn:Hsorted;
      [now apply Permutation_sym, Permutation_nil in Hperm|].
    cbn [lookup list_lookup length Nat.sub].
    rewrite Nat.sub_0_r.
    assert (Hlast : (first :: sorted) !! length sorted
                    = Some (List.last (first :: sorted) first)).
    { clear. revert first. induction sorted as [|x sorted IH]; intros first; [reflexivity|].
      cbn [length]. change ((first :: x :: sorted) !! S (length sorted))
        with ((x :: sorted) !! length sorted).
      rewrite IH. f_equal. clear.
      change (List.last (first :: x :: sorted) first) with (List.last (x :: sorted) first).
      revert x. induction sorted as [|y sorted IH]; intros x; [reflexivity|].
      change (List.last (x :: y :: sorted) x) with (List.last (y :: sorted) x).
      change (List.last (x :: y :: sorted) first) with (List.last (y :: sorted) first).
      destruct sorted as [|z sorted]; [reflexivity|].
      change (List.last (y :: z :: sorted) x) with (List.last (z :: sorted) x).
      change (List.last (y :: z :: sorted) first) with (List.last (z :: sorted) first).
      clear. revert z. induction sorted as [|u sorted IH]; intros z; [reflexivity|].
      exact (IH u). }
    rewrite Hlast. eexists. split; [reflexivity|].
    cbn [SummaryPageData.Summaries SummaryPageData.TotalFiles
         SummaryPageData.FirstTimestamp SummaryPageData.LastTimestamp].
    split; [reflexivity|]. split; [reflexivity|].
    exists first, (List.last (first :: sorted) first).
    split; [apply (Permutation_in _ (Permutation_sym Hperm)); now left|].
    split; [apply (Permutation_in _ (Permutation_sym Hperm)), last_In; discriminate|].
    split; [reflexivity|]. split; [reflexivity|].
    intros f Hf. apply (Permutation_in _ Hperm) in Hf. split.
    + destruct Hf as [<-|Hf]; [apply Before_irrefl|].
      unfold sort.Ascending in Hasc. inversion Hasc as [|? ? _ Hall]; subst.
      rewrite List.Forall_forall in Hall. exact (Hall f Hf).
    + rewrite <- earlierFirst_unfold. apply Ascending_last; [|assumption|assumption].
      intros a. rewrite earlierFirst_unfold. apply Before_irrefl.
Qed.

End Server.

(** ** Witnesses of the further properties *)

Lemma parseStatsFile_records_witness :
  StatsFile.Stats snapshotA11 = [record "abc" "web" "30.00%" "40.00%"]
  /\ length (StatsFile.Stats snapshotA11) = 1%nat.
Proof.
  pose proof (parseStatsFile_records scenarioB (Now scenarioB 0)
                "stats/2024-01-01_11-00-00_x.json" snapshotA11) as H.
  vm_compute in H. apply H. reflexivity.
Defined.

Lemma parseStatsFile_first_bad_line_witness :
  parseStatsFile scenarioC (Now scenarioC 0) "stats/broken.json"
  = Err (errParsingLine 3 "stats/broken.json").
Proof.
  refine (parseStatsFile_first_bad_line scenarioC (Now scenarioC 0) "stats/broken.json"
            _ [jsonLine "abc" "web" "10.00%" "20.00%"; "  "] "{not json"
            [jsonLine "abc" "web" "30.00%" "40.00%"] _ _ _ _);
    vm_compute; reflexivity.
Defined.

Lemma parseStatsFile_scanner_error_witness :
  parseStatsFile scenarioC (Now scenarioC 0) "stats/truncated.json"
  = Err (errReadingFile "stats/truncated.json").
Proof.
  refine (parseStatsFile_scanner_error scenarioC (Now scenarioC 0) "stats/truncated.json"
            _ _ _ _); vm_compute; reflexivity.
Defined.

Lemma loadAllStatsFiles_contents_witness :
  Permutation
    (map nameAndStats [snapshotA11; snapshotA10])
    [("2024-01-01_10-00-00_x.json", [record "abc" "web" "10.00%" "20.00%"]);
     ("2024-01-01_11-00-00_x.json", [record "abc" "web" "30.00%" "40.00%"])].
Proof.
  pose proof (loadAllStatsFiles_contents (sorter := insertionSorter) scenarioB 0 "stats/"
                _ [snapshotA11; snapshotA10] ["stats/2024-01-01_10-30-00_x.json"]
                eq_refl) as H.
  vm_compute in H |- *. apply H. reflexivity.
Defined.

Lemma loadAllStatsFiles_names_witness :
  Permutation (map StatsFile.Name [snapshotA11; snapshotA10])
    ["2024-01-01_10-00-00_x.json"; "2024-01-01_11-00-00_x.json"].
Proof.
  pose proof (loadAllStatsFiles_names (sorter := insertionSorter) scenarioB 0 "stats/"
                _ [snapshotA11; snapshotA10] ["stats/2024-01-01_10-30-00_x.json"]
                eq_refl) as H.
  assert (Hplain : forall file, In file
            [mkDirEntry "2024-01-01_10-00-00_x.json" false;
             mkDirEntry "2024-01-01_10-30-00_x.json" false;
             mkDirEntry "2024-01-01_11-00-00_x.json" false;
             mkDirEntry "notes.txt" false;
             mkDirEntry "old.json" true] ->
            strings.Contains (entryName file) "/" = false).
  { intros file Hin. cbn [In] in Hin.
    repeat (destruct Hin as [<-|Hin]; [reflexivity|]). destruct Hin. }
  specialize (H Hplain). vm_compute in H |- *. apply H. reflexivity.
Defined.

Lemma collected_file_timestamp_witness :
  parseStatsFile scenarioC (Now scenarioC 0) "stats/2024-01-01_10-00-00_docker_stats.json"
  = Ok (StatsFile.mk "2024-01-01_10-00-00_docker_stats.json"
          (time.mkTime 2024 1 1 10 0 0 0 0) [record "abc" "web" "10.00%" "20.00%"]).
Proof.
  pose proof (collected_file_timestamp scenarioC (Now scenarioC 0)
                (time.mkTime 2024 1 1 10 0 0 123 3600)) as H.
  assert (Hvalid : validStamp (time.mkTime 2024 1 1 10 0 0 123 3600))
    by (repeat split; vm_compute; congruence).
  specialize (H Hvalid ltac:(vm_compute; congruence)).
  vm_compute in H |- *. apply H. reflexivity.
Defined.

Lemma parseStatsFile_timestamp_of_json_name_witness :
  StatsFile.Timestamp snapshotA10 = time.mkTime 2024 1 1 10 0 0 0 0.
Proof.
  refine (proj1 (parseStatsFile_timestamp_of_json_name scenarioA (Now scenarioA 0)
                   "stats/2024-01-01_10-00-00_x.json" snapshotA10 _ _) _ _ _).
  - vm_compute. reflexivity.
  - vm_compute. reflexivity.
  - vm_compute. lia.
  - vm_compute. reflexivity.
Defined.

Lemma data_points_ordered_by_wall_clock_witness :
  time.Parse time.pointLayout "2024-01-01 10:00:00" = Some (time.mkTime 2024 1 1 10 0 0 0 0)
  /\ olderFirst (dataPointOf snapshotA10 (record "abc" "web" "10.00%" "20.00%"))
       (dataPointOf snapshotA11 (record "abc" "web" "30.00%" "40.00%"))
     = true.
Proof.
  pose proof (data_points_ordered_by_wall_clock snapshotA10 snapshotA11
                (record "abc" "web" "10.00%" "20.00%")
                (record "abc" "web" "30.00%" "40.00%")) as H.
  assert (H10 : validStamp (StatsFile.Timestamp snapshotA10))
    by (repeat split; vm_compute; congruence).
  assert (H11 : validStamp (StatsFile.Timestamp snapshotA11))
    by (repeat split; vm_compute; congruence).
  destruct (H H10 H11) as [Hparse Holder]. split.
  - vm_compute in Hparse |- *. exact Hparse.
  - rewrite Holder. vm_compute. reflexivity.
Defined.

Lemma loaded_series_oldest_first_witness :
  exists ta tb : time.Time,
    time.Parse time.pointLayout "2024-01-01 10:00:00" = Some ta
    /\ time.Parse time.pointLayout "2024-01-01 11:00:00" = Some tb
    /\ time.Before tb ta = false.
Proof.
  apply (loaded_series_oldest_first (sorter := insertionSorter) (steadyClock scenarioA)
           0 "stats/" [snapshotA11; snapshotA10] [] "abc" 0
           (dataPointOf snapshotA10 (record "abc" "web" "10.00%" "20.00%"))
           (dataPointOf snapshotA11 (record "abc" "web" "30.00%" "40.00%"))).
  - intros n. repeat split; vm_compute; congruence.
  - vm_compute. reflexivity.
  - vm_compute. reflexivity.
  - vm_compute. reflexivity.
Defined.

Lemma getContainerComparison_any_order_witness :
  ContainerComparison.Data
    (getContainerComparison (sorter := insertionSorter) [snapshotA11; snapshotA10] "abc")
  = ContainerComparison.Data
      (getContainerComparison (sorter := insertionSorter) [snapshotA10; snapshotA11] "abc").
Proof.
  apply (getContainerComparison_any_order (sorter := insertionSorter)).
  - apply perm_swap.
  - intros a b Ha Hb. vm_compute in Ha, Hb.
    destruct Ha as [<-|[<-|[]]], Hb as [<-|[<-|[]]];
      first [now left|right; left; vm_compute; reflexivity
            |right; right; vm_compute; reflexivity].
Defined.

Lemma getContainerComparisonWithStats_bounds_witness :
  let r := getContainerComparisonWithStats (sorter := insertionSorter) catalogA "abc" in
  (ContainerComparisonWithStats.MinCPU r <=? 30)%float = true
  /\ (30 <=? ContainerComparisonWithStats.MaxCPU r)%float = true.
Proof.
  pose proof (getContainerComparisonWithStats_bounds (sorter := insertionSorter)
                catalogA "abc"
                (dataPointOf snapshotA11 (record "abc" "web" "30.00%" "40.00%"))) as H.
  cbv zeta in H.
  refine (proj1 (H _) _).
  - vm_compute. right. left. reflexivity.
  - intros v Hv. vm_compute in Hv. destruct Hv as [<-|[<-|[]]]; vm_compute; reflexivity.
Defined.

Lemma getAllContainerSummaries_ContainerName_witness :
  last (map (fun r => DockerStat.Name (snd r)) (recordsOfContainer renamed "abc"))
  = Some "web-old".
Proof.
  apply (getAllContainerSummaries_ContainerName (sorter := insertionSorter) ["abc"] renamed
           (ContainerSummary.mk "abc" "web-old" 2
              (fst (strconv.ParseFloat "17.5")) (fst (strconv.ParseFloat "30"))
              (fst (strconv.ParseFloat "5")) (fst (strconv.ParseFloat "30"))
              (fst (strconv.ParseFloat "40")) (fst (strconv.ParseFloat "20"))
              "2024-01-01 09:00:00" "2024-01-01 11:00:00")).
  vm_compute. left. reflexivity.
Defined.

Lemma getAllContainerSummaries_containers_witness :
  Permutation
    (map ContainerSummary.ContainerID
       (getAllContainerSummaries (sorter := insertionSorter) ["bbb"; "aaa"] untied))
    ["bbb"; "aaa"].
Proof.
  apply (getAllContainerSummaries_containers (sorter := insertionSorter)).
  apply untied_keys. apply perm_swap.
Defined.

Lemma getAllContainerSummaries_counts_every_record_witness :
  list_sum (map ContainerSummary.DataPoints
              (getAllContainerSummaries (sorter := insertionSorter) ["bbb"; "aaa"] untied))
  = 2%nat.
Proof.
  pose proof (getAllContainerSummaries_counts_every_record (sorter := insertionSorter)
                ["bbb"; "aaa"] untied (untied_keys _ (perm_swap _ _ _))) as H.
  exact H.
Defined.

Lemma getAllContainerSummaries_busiest_first_witness :
  map ContainerSummary.ContainerID
    (getAllContainerSummaries (sorter := insertionSorter) ["aaa"; "bbb"] untied)
  = ["bbb"; "aaa"]
  /\ (fst (strconv.ParseFloat "1") <=? fst (strconv.ParseFloat "2"))%float = true.
Proof.
  split; [vm_compute; reflexivity|].
  refine (getAllContainerSummaries_busiest_first (sorter := insertionSorter)
            ["aaa"; "bbb"] untied 0 1
            (ContainerSummary.mk "bbb" "beta" 1
               (fst (strconv.ParseFloat "2")) (fst (strconv.ParseFloat "2"))
               (fst (strconv.ParseFloat "2")) (fst (strconv.ParseFloat "40"))
               (fst (strconv.ParseFloat "40")) (fst (strconv.ParseFloat "40"))
               "2024-01-01 10:00:00" "2024-01-01 10:00:00")
            (ContainerSummary.mk "aaa" "alpha" 1
               (fst (strconv.ParseFloat "1")) (fst (strconv.ParseFloat "1"))
               (fst (strconv.ParseFloat "1")) (fst (strconv.ParseFloat "20"))
               (fst (strconv.ParseFloat "20")) (fst (strconv.ParseFloat "20"))
               "2024-01-01 10:00:00" "2024-01-01 10:00:00") _ _ _ _).
  - intros summary Hin. vm_compute in Hin.
    destruct Hin as [<-|[<-|[]]]; vm_compute; reflexivity.
  - lia.
  - vm_compute. reflexivity.
  - vm_compute. reflexivity.
Defined.

Lemma summary_agrees_with_series_witness :
  let r := getContainerComparisonWithStats (sorter := insertionSorter) catalogA "abc" in
  ContainerComparisonWithStats.AvgCPU r = fst (strconv.ParseFloat "20")
  /\ length (ContainerComparison.Data (ContainerComparisonWithStats.Comparison r)) = 2%nat.
Proof.
  pose proof (summary_agrees_with_series (sorter := insertionSorter) ["abc"] catalogA
                (ContainerSummary.mk "abc" "web" 2
                   (fst (strconv.ParseFloat "20")) (fst (strconv.ParseFloat "30"))
                   (fst (strconv.ParseFloat "10")) (fst (strconv.ParseFloat "30"))
                   (fst (strconv.ParseFloat "40")) (fst (strconv.ParseFloat "20"))
                   "2024-01-01 10:00:00" "2024-01-01 11:00:00")) as H.
  cbv zeta in H. destruct H as (Hcount & Havg & _).
  - vm_compute. left. reflexivity.
  - split; [symmetry; exact Havg|symmetry; exact Hcount].
Defined.

Lemma refreshLoop_keeps_the_store_coherent_witness :
  Coherent
    (refreshLoop (sorter := insertionSorter)
       [mkTick scenarioB 2 false; mkTick bareStamp 4 false; mkTick scenarioA 4 true]
       (mkStore catalogA catalogA)).
Proof.
  apply (refreshLoop_keeps_the_store_coherent (sorter := insertionSorter) scenarioA 0).
  vm_compute. reflexivity.
Defined.

Lemma mainPageHandler_serves_witness :
  mainPageHandler (mkStore catalogA catalogA) "7"
  = ExecuteStats (PageData.mk catalogA snapshotA11 0).
Proof.
  destruct (mainPageHandler_serves (mkStore catalogA catalogA) "7") as (_ & file & Hfile & ->).
  - exact (startup_Coherent (sorter := insertionSorter) scenarioA 0 _ eq_refl).
  - vm_compute in Hfile |- *. now injection Hfile as <-.
Defined.

Lemma file_parameter_selects_witness :
  mainPageHandler (mkStore catalogA catalogA) "1"
  = ExecuteStats (PageData.mk catalogA snapshotA10 1).
Proof.
  refine (file_parameter_selects (mkStore catalogA catalogA) 1 snapshotA10 _ _ _).
  - reflexivity.
  - vm_compute. reflexivity.
  - reflexivity.
Defined.

Lemma mainPageHandler_default_is_newest_witness :
  exists newest : StatsFile.t,
    mainPageHandler (mkStore catalogA catalogA) EmptyString
    = ExecuteStats (PageData.mk catalogA newest 0)
    /\ In newest catalogA
    /\ forall statsFile : StatsFile.t,
         In statsFile catalogA ->
         time.Before (StatsFile.Timestamp newest) (StatsFile.Timestamp statsFile) = false.
Proof.
  apply (mainPageHandler_default_is_newest (mkStore catalogA catalogA)).
  exact (startup_Coherent (sorter := insertionSorter) scenarioA 0 _ eq_refl).
Defined.

Lemma mainPageHandler_between_assignments_witness :
  mainPageHandler (mkStore catalogA [snapshotA11]) "1" = IndexOutOfRange.
Proof.
  refine (mainPageHandler_between_assignments (mkStore [snapshotA11] [snapshotA11])
            catalogA 1 _ _).
  - cbn [serverDataFiles length catalogA]. lia.
  - vm_compute. reflexivity.
Defined.

Lemma apiContainerHandler_response_witness :
  apiContainerHandler (sorter := insertionSorter) (mkStore catalogA catalogA)
    "/api/container/abc"
  = EncodeJSON (getContainerComparison (sorter := insertionSorter) catalogA "abc")
  /\ apiContainerHandler (sorter := insertionSorter) (mkStore catalogA catalogA)
       "/api/container/xyz"
     = EncodeJSON (ContainerComparison.mk "xyz" EmptyString [])
  /\ apiContainerHandler (sorter := insertionSorter) (mkStore notANumber notANumber)
       "/api/container/abc"
     = HttpError "Error encoding response" 500
  /\ apiContainerHandler (sorter := insertionSorter) (mkStore catalogA catalogA)
       "/api/container/"
     = HttpError "Container ID required" 400.
Proof.
  pose proof (apiContainerHandler_response (sorter := insertionSorter)) as H.
  split; [|split; [|split]].
  - etransitivity; [exact (H (mkStore catalogA catalogA) "abc")|].
    vm_compute. reflexivity.
  - etransitivity; [exact (H (mkStore catalogA catalogA) "xyz")|].
    vm_compute. reflexivity.
  - etransitivity; [exact (H (mkStore notANumber notANumber) "abc")|].
    vm_compute. reflexivity.
  - etransitivity; [exact (H (mkStore catalogA catalogA) EmptyString)|].
    vm_compute. reflexivity.
Defined.
